(** * The webpack analyzer server

    A shallow embedding of the class [WebpackAnalyzerServer] and of the
    functions of its file, followed by the properties of the
    specification and by further properties of the code.  Two parts:
    - the metrics extraction, [extractMetrics], [calculateChunkSize] and
      [getModuleType], functions of the stats document alone;
    - the tools: the validators of the arguments and the handler of the
      tool calls, the path resolution [resolvePath] and [validatePath],
      and the methods [analyzeWebpackStats], [analyzeWebpackConfig] and
      [analyzeNextjsBuild], which ask the file system and run commands.

    The stats document always comes out of [JSON.parse], so the values
    the three functions meet are JSON values (plus [undefined], the result
    of reading a missing property).  The functions are typed [any]; the
    embedding therefore keeps JavaScript's dynamic behaviour: truthiness,
    [||], property reads that throw on [null], [+] that adds numbers or
    concatenates strings, the conversions [ToPrimitive], [ToString] and
    [ToNumber], and [TypeError]s, which the [try]/[catch] of
    [extractMetrics] turns into the degenerate report.

    Modelling choices:
    - a number is an IEEE 754 binary64 value, Rocq's primitive [float];
    - a string is a [string]; its characters stand for UTF-16 code units
      (code units below 256 are covered);
    - an object is the list of its own properties in enumeration order;
    - [path] is Node's POSIX [path] module;
    - members inherited from [Object.prototype] are modelled where the
      source can reach them: with a fixed name ([toString], [includes]),
      and with the computed key of [totalSizeByType] (an asset called
      [x.constructor] reads the inherited [constructor]);
    - a method that asks its environment is a tree of questions ([io]);
      it is run against an environment ([world]) that answers each
      question knowing what was asked before, so that a file may come
      and go between two questions; [JSON.parse], [JSON.stringify] and
      the functions of [path] the tools call are parameters
      ([library]). *)

From Stdlib Require Import Bool Arith ZArith Lia List String Ascii.
From Stdlib Require Import QArith Qround DecimalString.
From Stdlib Require Import Floats Permutation.
Import ListNotations.

#[local] Set Warnings "-register-all,-inexact-float".

Local Close Scope Q_scope.
Local Open Scope list_scope.
Local Open Scope string_scope.

(** ** Abrupt completion *)

(** A JavaScript evaluation either returns a value or throws.  The only
    exceptions the three functions can meet are [TypeError]s; the handler
    of [extractMetrics] hands the exception to [console.error] and does
    not look at it, so [Throw] carries none. *)
Inductive exc (A : Type) : Type :=
| Normal (a : A)
| Throw.
Arguments Normal {A} a.
Arguments Throw {A}.

Definition ret {A} (a : A) : exc A := Normal a.

Definition bind {A B} (m : exc A) (k : A -> exc B) : exc B :=
  match m with
  | Normal a => k a
  | Throw => Throw
  end.

Declare Scope exc_scope.
Delimit Scope exc_scope with exc.
Notation "x <- m ;; k" := (bind m (fun x => k))
  (at level 61, m at next level, right associativity) : exc_scope.
Notation "' p <- m ;; k" := (bind m (fun x => let p := x in k))
  (at level 61, p pattern, m at next level, right associativity) : exc_scope.

(** An [Error]: its message, the [code] the file system and Node give
    their errors ([ENOENT], [EACCES], ...; an error made by [new Error]
    has none), and its stack trace. *)
Record js_error : Type := {
  message : string;
  code : option string;
  stack : string
}.

(** What [console.error] is given, argument by argument: a text or an
    error.  Of a [TypeError] the language raises in the three functions,
    whose message and stack the engine words, the embedding keeps that it
    is one ([Throw] carries nothing). *)
Inductive console_arg : Type :=
| Text (s : string)
| TypeError
| Thrown (e : js_error).

(** [Array.prototype.forEach] / [reduce] with a callback that may throw. *)
Fixpoint foldM {A B} (f : B -> A -> exc B) (acc : B) (l : list A) : exc B :=
  match l with
  | [] => ret acc
  | x :: r => bind (f acc x) (fun acc' => foldM f acc' r)
  end.

(** [Array.prototype.map] with a callback that may throw. *)
Fixpoint mapM {A B} (f : A -> exc B) (l : list A) : exc (list B) :=
  match l with
  | [] => ret []
  | x :: r => bind (f x) (fun y => bind (mapM f r) (fun ys => ret (y :: ys)))
  end.

(** [Array.prototype.filter] with a callback that may throw. *)
Fixpoint filterM {A} (p : A -> exc bool) (l : list A) : exc (list A) :=
  match l with
  | [] => ret []
  | x :: r =>
      bind (p x) (fun b => bind (filterM p r) (fun ys =>
        ret (if b then x :: ys else ys)))
  end.

(** ** Strings *)

Module Str.

(** [s.includes(t)] *)
Definition includes (s t : string) : bool :=
  match index 0 t s with
  | Some _ => true
  | None => false
  end.

(** [s.indexOf(t)], [-1] when [t] does not occur. *)
Definition indexOf (s t : string) : Z :=
  match index 0 t s with
  | Some i => Z.of_nat i
  | None => (-1)%Z
  end.

Fixpoint drop (n : nat) (s : string) : string :=
  match n, s with
  | O, _ => s
  | S n', String _ s' => drop n' s'
  | S _, EmptyString => EmptyString
  end.

Fixpoint take (n : nat) (s : string) : string :=
  match n, s with
  | S n', String c s' => String c (take n' s')
  | _, _ => EmptyString
  end.

(** [s.slice(start)] and [s.slice(start, stop)] for indices that are not
    negative, the only ones the model passes. *)
Definition slice_from (s : string) (start : Z) : string :=
  drop (Z.to_nat start) s.

Definition slice (s : string) (start stop : Z) : string :=
  take (Z.to_nat stop - Z.to_nat start) (drop (Z.to_nat start) s).

(** [s.split(sep)[0]]: the text before the first [sep]. *)
Fixpoint split_head (sep : ascii) (s : string) : string :=
  match s with
  | EmptyString => EmptyString
  | String c s' =>
      if Ascii.eqb c sep then EmptyString else String c (split_head sep s')
  end.

(** [s.replace(t, "")] for a one-character [t]: the first occurrence is
    removed. *)
Fixpoint remove_first (t : ascii) (s : string) : string :=
  match s with
  | EmptyString => EmptyString
  | String c s' =>
      if Ascii.eqb c t then s' else String c (remove_first t s')
  end.

Definition lower_char (c : ascii) : ascii :=
  let n := nat_of_ascii c in
  if ((65 <=? n) && (n <=? 90))%nat then ascii_of_nat (n + 32) else c.

(** [s.toLowerCase()] on the letters [A]-[Z]; no other character
    lowercases into a letter of the extensions [getModuleType] compares
    with. *)
Fixpoint toLowerCase (s : string) : string :=
  match s with
  | EmptyString => EmptyString
  | String c s' => String (lower_char c) (toLowerCase s')
  end.

End Str.

(** ** Numbers *)

Module Num.

(** The double nearest to an integer (ties to even). *)
Definition of_Z (z : Z) : float :=
  SF2Prim (binary_normalize prec emax z 0 false).

(** An array length or a count, as a number. *)
Definition of_nat (n : nat) : float := of_Z (Z.of_nat n).

(** The double nearest to [num / den] (ties to even): the quotient is
    taken with more than 64 bits and a sticky last bit. *)
Definition of_ratio (neg : bool) (num den : positive) : float :=
  let s := Z.max 0 (64 + Z.log2 (Zpos den) + 1 - Z.log2 (Zpos num)) in
  let '(q, r) := Z.div_eucl (Zpos num * 2 ^ s) (Zpos den) in
  let m := (2 * q + (if (r =? 0)%Z then 0 else 1))%Z in
  let f := SF2Prim (binary_normalize prec emax m (- s - 1) false) in
  if neg then (- f)%float else f.

(** [Math.min(a, b)] *)
Definition min (a b : float) : float :=
  if is_nan a || is_nan b then nan
  else if (a <? b)%float then a
  else if (b <? a)%float then b
  else if is_zero a && get_sign a then a
  else b.

Definition digits_of_Z (z : Z) : string :=
  NilZero.string_of_uint (N.to_uint (Z.to_N z)).

Fixpoint zeros (n : nat) : string :=
  match n with
  | O => ""
  | S n' => String "0" (zeros n')
  end.

Definition Qpow (b e : Z) : Q :=
  if (0 <=? e)%Z then inject_Z (b ^ e) else 1 / inject_Z (b ^ (- e)).

Definition Qltb (a b : Q) : bool :=
  match Qcompare a b with Lt => true | _ => false end.

Definition Qleb (a b : Q) : bool :=
  match Qcompare a b with Gt => false | _ => true end.

(** The first [n], from a lower estimate, with [v < 10^n]. *)
Fixpoint decade (fuel : nat) (v : Q) (n : Z) : Z :=
  match fuel with
  | O => n
  | S f => if Qltb v (Qpow 10 n) then n else decade f v (n + 1)
  end.

(** [Number::toString], step 5: the integers [s] and [n] with the fewest
    digits [k] such that [s * 10^(n-k)] reads back as the number [v]
    ([lo, hi] is the interval of the reals that round to [v], closed
    when the significand is even); of two candidates the nearer to [v],
    of two equally near the even one. *)
Fixpoint shortest (fuel : nat) (k : Z) (v lo hi : Q) (closed : bool)
    (n0 : Z) : Z * Z :=
  let t := Qpow 10 (n0 - k) in
  let s1 := Qfloor (v / t) in
  let s2 := (s1 + 1)%Z in
  let inside (s : Z) :=
    let c := (inject_Z s * t)%Q in
    if closed then Qleb lo c && Qleb c hi else Qltb lo c && Qltb c hi in
  let pick :=
    match inside s1, inside s2 with
    | true, false => Some s1
    | false, true => Some s2
    | true, true =>
        match Qcompare (v - inject_Z s1 * t) (inject_Z s2 * t - v) with
        | Lt => Some s1
        | Gt => Some s2
        | Eq => Some (if Z.even s1 then s1 else s2)
        end
    | false, false => None
    end in
  match pick, fuel with
  | Some s, _ =>
      if (s =? 10 ^ k)%Z then (10 ^ (k - 1), n0 + 1)%Z else (s, n0)
  | None, S f => shortest f (k + 1) v lo hi closed n0
  | None, O => (s1, n0)
  end.

(** [Number::toString], steps 6 to 10: the layout of the [k] digits. *)
Definition format (digits : string) (k n : Z) : string :=
  if ((k <=? n) && (n <=? 21))%Z then
    digits ++ zeros (Z.to_nat (n - k))
  else if ((0 <? n) && (n <=? 21))%Z then
    substring 0 (Z.to_nat n) digits ++ "."
      ++ substring (Z.to_nat n) (Z.to_nat (k - n)) digits
  else if ((-6 <? n) && (n <=? 0))%Z then
    "0." ++ zeros (Z.to_nat (- n)) ++ digits
  else
    let e := (n - 1)%Z in
    let es := (if (e <? 0)%Z then "-" else "+") ++ digits_of_Z (Z.abs e) in
    if (k =? 1)%Z then digits ++ "e" ++ es
    else substring 0 1 digits ++ "."
           ++ substring 1 (Z.to_nat (k - 1)) digits ++ "e" ++ es.

Definition toString_pos (m : positive) (e : Z) : string :=
  let v := (inject_Z (Zpos m) * Qpow 2 e)%Q in
  let boundary := (Zpos m =? 2 ^ 52)%Z && (-1074 <? e)%Z in
  let lo := (inject_Z (4 * Zpos m - (if boundary then 1 else 2))
             * Qpow 2 (e - 2))%Q in
  let hi := (inject_Z (4 * Zpos m + 2) * Qpow 2 (e - 2))%Q in
  let bits := (Z.log2 (Zpos m) + e)%Z in
  let n0 := decade 8 v (bits * 1233 / 4096 - 1) in
  let '(s, n) := shortest 17 1 v lo hi (Z.even (Zpos m)) n0 in
  let digits := digits_of_Z s in
  format digits (Z.of_nat (String.length digits)) n.

(** [Number::toString(x)], radix 10. *)
Definition toString (x : float) : string :=
  match Prim2SF x with
  | S754_nan => "NaN"
  | S754_zero _ => "0"
  | S754_infinity s => if s then "-Infinity" else "Infinity"
  | S754_finite s m e => (if s then "-" else "") ++ toString_pos m e
  end.

(** *** [StringToNumber] *)

Definition is_space (c : ascii) : bool :=
  let n := nat_of_ascii c in
  (((9 <=? n) && (n <=? 13)) || (n =? 32) || (n =? 160))%nat.

Fixpoint drop_spaces (l : list ascii) : list ascii :=
  match l with
  | c :: r => if is_space c then drop_spaces r else l
  | [] => []
  end.

Definition trim (l : list ascii) : list ascii :=
  rev (drop_spaces (rev (drop_spaces l))).

Definition digit_of (base : Z) (c : ascii) : option Z :=
  let n := Z.of_nat (nat_of_ascii c) in
  let d :=
    if ((48 <=? n) && (n <=? 57))%Z then (n - 48)%Z
    else if ((97 <=? n) && (n <=? 102))%Z then (n - 87)%Z
    else if ((65 <=? n) && (n <=? 70))%Z then (n - 55)%Z
    else 99%Z in
  if (d <? base)%Z then Some d else None.

(** The longest run of digits at the head of [l]: its value, how many
    digits it has, and what follows. *)
Fixpoint digits (base : Z) (acc : Z) (count : nat) (l : list ascii)
  : Z * nat * list ascii :=
  match l with
  | c :: r =>
      match digit_of base c with
      | Some d => digits base (acc * base + d) (S count) r
      | None => (acc, count, l)
      end
  | [] => (acc, count, [])
  end.

Definition sign_of (l : list ascii) : bool * list ascii :=
  match l with
  | "+"%char :: r => (false, r)
  | "-"%char :: r => (true, r)
  | _ => (false, l)
  end.

Definition signed_zero (neg : bool) : float :=
  if neg then neg_zero else zero.

(** [digits * 10^e] as a number. *)
Definition of_decimal (neg : bool) (n e : Z) : float :=
  match n with
  | Zpos p =>
      if (0 <=? e)%Z then of_Z ((if neg then -1 else 1) * (n * 10 ^ e))
      else of_ratio neg p (Z.to_pos (10 ^ (- e)))
  | _ => signed_zero neg
  end.

(** [StrDecimalLiteral] *)
Definition parse_decimal (l : list ascii) : float :=
  let '(neg, l0) := sign_of l in
  if list_eq_dec ascii_dec l0 (list_ascii_of_string "Infinity") then
    if neg then neg_infinity else infinity
  else
    let '(ip, n_ip, l1) := digits 10 0 0 l0 in
    let '(fp, n_fp, l2) :=
      match l1 with
      | "."%char :: r => digits 10 ip 0 r
      | _ => (ip, O, l1)
      end in
    if (n_ip + n_fp =? 0)%nat then nan
    else
      match l2 with
      | [] => of_decimal neg fp (- Z.of_nat n_fp)
      | c :: r =>
          if Ascii.eqb c "e" || Ascii.eqb c "E" then
            let '(eneg, l3) := sign_of r in
            match digits 10 0 0 l3 with
            | (_, O, _) => nan
            | (ex, _, []) =>
                of_decimal neg fp ((if eneg then - ex else ex)
                                   - Z.of_nat n_fp)
            | _ => nan
            end
          else nan
      end.

Definition parse_radix (base : Z) (l : list ascii) : float :=
  match digits base 0 0 l with
  | (_, O, _) => nan
  | (v, _, []) => of_Z v
  | _ => nan
  end.

(** [StringToNumber(s)] *)
Definition ofString (s : string) : float :=
  match trim (list_ascii_of_string s) with
  | [] => zero
  | "0"%char :: c :: r =>
      if Ascii.eqb c "x" || Ascii.eqb c "X" then parse_radix 16 r
      else if Ascii.eqb c "o" || Ascii.eqb c "O" then parse_radix 8 r
      else if Ascii.eqb c "b" || Ascii.eqb c "B" then parse_radix 2 r
      else parse_decimal ("0"%char :: c :: r)
  | l => parse_decimal l
  end.

End Num.

(** ** [path.extname] (Node, POSIX) *)

Module Path.

(** The variables of the loop of [posix.extname]. *)
Record scan := {
  startDot : Z;
  startPart : Z;
  end_ : Z;
  matchedSlash : bool;
  preDotState : Z
}.

Definition scan0 : scan :=
  {| startDot := -1; startPart := 0; end_ := -1;
     matchedSlash := true; preDotState := 0 |}.

(** [for (let i = path.length - 1; i >= 0; --i)], over the characters
    from the last one; [i] is the index of the head of the list. *)
Fixpoint scan_loop (rev_path : list ascii) (i : Z) (st : scan) : scan :=
  match rev_path with
  | [] => st
  | code :: rest =>
      if Ascii.eqb code "/" then
        if negb (matchedSlash st) then
          (* a separator that ends the last component: [break] *)
          {| startDot := startDot st; startPart := i + 1; end_ := end_ st;
             matchedSlash := matchedSlash st;
             preDotState := preDotState st |}
        else scan_loop rest (i - 1) st
      else
        let st1 :=
          if (end_ st =? -1)%Z then
            {| startDot := startDot st; startPart := startPart st;
               end_ := i + 1; matchedSlash := false;
               preDotState := preDotState st |}
          else st in
        let st2 :=
          if Ascii.eqb code "." then
            if (startDot st1 =? -1)%Z then
              {| startDot := i; startPart := startPart st1;
                 end_ := end_ st1; matchedSlash := matchedSlash st1;
                 preDotState := preDotState st1 |}
            else if negb (preDotState st1 =? 1)%Z then
              {| startDot := startDot st1; startPart := startPart st1;
                 end_ := end_ st1; matchedSlash := matchedSlash st1;
                 preDotState := 1 |}
            else st1
          else if negb (startDot st1 =? -1)%Z then
            {| startDot := startDot st1; startPart := startPart st1;
               end_ := end_ st1; matchedSlash := matchedSlash st1;
               preDotState := -1 |}
          else st1 in
        scan_loop rest (i - 1) st2
  end.

Definition extname (path : string) : string :=
  let st := scan_loop (rev (list_ascii_of_string path))
                      (Z.of_nat (String.length path) - 1) scan0 in
  if (startDot st =? -1)%Z
     || (end_ st =? -1)%Z
     || (preDotState st =? 0)%Z
     || ((preDotState st =? 1)%Z
         && (startDot st =? end_ st - 1)%Z
         && (startDot st =? startPart st + 1)%Z)
  then ""
  else Str.slice path (startDot st) (end_ st).

End Path.

(** ** Values *)

(** What [JSON.parse] returns, and [undefined]. *)
Inductive value : Type :=
| VUndef
| VNull
| VBool (b : bool)
| VNum (n : float)
| VStr (s : string)
| VArr (elems : list value)
| VObj (props : list (string * value)).

Module JS.

(** [ToBoolean] *)
Definition truthy (v : value) : bool :=
  match v with
  | VUndef | VNull => false
  | VBool b => b
  | VNum n => negb (is_zero n || is_nan n)
  | VStr s => negb (String.eqb s "")
  | VArr _ | VObj _ => true
  end.

(** [a || b], for a right operand whose evaluation cannot throw. *)
Definition or (a b : value) : value := if truthy a then a else b.

Fixpoint lookup (k : string) (props : list (string * value))
  : option value :=
  match props with
  | [] => None
  | (k', v) :: r => if String.eqb k k' then Some v else lookup k r
  end.

Definition own (k : string) (props : list (string * value)) : value :=
  match lookup k props with
  | Some v => v
  | None => VUndef
  end.

(** [v.k] for the property names the source reads ([time], [assets],
    [entrypoints], [modules], [chunks], [size], [name], [names], [id]):
    a [TypeError] on [null] and [undefined], the own property of an
    object, [undefined] on an array or a primitive, none of which has a
    member of those names. *)
Definition get (v : value) (k : string) : exc value :=
  match v with
  | VUndef | VNull => Throw
  | VObj props => ret (own k props)
  | _ => ret VUndef
  end.

(** [v?.k] *)
Definition get_opt (v : value) (k : string) : value :=
  match v with
  | VObj props => own k props
  | _ => VUndef
  end.

(** [v?.[0]] *)
Definition first (v : value) : value :=
  match v with
  | VArr (x :: _) => x
  | VStr (String c _) => VStr (String c EmptyString)
  | VObj props => own "0" props
  | _ => VUndef
  end.

Definition is_undefined (v : value) : bool :=
  match v with VUndef => true | _ => false end.

(** [typeof v === 'number'] *)
Definition typeof_number (v : value) : bool :=
  match v with VNum _ => true | _ => false end.

(** [typeof v === 'object' && v !== null] *)
Definition typeof_object (v : value) : bool :=
  match v with VArr _ | VObj _ => true | _ => false end.

(** [Array.isArray(v)] *)
Definition isArray (v : value) : bool :=
  match v with VArr _ => true | _ => false end.

Definition has_own (k : string) (props : list (string * value)) : bool :=
  match lookup k props with Some _ => true | None => false end.

(** [ToString].  An array is joined with commas, [null] and [undefined]
    elements giving the empty string.  A parsed object inherits
    [Object.prototype.toString] unless it has an own property [toString],
    which is then no function: no method yields a primitive and
    [OrdinaryToPrimitive] throws a [TypeError]. *)
Fixpoint ToString (v : value) : exc string :=
  match v with
  | VUndef => ret "undefined"
  | VNull => ret "null"
  | VBool b => ret (if b then "true" else "false")
  | VNum n => ret (Num.toString n)
  | VStr s => ret s
  | VArr elems =>
      (fix join (l : list value) : exc string :=
         let elem (x : value) : exc string :=
           match x with
           | VUndef | VNull => ret ""
           | _ => ToString x
           end in
         match l with
         | [] => ret ""
         | [x] => elem x
         | x :: r =>
             bind (elem x) (fun s => bind (join r) (fun t =>
               ret (s ++ "," ++ t)))
         end) elems
  | VObj props =>
      if has_own "toString" props then Throw else ret "[object Object]"
  end.

(** [ToPrimitive] (either hint: for a parsed array or object both orders
    of [valueOf] and [toString] end in [toString]). *)
Definition ToPrimitive (v : value) : exc value :=
  match v with
  | VArr _ | VObj _ => bind (ToString v) (fun s => ret (VStr s))
  | _ => ret v
  end.

(** [ToNumber] of a primitive. *)
Definition prim_number (v : value) : float :=
  match v with
  | VUndef => nan
  | VNull => zero
  | VBool b => if b then one else zero
  | VNum n => n
  | VStr s => Num.ofString s
  | VArr _ | VObj _ => nan
  end.

(** [ToString] of a primitive. *)
Definition prim_string (v : value) : string :=
  match v with
  | VUndef => "undefined"
  | VNull => "null"
  | VBool b => if b then "true" else "false"
  | VNum n => Num.toString n
  | VStr s => s
  | VArr _ | VObj _ => ""
  end.

(** [ToNumber] *)
Definition ToNumber (v : value) : exc float :=
  bind (ToPrimitive v) (fun p => ret (prim_number p)).

(** [a + b] on primitives: concatenation when either is a string. *)
Definition prim_add (a b : value) : value :=
  match a, b with
  | VStr _, _ | _, VStr _ => VStr (prim_string a ++ prim_string b)
  | _, _ => VNum (prim_number a + prim_number b)
  end.

(** [a + b] *)
Definition add (a b : value) : exc value :=
  bind (ToPrimitive a) (fun pa => bind (ToPrimitive b) (fun pb =>
    ret (prim_add pa pb))).

(** [a - b] *)
Definition sub (a b : value) : exc float :=
  bind (ToNumber a) (fun x => bind (ToNumber b) (fun y => ret (x - y)%float)).

(** [a / b] *)
Definition div (a b : value) : exc float :=
  bind (ToNumber a) (fun x => bind (ToNumber b) (fun y => ret (x / y)%float)).

(** [a > b] on primitives: strings are compared by code units, anything
    else as numbers, a comparison with [NaN] being false. *)
Definition prim_gt (a b : value) : bool :=
  match a, b with
  | VStr s, VStr t => String.ltb t s
  | _, _ => (prim_number b <? prim_number a)%float
  end.

(** [a > b] *)
Definition gt (a b : value) : exc bool :=
  bind (ToPrimitive a) (fun pa => bind (ToPrimitive b) (fun pb =>
    ret (prim_gt pa pb))).

(** [SameValueZero(a, b)], the equality of [Array.prototype.includes].
    Two objects are the same only if they are one object; the arrays
    searched by the source and the value searched for come from different
    places of the parsed document, which shares nothing. *)
Definition same_value_zero (a b : value) : bool :=
  match a, b with
  | VUndef, VUndef | VNull, VNull => true
  | VBool x, VBool y => Bool.eqb x y
  | VNum x, VNum y => (x =? y)%float || (is_nan x && is_nan y)
  | VStr x, VStr y => String.eqb x y
  | _, _ => false
  end.

(** [recv.includes(arg)]: [String.prototype.includes] on a string,
    [Array.prototype.includes] on an array; anything else has no callable
    [includes] and the call throws a [TypeError]. *)
Definition includes (recv arg : value) : exc bool :=
  match recv with
  | VStr s => bind (ToString arg) (fun t => ret (Str.includes s t))
  | VArr elems => ret (existsb (same_value_zero arg) elems)
  | _ => Throw
  end.

(** [v?.toString()] *)
Definition toString_opt (v : value) : exc value :=
  match v with
  | VUndef | VNull => ret VUndef
  | _ => bind (ToString v) (fun s => ret (VStr s))
  end.

(** [Object.entries(v)] of a value that is not [null] or [undefined]: the
    own properties of an object, the indexed elements of an array, the
    indexed characters of a string, nothing for a number or a boolean. *)
Definition index_key (i : nat) : string :=
  NilZero.string_of_uint (Nat.to_uint i).

Fixpoint chars (s : string) : list value :=
  match s with
  | EmptyString => []
  | String c r => VStr (String c EmptyString) :: chars r
  end.

Definition indexed (l : list value) : list (string * value) :=
  combine (map index_key (seq 0 (List.length l))) l.

Definition entries (v : value) : list (string * value) :=
  match v with
  | VObj props => props
  | VArr elems => indexed elems
  | VStr s => indexed (chars s)
  | _ => []
  end.

End JS.

(** ** [calculateChunkSize] *)

Local Open Scope exc_scope.

(** [private calculateChunkSize(chunk: any, stats: any): number] *)
Definition calculateChunkSize (chunk stats : value) : exc value :=
  if negb (JS.truthy chunk) then ret (VNum 0)
  else
    size <- JS.get chunk "size" ;;
    if JS.typeof_number size then ret size
    else
      modules <- JS.get chunk "modules" ;;
      match modules with
      | VArr ms =>
          foldM (fun total module =>
                   JS.add total (JS.or (JS.get_opt module "size") (VNum 0)))
                (VNum 0) ms
      | _ =>
          assets <- JS.get stats "assets" ;;
          id <- JS.get chunk "id" ;;
          name <- JS.get chunk "name" ;;
          match assets with
          | VArr assets =>
              if negb (JS.is_undefined id) || negb (JS.is_undefined name)
              then
                chunkId <- JS.toString_opt id ;;
                names <- JS.get chunk "names" ;;
                let chunkName := JS.or (JS.first names) name in
                foldM (fun total asset =>
                         if negb (JS.truthy asset) then ret total
                         else
                           asset_chunks <- JS.get asset "chunks" ;;
                           byId <-
                             (if JS.truthy chunkId && JS.truthy asset_chunks
                              then JS.includes asset_chunks chunkId
                              else ret false) ;;
                           isChunkAsset <-
                             (if byId then ret true
                              else
                                asset_name <- JS.get asset "name" ;;
                                if JS.truthy chunkName && JS.truthy asset_name
                                then JS.includes asset_name chunkName
                                else ret false) ;;
                           asset_size <- JS.get asset "size" ;;
                           JS.add total
                             (if isChunkAsset
                              then JS.or asset_size (VNum 0)
                              else VNum 0))
                      (VNum 0) assets
              else ret (VNum 0)
          | _ => ret (VNum 0)
          end
      end.

(** ** [getModuleType] *)

(** [private getModuleType(modulePath: string): string] *)
Definition getModuleType (modulePath : string) : string :=
  if String.eqb modulePath "" then "unknown"
  else if Str.includes modulePath "node_modules" then
    let nodeModulesIndex := Str.indexOf modulePath "node_modules" in
    if negb (nodeModulesIndex =? -1)%Z then
      let packagePath :=
        Str.slice_from modulePath
          (nodeModulesIndex + Z.of_nat (String.length "node_modules/")) in
      let packageName := Str.split_head "/" packagePath in
      "npm:" ++ packageName
    else "npm"
  else
    let ext := Str.toLowerCase (Path.extname modulePath) in
    if String.eqb ext ".js" || String.eqb ext ".jsx" then "javascript"
    else if String.eqb ext ".ts" || String.eqb ext ".tsx" then "typescript"
    else if String.eqb ext ".css" || String.eqb ext ".scss"
            || String.eqb ext ".less" then "styles"
    else if String.eqb ext ".svg" || String.eqb ext ".png"
            || String.eqb ext ".jpg" || String.eqb ext ".jpeg"
            || String.eqb ext ".gif" then "image"
    else if String.eqb ext ".json" then "json"
    else "other".

(** ** Arrays in place *)

(** [Array.prototype.sort] reorders its receiver, so arrays are kept in a
    heap.  An array of the stats document is addressed by the property of
    the document that holds it; an array the function creates (by a spread,
    [filter] or [slice]) gets a fresh cell.  The heap also holds what was
    written to the console. *)
Inductive aref : Type :=
| InDoc (field : string)
| Fresh (cell : nat).

Record heap : Type := {
  input : value;
  fresh : list (list value);
  console : list (list console_arg)
}.

(** A computation that may read and update the heap, and may throw. *)
Definition M (A : Type) : Type := heap -> heap * exc A.

Definition retM {A} (a : A) : M A := fun h => (h, Normal a).

Definition bindM {A B} (m : M A) (k : A -> M B) : M B :=
  fun h =>
    match m h with
    | (h', Normal a) => k a h'
    | (h', Throw) => (h', Throw)
    end.

Definition lift {A} (e : exc A) : M A := fun h => (h, e).

Declare Scope heap_scope.
Delimit Scope heap_scope with M.
Notation "x <- m ;; k" := (bindM m (fun x => k))
  (at level 61, m at next level, right associativity) : heap_scope.

(** [try { body } catch (error) { handler }] *)
Definition try_catch {A} (body handler : M A) : M A :=
  fun h =>
    match body h with
    | (h', Normal a) => (h', Normal a)
    | (h', Throw) => handler h'
    end.

(** [console.error(...args)]: one more call in the record of the
    console. *)
Definition console_error (args : list console_arg) : M unit :=
  fun h =>
    ({| input := input h; fresh := fresh h;
        console := (console h ++ [args])%list |}, Normal tt).

(** [stats.k] *)
Definition stats_get (k : string) : M value :=
  fun h => (h, JS.get (input h) k).

(** The variable [stats], passed on to [calculateChunkSize]. *)
Definition stats_value : M value := fun h => (h, Normal (input h)).

Module Arr.

Definition elements (v : value) : list value :=
  match v with
  | VArr elems => elems
  | _ => []
  end.

Fixpoint set_prop (k : string) (v : value) (props : list (string * value))
  : list (string * value) :=
  match props with
  | [] => [(k, v)]
  | (k', v') :: r =>
      if String.eqb k k' then (k, v) :: r else (k', v') :: set_prop k v r
  end.

Fixpoint set_nth {A} (n : nat) (x : A) (l : list A) : list A :=
  match n, l with
  | O, _ :: r => x :: r
  | S n', y :: r => y :: set_nth n' x r
  | _, [] => []
  end.

Definition read (r : aref) (h : heap) : list value :=
  match r with
  | InDoc field => elements (JS.get_opt (input h) field)
  | Fresh cell => nth cell (fresh h) []
  end.

Definition write (r : aref) (l : list value) (h : heap) : heap :=
  match r with
  | InDoc field =>
      {| input :=
           match input h with
           | VObj props => VObj (set_prop field (VArr l) props)
           | v => v
           end;
         fresh := fresh h; console := console h |}
  | Fresh cell =>
      {| input := input h; fresh := set_nth cell l (fresh h);
         console := console h |}
  end.

(** The heap with one more cell. *)
Definition push (l : list value) (h : heap) : heap :=
  {| input := input h; fresh := (fresh h ++ [l])%list;
     console := console h |}.

(** A new array. *)
Definition alloc (l : list value) : M aref :=
  fun h => (push l h, Normal (Fresh (List.length (fresh h)))).

(** [[...a]] *)
Definition spread (a : aref) : M aref := fun h => alloc (read a h) h.

(** [a.filter(p)] *)
Definition filter (p : value -> exc bool) (a : aref) : M aref :=
  fun h =>
    match filterM p (read a h) with
    | Normal l => alloc l h
    | Throw => (h, Throw)
    end.

(** [a.slice(start, stop)] *)
Definition slice (start stop : nat) (a : aref) : M aref :=
  fun h => alloc (firstn (stop - start) (skipn start (read a h))) h.

(** [a.length] *)
Definition length (a : aref) : M nat :=
  fun h => (h, Normal (List.length (read a h))).

(** [a.map(f)]; the result is a list of report entries, not an array of
    the heap: the report is built from it and nothing sorts it. *)
Definition map {B} (f : value -> exc B) (a : aref) : M (list B) :=
  fun h => (h, mapM f (read a h)).

(** [x] put into the sorted [sorted], after the elements it must follow:
    [compare(x, y) > 0] sends [x] behind [y]. *)
Fixpoint insert (compare : value -> value -> exc float) (x : value)
    (sorted : list value) : exc (list value) :=
  match sorted with
  | [] => ret [x]
  | y :: r =>
      bind (compare x y) (fun c =>
        if (0 <? c)%float
        then bind (insert compare x r) (fun r' => ret (y :: r'))
        else ret (x :: sorted))
  end.

(** The order [a.sort(compare)] leaves.  ECMAScript asks for a stable sort
    and leaves the sequence of calls of [compare] to the implementation;
    for a consistent comparator every such sort gives the same order, that
    of this insertion sort.  A comparator that answers [NaN] (a chunk whose
    size is no number) is not consistent: the order is then the engine's
    own, of which this function keeps that it is an order of the same
    elements; what is stated of the order is stated of documents without
    such a size.  An exception of [compare] ends the sort, and any sort of
    two elements or more calls [compare] on each of them. *)
Fixpoint sorted (compare : value -> value -> exc float) (l : list value)
  : exc (list value) :=
  match l with
  | [] => ret []
  | x :: r => bind (sorted compare r) (fun s => insert compare x s)
  end.

(** [a.sort(compare)]: the receiver is reordered and returned.  When
    [compare] throws, the receiver is left in an order the implementation
    chooses; here it keeps the order it had.  [extractMetrics] sorts only
    arrays it has created, which nothing can reach once the exception is
    caught. *)
Definition sort (compare : value -> value -> exc float) (a : aref)
  : M aref :=
  fun h =>
    match sorted compare (read a h) with
    | Normal l => (write a l h, Normal a)
    | Throw => (h, Throw)
    end.

End Arr.

(** ** The Metrics Report *)

Record entrypoint_info : Type := {
  ep_size : value;
  ep_chunks : value
}.

Record module_info : Type := {
  mod_name : value;
  mod_size : value;
  mod_type : string
}.

Record chunk_info : Type := {
  chunk_id : value;
  chunk_name : value;
  chunk_size : value;
  chunk_modules : nat
}.

Record performance_info : Type := {
  initialLoad : value;
  cacheEfficiency : float;
  chunkFragmentation : float
}.

Record metrics : Type := {
  totalSize : value;
  totalSizeByType : list (string * value);
  entrypoints : list (string * entrypoint_info);
  largestModules : list module_info;
  largestChunks : list chunk_info;
  moduleCount : nat;
  chunkCount : nat;
  assetCount : nat;
  buildTime : value;
  performance : performance_info
}.

(** What [extractMetrics] returns: the report, or
    [{ error: 'Failed to extract metrics' }]. *)
Inductive result : Type :=
| Report (m : metrics)
| Failure (error : string).

Definition with_perf (m : metrics) (p : performance_info) : metrics :=
  {| totalSize := totalSize m; totalSizeByType := totalSizeByType m;
     entrypoints := entrypoints m; largestModules := largestModules m;
     largestChunks := largestChunks m; moduleCount := moduleCount m;
     chunkCount := chunkCount m; assetCount := assetCount m;
     buildTime := buildTime m; performance := p |}.

Definition with_modules (m : metrics) (count : nat)
    (largest : list module_info) : metrics :=
  {| totalSize := totalSize m; totalSizeByType := totalSizeByType m;
     entrypoints := entrypoints m; largestModules := largest;
     largestChunks := largestChunks m; moduleCount := count;
     chunkCount := chunkCount m; assetCount := assetCount m;
     buildTime := buildTime m; performance := performance m |}.

Definition with_chunks (m : metrics) (count : nat)
    (largest : list chunk_info) : metrics :=
  {| totalSize := totalSize m; totalSizeByType := totalSizeByType m;
     entrypoints := entrypoints m; largestModules := largestModules m;
     largestChunks := largest; moduleCount := moduleCount m;
     chunkCount := count; assetCount := assetCount m;
     buildTime := buildTime m; performance := performance m |}.

(** [Math.min(chunkCount / Math.max(Object.keys(entrypoints).length, 1),
    100)] *)
Definition fragmentation (count : nat) (m : metrics) : float :=
  Num.min
    (Num.of_nat count
     / Num.of_nat (Nat.max (List.length (entrypoints m)) 1))
    100.

Fixpoint find_entry {A} (k : string) (l : list (string * A)) : option A :=
  match l with
  | [] => None
  | (k', v) :: r => if String.eqb k k' then Some v else find_entry k r
  end.

(** The number a digit stands for. *)
Definition digit_of (c : ascii) : option N :=
  let n := N_of_ascii c in
  if ((48 <=? n) && (n <=? 57))%N then Some (n - 48)%N else None.

Fixpoint numeral (s : string) (acc : N) : option N :=
  match s with
  | EmptyString => Some acc
  | String c r =>
      match digit_of c with
      | Some d => numeral r (10 * acc + d)%N
      | None => None
      end
  end.

(** The array index a property key is: a canonical numeral (no sign, no
    leading zero) below 2^32 - 1. *)
Definition array_index (k : string) : option N :=
  match k with
  | EmptyString => None
  | String c r =>
      if Ascii.eqb c "0" then
        if String.eqb r "" then Some 0%N else None
      else
        match numeral k 0 with
        | Some n => if (n <=? 4294967294)%N then Some n else None
        | None => None
        end
  end.

(** Whether the own key [k'] is enumerated behind a new key [k]: the
    array indices come first, by their numbers, and the other keys follow
    in the order of their creation. *)
Definition enumerated_behind (k k' : string) : bool :=
  match array_index k, array_index k' with
  | Some n, Some n' => (n <? n')%N
  | Some _, None => true
  | None, _ => false
  end.

(** A new own property, at its place in the enumeration. *)
Fixpoint add_entry {A} (k : string) (v : A) (l : list (string * A))
  : list (string * A) :=
  match l with
  | [] => [(k, v)]
  | (k', v') :: r =>
      if enumerated_behind k k' then (k, v) :: l
      else (k', v') :: add_entry k v r
  end.

(** A new value for an own property, which keeps its place. *)
Fixpoint replace_entry {A} (k : string) (v : A) (l : list (string * A))
  : list (string * A) :=
  match l with
  | [] => []
  | (k', v') :: r =>
      if String.eqb k k' then (k, v) :: r
      else (k', v') :: replace_entry k v r
  end.

Definition set_entry {A} (k : string) (v : A) (l : list (string * A))
  : list (string * A) :=
  match find_entry k l with
  | Some _ => replace_entry k v l
  | None => add_entry k v l
  end.

(** [obj[k] = v] on an object with the prototype [Object.prototype]: the
    key [__proto__] replaces the prototype, or does nothing when [v] is
    no object, and adds no own property. *)
Definition assign {A} (k : string) (v : A) (l : list (string * A))
  : list (string * A) :=
  if String.eqb k "__proto__" then l else set_entry k v l.

(** The source text of a function of the language, as its [toString]
    gives it. *)
Definition native_function (name : string) : string :=
  "function " ++ name ++ "() { [native code] }".

(** What [obj[k]] reads on an object without an own property [k] and
    with the prototype [Object.prototype].  The one place where the
    source reads a computed key, [(totalSizeByType[ext] || 0) + size],
    puts what it reads under [||] and [+] only, where a function stands
    for its source text and [Object.prototype] for [[object Object]]:
    both are truthy, and [+] makes these strings of them. *)
Definition inherited (k : string) : value :=
  if String.eqb k "constructor" then VStr (native_function "Object")
  else if String.eqb k "__proto__" then VStr "[object Object]"
  else if existsb (String.eqb k)
            ["__defineGetter__"; "__defineSetter__"; "hasOwnProperty";
             "__lookupGetter__"; "__lookupSetter__"; "isPrototypeOf";
             "propertyIsEnumerable"; "toString"; "valueOf";
             "toLocaleString"]
  then VStr (native_function k)
  else VUndef.

(** ** [extractMetrics] *)

(** [path.extname(v)]: a [TypeError] unless [v] is a string. *)
Definition extname_of (v : value) : exc string :=
  match v with
  | VStr s => ret (Path.extname s)
  | _ => Throw
  end.

(** [this.getModuleType(v)] for [v = module.name || '']: a value that is
    not a string is truthy here, has no [includes] that can serve (a number,
    a boolean and an object have none; on an array [includes] is that of
    arrays, and [split] or [path.extname] fails next), and the call
    throws. *)
Definition getModuleType_of (v : value) : exc string :=
  match v with
  | VStr s => ret (getModuleType s)
  | _ => Throw
  end.

(** The initial [metrics] object. *)
Definition initial_metrics (time : value) : metrics :=
  {| totalSize := VNum 0; totalSizeByType := []; entrypoints := [];
     largestModules := []; largestChunks := []; moduleCount := 0;
     chunkCount := 0; assetCount := 0;
     buildTime := JS.or time (VNum 0);
     performance :=
       {| initialLoad := VNum 0; cacheEfficiency := 0;
          chunkFragmentation := 0 |} |}.

(** The callback of [stats.assets.forEach]. *)
Definition processAsset (m : metrics) (asset : value) : exc metrics :=
  if negb (JS.truthy asset) then ret m
  else
    asset_size <- JS.get asset "size" ;;
    let size := JS.or asset_size (VNum 0) in
    total <- JS.add (totalSize m) size ;;
    asset_name <- JS.get asset "name" ;;
    dotted <- extname_of (JS.or asset_name (VStr "")) ;;
    let ext :=
      let e := Str.remove_first "." dotted in
      if String.eqb e "" then "unknown" else e in
    let old :=
      match find_entry ext (totalSizeByType m) with
      | Some v => v
      | None => inherited ext
      end in
    byType <- JS.add (JS.or old (VNum 0)) size ;;
    ret {| totalSize := total;
           totalSizeByType := assign ext byType (totalSizeByType m);
           entrypoints := entrypoints m; largestModules := largestModules m;
           largestChunks := largestChunks m; moduleCount := moduleCount m;
           chunkCount := chunkCount m; assetCount := assetCount m;
           buildTime := buildTime m; performance := performance m |}.

(** [// Process assets] *)
Definition processAssets (stats : value) (m : metrics) : exc metrics :=
  assets <- JS.get stats "assets" ;;
  if JS.truthy assets && JS.isArray assets then
    (* [stats.assets.length] *)
    let n := List.length (Arr.elements assets) in
    let m1 :=
      {| totalSize := totalSize m; totalSizeByType := totalSizeByType m;
         entrypoints := entrypoints m; largestModules := largestModules m;
         largestChunks := largestChunks m; moduleCount := moduleCount m;
         chunkCount := chunkCount m; assetCount := n;
         buildTime := buildTime m; performance := performance m |} in
    foldM processAsset m1 (Arr.elements assets)
  else ret m.

(** The callback of [Object.entries(stats.entrypoints).forEach]. *)
Definition processEntrypoint (m : metrics) (entry : string * value)
  : exc metrics :=
  let '(name, entrypoint) := entry in
  if negb (JS.truthy entrypoint) then ret m
  else
    chunks <- JS.get entrypoint "chunks" ;;
    let entrypointChunks := JS.or chunks (VArr []) in
    assets <- JS.get entrypoint "assets" ;;
    entrypointSize <-
      (if JS.truthy assets && JS.isArray assets then
         foldM (fun size asset =>
                  if JS.typeof_object asset then
                    asset_size <- JS.get asset "size" ;;
                    JS.add size (JS.or asset_size (VNum 0))
                  else ret size)
               (VNum 0) (Arr.elements assets)
       else ret (VNum 0)) ;;
    let m1 :=
      {| totalSize := totalSize m; totalSizeByType := totalSizeByType m;
         entrypoints :=
           assign name {| ep_size := entrypointSize;
                          ep_chunks := entrypointChunks |} (entrypoints m);
         largestModules := largestModules m;
         largestChunks := largestChunks m; moduleCount := moduleCount m;
         chunkCount := chunkCount m; assetCount := assetCount m;
         buildTime := buildTime m; performance := performance m |} in
    if String.eqb name "main" || String.eqb name "index" then
      kb <- JS.div entrypointSize (VNum 1024) ;;
      ret (with_perf m1
             {| initialLoad := VNum kb;
                cacheEfficiency := cacheEfficiency (performance m1);
                chunkFragmentation :=
                  chunkFragmentation (performance m1) |})
    else ret m1.

(** [// Process entrypoints] *)
Definition processEntrypoints (stats : value) (m : metrics) : exc metrics :=
  eps <- JS.get stats "entrypoints" ;;
  if JS.truthy eps then foldM processEntrypoint m (JS.entries eps)
  else ret m.

(** [(module) => module && module.size > 0] *)
Definition validModule (module : value) : exc bool :=
  if negb (JS.truthy module) then ret false
  else
    size <- JS.get module "size" ;;
    JS.gt size (VNum 0).

(** [(a, b) => (b.size || 0) - (a.size || 0)] *)
Definition compareModules (a b : value) : exc float :=
  b_size <- JS.get b "size" ;;
  a_size <- JS.get a "size" ;;
  JS.sub (JS.or b_size (VNum 0)) (JS.or a_size (VNum 0)).

(** The callback of [sortedModules.map]. *)
Definition moduleEntry (module : value) : exc module_info :=
  name <- JS.get module "name" ;;
  size <- JS.get module "size" ;;
  type <- getModuleType_of (JS.or name (VStr "")) ;;
  ret {| mod_name := JS.or name (VStr "unknown");
         mod_size := JS.or size (VNum 0);
         mod_type := type |}.

(** [// Process modules] *)
Definition processModules (m : metrics) : M metrics :=
  (modules <- stats_get "modules" ;;
   if JS.truthy modules && JS.isArray modules then
     valid <- Arr.filter validModule (InDoc "modules") ;;
     count <- Arr.length valid ;;
     copy <- Arr.spread (InDoc "modules") ;;
     filtered <- Arr.filter validModule copy ;;
     ordered <- Arr.sort compareModules filtered ;;
     sortedModules <- Arr.slice 0 20 ordered ;;
     largest <- Arr.map moduleEntry sortedModules ;;
     retM (with_modules m count largest)
   else retM m)%M.

(** [(chunk) => chunk] *)
Definition validChunk (chunk : value) : exc bool := ret (JS.truthy chunk).

(** The comparator of the chunks. *)
Definition compareChunks (stats : value) (a b : value) : exc float :=
  aSize <- calculateChunkSize a stats ;;
  bSize <- calculateChunkSize b stats ;;
  JS.sub bSize aSize.

(** The callback of [sortedChunks.map]. *)
Definition chunkEntry (stats : value) (chunk : value) : exc chunk_info :=
  id <- JS.get chunk "id" ;;
  id_string <- JS.toString_opt id ;;
  names <- JS.get chunk "names" ;;
  name <- JS.get chunk "name" ;;
  size <- calculateChunkSize chunk stats ;;
  modules <- JS.get chunk "modules" ;;
  ret {| chunk_id := JS.or id_string (VStr "unknown");
         chunk_name :=
           JS.or (JS.or (JS.first names) name) (VStr "unnamed chunk");
         chunk_size := size;
         chunk_modules :=
           if JS.isArray modules then List.length (Arr.elements modules)
           else 0 |}.

(** [// Process chunks] *)
Definition processChunks (m : metrics) : M metrics :=
  (chunks <- stats_get "chunks" ;;
   if JS.truthy chunks && JS.isArray chunks then
     valid <- Arr.filter validChunk (InDoc "chunks") ;;
     count <- Arr.length valid ;;
     stats <- stats_value ;;
     copy <- Arr.spread (InDoc "chunks") ;;
     filtered <- Arr.filter validChunk copy ;;
     ordered <- Arr.sort (compareChunks stats) filtered ;;
     sortedChunks <- Arr.slice 0 10 ordered ;;
     largest <- Arr.map (chunkEntry stats) sortedChunks ;;
     let m1 := with_chunks m count largest in
     retM (if (0 <? count)%nat then
             with_perf m1
               {| initialLoad := initialLoad (performance m1);
                  cacheEfficiency := cacheEfficiency (performance m1);
                  chunkFragmentation := fragmentation count m1 |}
           else m1)
   else retM m)%M.

(** [metrics.entrypoints?.k?.size] *)
Definition entrypoint_size (k : string) (m : metrics) : value :=
  match find_entry k (entrypoints m) with
  | Some e => ep_size e
  | None => VUndef
  end.

(** [// Calculate cache efficiency estimation] *)
Definition cacheEfficiencyPass (m : metrics) : exc metrics :=
  positive <- JS.gt (totalSize m) (VNum 0) ;;
  if positive && (1 <? chunkCount m)%nat then
    let mainBundleSize :=
      JS.or (entrypoint_size "main" m)
            (JS.or (entrypoint_size "index" m) (VNum 0)) in
    outside <- JS.sub (totalSize m) mainBundleSize ;;
    share <- JS.div (VNum outside) (totalSize m) ;;
    ret (with_perf m
           {| initialLoad := initialLoad (performance m);
              cacheEfficiency := Num.min (share * 100) 100;
              chunkFragmentation := chunkFragmentation (performance m) |})
  else ret m.

(** The block of the [try].  The passes over the assets and the
    entrypoints only read the document and build the report; the passes
    over the modules and the chunks create and sort arrays. *)
Definition extractMetrics_try : M result :=
  (stats <- stats_value ;;
   time <- lift (JS.get stats "time") ;;
   m1 <- lift (processAssets stats (initial_metrics time)) ;;
   m2 <- lift (processEntrypoints stats m1) ;;
   m3 <- processModules m2 ;;
   m4 <- processChunks m3 ;;
   m5 <- lift (cacheEfficiencyPass m4) ;;
   retM (Report m5))%M.

(** The handler of the [catch]: [console.error('Error extracting
    metrics:', error)], then the degenerate report. *)
Definition extractMetrics_catch : M result :=
  (_ <- console_error [Text "Error extracting metrics:"; TypeError] ;;
   retM (Failure "Failed to extract metrics"))%M.

Definition initial_heap (stats : value) : heap :=
  {| input := stats; fresh := []; console := [] |}.

(** [private extractMetrics(stats: any)], with the heap it leaves. *)
Definition extractMetrics_run (stats : value) : heap * exc result :=
  try_catch extractMetrics_try extractMetrics_catch (initial_heap stats).

(** What [extractMetrics(stats)] evaluates to. *)
Definition extractMetrics (stats : value) : exc result :=
  snd (extractMetrics_run stats).

(** The stats document as a call of [extractMetrics] leaves it. *)
Definition stats_after (stats : value) : value :=
  input (fst (extractMetrics_run stats)).

(** ** Vocabulary of the properties *)

(** The sequence a property of the document holds, empty when the property
    is absent or holds no array. *)
Definition doc_array (stats : value) (k : string) : list value :=
  Arr.elements (JS.get_opt stats k).

Definition non_null (v : value) : bool :=
  match v with
  | VNull | VUndef => false
  | _ => true
  end.

(** [v.size > 0] *)
Definition size_positive (v : value) : bool :=
  match JS.gt (JS.get_opt v "size") (VNum 0) with
  | Normal b => b
  | Throw => false
  end.

(** The modules that are not null and have a size above 0. *)
Definition valid_modules (stats : value) : list value :=
  List.filter (fun module => non_null module && size_positive module)
    (doc_array stats "modules").

(** [ToNumber(v)]; [NaN] where the conversion throws. *)
Definition num_of (v : value) : float :=
  match JS.ToNumber v with
  | Normal n => n
  | Throw => nan
  end.

(** A list of numbers in non-increasing order: each is at most every
    number before it. *)
Definition descending (l : list float) : Prop :=
  forall i j : nat,
    i < j < List.length l -> (nth j l 0 <=? nth i l 0)%float = true.

(** No number of the list is followed by a larger one. *)
Fixpoint non_increasing (l : list float) : bool :=
  match l with
  | a :: (b :: _) as r => negb (a <? b)%float && non_increasing r
  | _ => true
  end.

(** The size an entrypoint adds to the main bundle: its size unless that
    is 0 (or otherwise falsy). *)
Definition counted_size (k : string) (m : metrics) : option value :=
  match find_entry k (entrypoints m) with
  | Some e => if JS.truthy (ep_size e) then Some (ep_size e) else None
  | None => None
  end.

(** The main bundle size of the cache efficiency: the size of the
    entrypoint [main] when there is one and its size is not 0, or else the
    size of [index] on the same condition, or else 0. *)
Definition mainBundleSize (m : metrics) : value :=
  match counted_size "main" m, counted_size "index" m with
  | Some size, _ => size
  | None, Some size => size
  | None, None => VNum 0
  end.

(** The main bundle size as the specification words it: the size of
    [main] if there is such an entrypoint, or else that of [index], or
    else 0. *)
Definition mainBundleSize_as_specified (m : metrics) : value :=
  match find_entry "main" (entrypoints m), find_entry "index" (entrypoints m)
  with
  | Some e, _ => ep_size e
  | None, Some e => ep_size e
  | None, None => VNum 0
  end.

(** [min(((totalSize - mainBundleSize) / totalSize) * 100, 100)] when
    [totalSize > 0] and [chunkCount > 1], and 0 otherwise. *)
Definition cacheEfficiency_formula (m : metrics) (mainBundle : value)
  : float :=
  if JS.prim_gt (totalSize m) (VNum 0) && (1 <? chunkCount m)%nat then
    Num.min
      ((JS.prim_number (totalSize m) - JS.prim_number mainBundle)
       / JS.prim_number (totalSize m) * 100)
      100
  else 0.

(** *** The data model of the specification, with sizes that are not
    negative *)

(** A [size] that is absent, [null], or a number not below 0. *)
Definition size_ok (v : value) : bool :=
  match v with
  | VUndef | VNull => true
  | VNum n => (0 <=? n)%float
  | _ => false
  end.

Definition primitive (v : value) : bool :=
  match v with
  | VArr _ | VObj _ => false
  | _ => true
  end.

(** An asset: [{name: string, size: number, chunks?: sequence}], or a
    null entry. *)
Definition asset_ok (asset : value) : bool :=
  negb (JS.truthy asset)
  || (size_ok (JS.get_opt asset "size")
      && match JS.get_opt asset "chunks" with
         | VUndef | VNull | VArr _ => true
         | _ => false
         end
      && match JS.get_opt asset "name" with
         | VUndef | VNull | VStr _ => true
         | _ => false
         end).

(** A chunk: [{id, names?, name?, size?: number, modules?: sequence of
    Module}] with an [id] and a name that are primitive values. *)
Definition chunk_ok (chunk : value) : bool :=
  size_ok (JS.get_opt chunk "size")
  && match JS.get_opt chunk "modules" with
     | VArr ms => forallb (fun module => size_ok (JS.get_opt module "size")) ms
     | _ => true
     end
  && primitive (JS.get_opt chunk "id")
  && primitive (JS.or (JS.first (JS.get_opt chunk "names"))
                      (JS.get_opt chunk "name")).

Definition stats_ok (stats : value) : bool :=
  non_null stats && forallb asset_ok (doc_array stats "assets").

(** The number a module is sorted by: [module.size || 0] as a number. *)
Definition module_key (module : value) : float :=
  num_of (JS.or (JS.get_opt module "size") (VNum 0)).

(** The number a chunk is sorted by: its Resolved Size as a number. *)
Definition chunk_key (stats chunk : value) : float :=
  num_of match calculateChunkSize chunk stats with
         | Normal size => size
         | Throw => VUndef
         end.

(** The document without its property [k]. *)
Definition without_prop (k : string) (stats : value) : value :=
  match stats with
  | VObj props =>
      VObj (List.filter (fun kv => negb (String.eqb k (fst kv))) props)
  | v => v
  end.

(** *** Documents the properties are tried on *)

(** Three modules and a null entry; a chunk with a size, a chunk with
    modules and a chunk known by its asset only; two entrypoints. *)
Definition sample_stats : value :=
  VObj [("time", VNum 812);
        ("assets",
         VArr [VObj [("name", VStr "main.js"); ("size", VNum 700);
                     ("chunks", VArr [VStr "0"])];
               VObj [("name", VStr "vendor.js"); ("size", VNum 300);
                     ("chunks", VArr [VStr "1"])]]);
        ("entrypoints",
         VObj [("main",
                VObj [("chunks", VArr [VNum 0]);
                      ("assets", VArr [VObj [("name", VStr "main.js");
                                             ("size", VNum 400)]])])]);
        ("modules",
         VArr [VObj [("name", VStr "src/index.ts"); ("size", VNum 10)];
               VNull;
               VObj [("name", VStr "node_modules/react/index.js");
                     ("size", VNum 30)];
               VObj [("name", VStr "src/empty.js"); ("size", VNum 0)];
               VObj [("name", VStr "src/app.css"); ("size", VNum 20)]]);
        ("chunks",
         VArr [VObj [("id", VNum 0); ("names", VArr [VStr "main"]);
                     ("size", VNum 40)];
               VNull;
               VObj [("id", VNum 1);
                     ("modules", VArr [VObj [("size", VNum 25)];
                                       VObj [("size", VNum 35)]])];
               VObj [("id", VNum 2); ("name", VStr "vendor")]])].

(** A null asset, and a chunk entry that is [false]. *)
Definition falsy_entries_stats : value :=
  VObj [("assets",
         VArr [VNull; VObj [("name", VStr "a.js"); ("size", VNum 10)]]);
        ("chunks",
         VArr [VBool false; VObj [("id", VNum 1); ("size", VNum 5)]])].

(** A chunk whose module has a text for size, beside a chunk of size 5. *)
Definition text_size_stats : value :=
  VObj [("chunks",
         VArr [VObj [("id", VNum 0);
                     ("modules", VArr [VObj [("size", VStr "big")]])];
               VObj [("id", VNum 1); ("size", VNum 5)]])].

(** An entrypoint [main] whose assets are file names, hence of size 0,
    beside an entrypoint [index] of size 400. *)
Definition main_of_size_zero_stats : value :=
  VObj [("assets", VArr [VObj [("name", VStr "app.js");
                               ("size", VNum 1000)]]);
        ("chunks", VArr [VObj [("id", VNum 0); ("size", VNum 600)];
                         VObj [("id", VNum 1); ("size", VNum 400)]]);
        ("entrypoints",
         VObj [("main", VObj [("assets", VArr [VStr "app.js"])]);
               ("index",
                VObj [("assets", VArr [VObj [("size", VNum 400)]])])])].

(** Total size 1000, two chunks, an entrypoint [main] of size 400. *)
Definition cache_scenario_stats : value :=
  VObj [("assets", VArr [VObj [("name", VStr "main.js");
                               ("size", VNum 1000)]]);
        ("chunks", VArr [VObj [("id", VNum 0); ("size", VNum 400)];
                         VObj [("id", VNum 1); ("size", VNum 600)]]);
        ("entrypoints",
         VObj [("main",
                VObj [("assets", VArr [VObj [("size", VNum 400)]])])])].

(** ** The report as a function of the document *)

(** What the modules pass computes: [moduleCount] and [largestModules]. *)
Definition modulesSummary (modules : list value)
  : exc (nat * list module_info) :=
  valid <- filterM validModule modules ;;
  ordered <- Arr.sorted compareModules valid ;;
  largest <- mapM moduleEntry (firstn 20 ordered) ;;
  ret (List.length valid, largest).

(** What the chunks pass computes: [chunkCount] and [largestChunks]. *)
Definition chunksSummary (stats : value) (chunks : list value)
  : exc (nat * list chunk_info) :=
  let valid := List.filter JS.truthy chunks in
  ordered <- Arr.sorted (compareChunks stats) valid ;;
  largest <- mapM (chunkEntry stats) (firstn 10 ordered) ;;
  ret (List.length valid, largest).

Definition modulesPass (stats : value) (m : metrics) : exc metrics :=
  modules <- JS.get stats "modules" ;;
  if JS.truthy modules && JS.isArray modules then
    cl <- modulesSummary (Arr.elements modules) ;;
    ret (with_modules m (fst cl) (snd cl))
  else ret m.

Definition chunksPass (stats : value) (m : metrics) : exc metrics :=
  chunks <- JS.get stats "chunks" ;;
  if JS.truthy chunks && JS.isArray chunks then
    cl <- chunksSummary stats (Arr.elements chunks) ;;
    let m1 := with_chunks m (fst cl) (snd cl) in
    ret (if (0 <? fst cl)%nat then
           with_perf m1
             {| initialLoad := initialLoad (performance m1);
                cacheEfficiency := cacheEfficiency (performance m1);
                chunkFragmentation := fragmentation (fst cl) m1 |}
         else m1)
  else ret m.

(** The report [extractMetrics] builds when nothing throws (lemma
    [extractMetrics_report]). *)
Definition report_of (stats : value) : exc metrics :=
  time <- JS.get stats "time" ;;
  m1 <- processAssets stats (initial_metrics time) ;;
  m2 <- processEntrypoints stats m1 ;;
  m3 <- modulesPass stats m2 ;;
  m4 <- chunksPass stats m3 ;;
  cacheEfficiencyPass m4.

(** ** Vocabulary of the proofs *)

(** A number that is positive: finite or infinite, not a zero, not NaN. *)
Definition sf_pos (r : spec_float) : bool :=
  match r with
  | S754_finite false _ _ | S754_infinity false => true
  | _ => false
  end.

(** The fields the passes over the assets and the entrypoints leave
    alone. *)
Definition same_summaries (m m' : metrics) : Prop :=
  largestModules m' = largestModules m
  /\ largestChunks m' = largestChunks m
  /\ moduleCount m' = moduleCount m
  /\ chunkCount m' = chunkCount m
  /\ cacheEfficiency (performance m') = cacheEfficiency (performance m)
  /\ chunkFragmentation (performance m')
     = chunkFragmentation (performance m).

(** Every entrypoint of the report has a size that is a primitive value (a
    number, or a string when a size of the document was one). *)
Definition sizes_primitive (m : metrics) : Prop :=
  Forall (fun e => primitive (ep_size (snd e)) = true) (entrypoints m).

(** A number that is not negative. *)
Definition nonneg_number (v : value) : Prop :=
  exists n, v = VNum n /\ (0 <=? n)%float = true.

(** ** Vocabulary of the further properties *)

(** A [size] that is a number, or absent. *)
Definition size_numeric (v : value) : bool :=
  match v with
  | VUndef | VNull | VNum _ => true
  | _ => false
  end.

(** [v.size || 0], as a number. *)
Definition size_or_zero (v : value) : float :=
  JS.prim_number (JS.or (JS.get_opt v "size") (VNum 0)).

(** The sizes of the assets added up in the order of the document, the
    falsy entries passed over. *)
Definition assets_total (assets : list value) : float :=
  fold_left
    (fun total asset =>
       if JS.truthy asset then (total + size_or_zero asset)%float else total)
    assets 0%float.

(** The sizes of the modules of a chunk added up in their order. *)
Definition modules_total (modules : list value) : float :=
  fold_left (fun total module => (total + size_or_zero module)%float)
    modules 0%float.

(** The sizes of the assets of an entrypoint added up in their order; an
    asset named by its file name only counts for nothing. *)
Definition entrypoint_total (assets : list value) : float :=
  fold_left
    (fun total asset =>
       if JS.typeof_object asset then (total + size_or_zero asset)%float
       else total)
    assets 0%float.

(** [entrypointSize / 1024] *)
Definition kilobytes (e : entrypoint_info) : value :=
  VNum (num_of (ep_size e) / 1024).

(** The rule of [performance.initialLoad]: 0 when the report has no
    entrypoint [main] and no entrypoint [index], or else the size of one
    of them in kilobytes. *)
Definition initialLoad_rule (m : metrics) : Prop :=
  match find_entry "main" (entrypoints m), find_entry "index" (entrypoints m)
  with
  | None, None => initialLoad (performance m) = VNum 0
  | Some e, None | None, Some e => initialLoad (performance m) = kilobytes e
  | Some e1, Some e2 =>
      initialLoad (performance m) = kilobytes e1
      \/ initialLoad (performance m) = kilobytes e2
  end.

(** The entry of [largestModules] that reports [module]: its size, its
    name (["unknown"] for a module without a name) and the type of its
    name. *)
Definition reports_module (module : value) (e : module_info) : Prop :=
  mod_size e = JS.get_opt module "size"
  /\ exists name : string,
       JS.or (JS.get_opt module "name") (VStr "") = VStr name
       /\ mod_name e = VStr (if String.eqb name "" then "unknown" else name)
       /\ mod_type e = getModuleType name.

(** The entry of [largestChunks] that reports [chunk]: its Resolved Size,
    the length of its [modules], its [id] as a string (["unknown"] for a
    chunk without an id, or with one whose string is empty) and its name:
    the first of its [names], or else its [name], or else
    ["unnamed chunk"], passing over what is falsy. *)
Definition reports_chunk (stats chunk : value) (e : chunk_info) : Prop :=
  calculateChunkSize chunk stats = Normal (chunk_size e)
  /\ chunk_modules e
     = List.length (Arr.elements (JS.get_opt chunk "modules"))
  /\ (exists id : string,
        chunk_id e = VStr (if String.eqb id "" then "unknown" else id)
        /\ match JS.get_opt chunk "id" with
           | VUndef | VNull => id = ""
           | given => JS.ToString given = Normal id
           end)
  /\ chunk_name e
     = (if JS.truthy (JS.first (JS.get_opt chunk "names"))
        then JS.first (JS.get_opt chunk "names")
        else if JS.truthy (JS.get_opt chunk "name")
             then JS.get_opt chunk "name"
             else VStr "unnamed chunk").

(** [typeof v === 'string'] *)
Definition typeof_string (v : value) : bool :=
  match v with VStr _ => true | _ => false end.


(** The [chunks] of an asset hold no string: they are absent (or
    otherwise falsy), or a sequence of values that are no strings, such as
    the numeric chunk ids webpack writes. *)
Definition no_string_chunks (asset : value) : bool :=
  match JS.get_opt asset "chunks" with
  | VArr ids => forallb (fun id => negb (typeof_string id)) ids
  | v => negb (JS.truthy v)
  end.

(** The extensions [getModuleType] knows, without their dot, and their
    labels. *)
Definition extension_labels : list (string * string) :=
  [("js", "javascript"); ("jsx", "javascript");
   ("ts", "typescript"); ("tsx", "typescript");
   ("css", "styles"); ("scss", "styles"); ("less", "styles");
   ("svg", "image"); ("png", "image"); ("jpg", "image"); ("jpeg", "image");
   ("gif", "image");
   ("json", "json")].

Definition label_of_extension (ext : string) : string :=
  match find_entry ext extension_labels with
  | Some label => label
  | None => "other"
  end.

(** The entry of the report for the entrypoint [ep] of the document: its
    chunks, and the sum of the sizes of its assets when these are numbers
    (or absent). *)
Definition reports_entrypoint (ep : value) (e : entrypoint_info) : Prop :=
  ep_chunks e = JS.or (JS.get_opt ep "chunks") (VArr [])
  /\ (forallb (fun asset => size_numeric (JS.get_opt asset "size"))
        (Arr.elements (JS.get_opt ep "assets")) = true ->
      ep_size e
      = VNum (entrypoint_total (Arr.elements (JS.get_opt ep "assets")))).

(** The key an asset is counted under in [totalSizeByType]: the extension
    of its name without the dot, ["unknown"] for a name without an
    extension and for an asset without a name. *)
Definition type_of_asset (asset : value) : string :=
  match JS.or (JS.get_opt asset "name") (VStr "") with
  | VStr name =>
      let e := Str.remove_first "." (Path.extname name) in
      if String.eqb e "" then "unknown" else e
  | _ => "unknown"
  end.

(** What [(byType || 0) + size] makes of the sum [byType] of a type and
    of one more asset: a sum that has come to 0 or to [NaN] is falsy and
    starts again from 0. *)
Definition count_asset (k : string) (byType : option float) (asset : value)
  : option float :=
  if JS.truthy asset && String.eqb (type_of_asset asset) k then
    let sum :=
      match byType with
      | Some total => if JS.truthy (VNum total) then total else 0%float
      | None => 0%float
      end in
    Some (sum + size_or_zero asset)%float
  else byType.

(** The sizes of the assets of the type [k] added up in the order of the
    document; nothing when no asset is of the type. *)
Definition type_total (k : string) (assets : list value) : option float :=
  fold_left (count_asset k) assets None.

(** A computation that writes nothing to the console. *)
Definition silent {A} (c : M A) : Prop :=
  forall h, console (fst (c h)) = console h.

(** Two assets whose extensions differ by their case only. *)
Definition mixed_case_stats : value :=
  VObj [("assets",
         VArr [VObj [("name", VStr "static/Main.JS"); ("size", VNum 10)];
               VObj [("name", VStr "static/main.js"); ("size", VNum 20)]])].

(** * The tools of the server *)

(** ** The arguments of the tools *)






(** The handler of [CallToolRequestSchema]: the [switch] on the name of
    the tool.  The three methods it hands the arguments to are
    parameters. *)
Section CallTool.

Context {R : Type}.
Variables analyzeWebpackStats analyzeWebpackConfig analyzeNextjsBuild
  : value -> R.


End CallTool.

(** ** The environment of the server *)

(** What [stats.isFile()] and [stats.isDirectory()] tell. *)
Inductive fs_kind : Type :=
| IsFile
| IsDirectory
| IsOther.

(** [type: 'file' | 'directory'] *)
Inductive path_type : Type :=
| file
| directory.

Definition type_name (type : path_type) : string :=
  match type with
  | file => "file"
  | directory => "directory"
  end.

(** A computation that asks the environment.  Each question carries what
    is done with the answer; [Raise] is a [throw] (a rejected promise).
    The questions: [fs.access], [fs.stat], [process.cwd()],
    [os.homedir()], [path.resolve] (which reads the working directory
    when its arguments are relative), the stack trace of an error that is
    being made, [console.error], [fs.readFile], [fs.mkdir],
    [fs.writeFile], [require.resolve], [execAsync], [exec],
    [this.runningProcesses.add], [fs.rm], [existsSync] and
    [fs.chmod]. *)
Inductive io (A : Type) : Type :=
| Done (a : A)
| Raise (e : js_error)
| Access (p : string) (k : option js_error -> io A)
| Stat (p : string) (k : js_error + fs_kind -> io A)
| Cwd (k : js_error + string -> io A)
| Homedir (k : js_error + string -> io A)
| Resolve (segments : list string) (k : string -> io A)
| Stack (k : string -> io A)
| Log (args : list console_arg) (k : io A)
| ReadFile (p : string) (k : js_error + string -> io A)
| Mkdir (p : string) (k : option js_error -> io A)
| WriteFile (p data : string) (k : option js_error -> io A)
| RequireResolve (request : string) (k : js_error + string -> io A)
| ExecAsync (command : string) (k : js_error + string * string -> io A)
| Exec (command : string) (k : nat -> io A)
| Track (child : nat) (k : io A)
| Rm (p : string) (k : option js_error -> io A)
| ExistsSync (p : string) (k : bool -> io A)
| Chmod (p : string) (mode : nat) (k : option js_error -> io A).
Arguments Done {A} a.
Arguments Raise {A} e.
Arguments Access {A} p k.
Arguments Stat {A} p k.
Arguments Cwd {A} k.
Arguments Homedir {A} k.
Arguments Resolve {A} segments k.
Arguments Stack {A} k.
Arguments Log {A} args k.
Arguments ReadFile {A} p k.
Arguments Mkdir {A} p k.
Arguments WriteFile {A} p data k.
Arguments RequireResolve {A} request k.
Arguments ExecAsync {A} command k.
Arguments Exec {A} command k.
Arguments Track {A} child k.
Arguments Rm {A} p k.
Arguments ExistsSync {A} p k.
Arguments Chmod {A} p mode k.

Fixpoint io_bind {A B} (t : io A) (f : A -> io B) : io B :=
  match t with
  | Done a => f a
  | Raise e => Raise e
  | Access p k => Access p (fun r => io_bind (k r) f)
  | Stat p k => Stat p (fun r => io_bind (k r) f)
  | Cwd k => Cwd (fun r => io_bind (k r) f)
  | Homedir k => Homedir (fun r => io_bind (k r) f)
  | Resolve segments k => Resolve segments (fun r => io_bind (k r) f)
  | Stack k => Stack (fun r => io_bind (k r) f)
  | Log args k => Log args (io_bind k f)
  | ReadFile p k => ReadFile p (fun r => io_bind (k r) f)
  | Mkdir p k => Mkdir p (fun r => io_bind (k r) f)
  | WriteFile p data k => WriteFile p data (fun r => io_bind (k r) f)
  | RequireResolve request k =>
      RequireResolve request (fun r => io_bind (k r) f)
  | ExecAsync command k => ExecAsync command (fun r => io_bind (k r) f)
  | Exec command k => Exec command (fun r => io_bind (k r) f)
  | Track child k => Track child (io_bind k f)
  | Rm p k => Rm p (fun r => io_bind (k r) f)
  | ExistsSync p k => ExistsSync p (fun r => io_bind (k r) f)
  | Chmod p mode k => Chmod p mode (fun r => io_bind (k r) f)
  end.

(** [try { t } catch (error) { handler }] *)
Fixpoint io_catch {A} (t : io A) (handler : js_error -> io A) : io A :=
  match t with
  | Done a => Done a
  | Raise e => handler e
  | Access p k => Access p (fun r => io_catch (k r) handler)
  | Stat p k => Stat p (fun r => io_catch (k r) handler)
  | Cwd k => Cwd (fun r => io_catch (k r) handler)
  | Homedir k => Homedir (fun r => io_catch (k r) handler)
  | Resolve segments k => Resolve segments (fun r => io_catch (k r) handler)
  | Stack k => Stack (fun r => io_catch (k r) handler)
  | Log args k => Log args (io_catch k handler)
  | ReadFile p k => ReadFile p (fun r => io_catch (k r) handler)
  | Mkdir p k => Mkdir p (fun r => io_catch (k r) handler)
  | WriteFile p data k => WriteFile p data (fun r => io_catch (k r) handler)
  | RequireResolve request k =>
      RequireResolve request (fun r => io_catch (k r) handler)
  | ExecAsync command k => ExecAsync command (fun r => io_catch (k r) handler)
  | Exec command k => Exec command (fun r => io_catch (k r) handler)
  | Track child k => Track child (io_catch k handler)
  | Rm p k => Rm p (fun r => io_catch (k r) handler)
  | ExistsSync p k => ExistsSync p (fun r => io_catch (k r) handler)
  | Chmod p mode k => Chmod p mode (fun r => io_catch (k r) handler)
  end.

Declare Scope io_scope.
Delimit Scope io_scope with io.
Notation "x <- m ;; k" := (io_bind m (fun x => k))
  (at level 61, m at next level, right associativity) : io_scope.

Definition settle {A} (r : js_error + A) : io A :=
  match r with
  | inl e => Raise e
  | inr a => Done a
  end.

Definition settle_unit (r : option js_error) : io unit :=
  match r with
  | Some e => Raise e
  | None => Done tt
  end.

(** [await fs.access(p)] *)
Definition fs_access (p : string) : io unit := Access p settle_unit.

(** [await fs.stat(p)] *)
Definition fs_stat (p : string) : io fs_kind := Stat p settle.

(** [process.cwd()] *)
Definition process_cwd : io string := Cwd settle.

(** [os.homedir()] *)
Definition os_homedir : io string := Homedir settle.

(** [path.resolve(...segments)] *)
Definition path_resolve (segments : list string) : io string :=
  Resolve segments (fun p => Done p).

(** [throw new Error(msg)] *)
Definition throw_new_Error {A} (msg : string) : io A :=
  Stack (fun trace =>
           Raise {| message := msg; code := None; stack := trace |}).

(** [console.error(line)] *)
Definition console_error_line (line : string) : io unit :=
  Log [Text line] (Done tt).

(** [console.error(line, error)] *)
Definition console_error_with (line : string) (error : js_error) : io unit :=
  Log [Text line; Thrown error] (Done tt).

(** [await fs.readFile(p, 'utf-8')] *)
Definition fs_readFile (p : string) : io string := ReadFile p settle.

(** [await fs.mkdir(p, { recursive: true })] *)
Definition fs_mkdir (p : string) : io unit := Mkdir p settle_unit.

(** [await fs.writeFile(p, data, 'utf-8')] *)
Definition fs_writeFile (p data : string) : io unit :=
  WriteFile p data settle_unit.

(** [require.resolve(request)] *)
Definition require_resolve (request : string) : io string :=
  RequireResolve request settle.

(** [await execAsync(command)]: the standard output and the standard error
    of the command. *)
Definition execAsync (command : string) : io (string * string) :=
  ExecAsync command settle.

(** [exec(command)]: the child process, which runs on. *)
Definition exec (command : string) : io nat :=
  Exec command (fun child => Done child).

(** [this.runningProcesses.add(child)] *)
Definition runningProcesses_add (child : nat) : io unit :=
  Track child (Done tt).

(** [await fs.rm(p, { recursive: true, force: true })] *)
Definition fs_rm (p : string) : io unit := Rm p settle_unit.

(** [existsSync(p)] *)
Definition existsSync (p : string) : io bool :=
  ExistsSync p (fun found => Done found).

(** [await fs.chmod(p, mode)] *)
Definition fs_chmod (p : string) (mode : nat) : io unit :=
  Chmod p mode settle_unit.

(** ** Paths on the file system *)

(** [path.isAbsolute(p)] (POSIX) *)
Definition isAbsolute (p : string) : bool :=
  match p with
  | String c _ => Ascii.eqb c "/"
  | EmptyString => false
  end.

(** [(type === 'file' && stats.isFile()) ||
     (type === 'directory' && stats.isDirectory())] *)
Definition is_a (type : path_type) (stats : fs_kind) : bool :=
  match type, stats with
  | file, IsFile | directory, IsDirectory => true
  | _, _ => false
  end.

Definition newline : string := String "010"%char "".

(** [async function resolvePath(inputPath: string, type: 'file' |
    'directory' = 'file'): Promise<string>].  A [return] inside a [try]
    is the value [Some] of the block, falling out of it is [None]. *)
Definition resolvePath (inputPath : string) (type : path_type) : io string :=
  (if isAbsolute inputPath then
     io_catch
       (_ <- fs_access inputPath ;;
        stats <- fs_stat inputPath ;;
        if is_a type stats then Done inputPath
        else throw_new_Error ("Path " ++ inputPath ++ " exists but is not a "
                              ++ type_name type))
       (fun error =>
          match code error with
          | Some c =>
              if String.eqb c "ENOENT" then
                throw_new_Error ("Cannot access " ++ type_name type
                                 ++ " at absolute path: " ++ inputPath)
              else Raise error
          | None => Raise error
          end)
   else
     cwd <- process_cwd ;;
     workspacePath <- path_resolve [cwd; inputPath] ;;
     inWorkspace <-
       io_catch
         (_ <- fs_access workspacePath ;;
          stats <- fs_stat workspacePath ;;
          Done (if is_a type stats then Some workspacePath else None))
         (fun _ => Done None) ;;
     match inWorkspace with
     | Some found => Done found
     | None =>
         home <- os_homedir ;;
         projectPath <-
           path_resolve [home; "Desktop/webpack-analyzer-mcp"; inputPath] ;;
         inProject <-
           io_catch
             (_ <- fs_access projectPath ;;
              stats <- fs_stat projectPath ;;
              Done (if is_a type stats then Some projectPath else None))
             (fun _ =>
                throw_new_Error
                  ("Cannot find " ++ type_name type ++ " at either:"
                   ++ newline
                   ++ "1. Workspace: " ++ workspacePath ++ newline
                   ++ "2. Project: " ++ projectPath ++ newline
                   ++ "Please provide a valid path relative to one of these locations or an absolute path.")) ;;
         match inProject with
         | Some found => Done found
         | None =>
             throw_new_Error ("Path " ++ inputPath ++ " exists but is not a "
                              ++ type_name type)
         end
     end)%io.

(** [{ valid, resolvedPath?, error? }] *)
Record validation : Type := {
  valid : bool;
  resolvedPath : option string;
  error : option string
}.

(** [async function validatePath(path: string, type: 'file' |
    'directory')] *)
Definition validatePath (path : string) (type : path_type) : io validation :=
  io_catch
    (resolved <- resolvePath path type ;;
     Done {| valid := true; resolvedPath := Some resolved; error := None |})%io
    (fun e =>
       Done {| valid := false; resolvedPath := None;
               error := Some (message e) |}).

(** ** [analyzeWebpackStats] *)

(** [interface AnalyzeWebpackBuildArgs]: the arguments as the handler of
    the tool calls lets them through. *)
Record AnalyzeWebpackBuildArgs : Type := {
  statsFile : string;
  outputDir : option string;
  port : option float;
  openBrowser : option bool;
  generateReport : option bool;
  includeRawStats : option bool
}.

(** [interface AnalyzeWebpackConfigArgs] *)
Module Config.
End Config.

(** [interface AnalyzeNextjsBuildArgs] *)
Module Nextjs.
Record AnalyzeNextjsBuildArgs : Type := {
  projectDir : string;
  outputDir : option string;
  port : option float;
  openBrowser : option bool;
  generateReport : option bool;
  includeRawStats : option bool
}.
End Nextjs.

(** [{ type: 'text', text }] *)
Record text_content : Type := {
  type : string;
  text : string
}.

(** What a tool returns: [{ content, isError? }]. *)
Record tool_result : Type := {
  content : list text_content;
  isError : option bool
}.

(** [s.endsWith(t)] *)
Definition endsWith (s t : string) : bool :=
  (String.length t <=? String.length s)%nat
  && String.eqb (Str.drop (String.length s - String.length t) s) t.

Definition quote : string := String "034"%char "".

(** A string put into a template: [undefined] reads [undefined]. *)
Definition template (s : option string) : string :=
  match s with
  | Some text => text
  | None => "undefined"
  end.

(** The [TypeError] of [path.dirname] and [path.join] on an argument
    that is no string. *)
Definition throw_invalid_path {A} : io A :=
  Stack (fun trace =>
           Raise {| message :=
                      "The " ++ quote ++ "path" ++ quote
                      ++ " argument must be of type string. Received undefined";
                    code := Some "ERR_INVALID_ARG_TYPE";
                    stack := trace |}).

(** The report of [extractMetrics] as the object it is. *)
Definition count_value (n : nat) : value := VNum (Num.of_nat n).

Definition metrics_value (r : result) : value :=
  match r with
  | Failure e => VObj [("error", VStr e)]
  | Report m =>
      VObj
        [("totalSize", totalSize m);
         ("totalSizeByType", VObj (totalSizeByType m));
         ("entrypoints",
          VObj (List.map
                  (fun e =>
                     (fst e, VObj [("size", ep_size (snd e));
                                   ("chunks", ep_chunks (snd e))]))
                  (entrypoints m)));
         ("largestModules",
          VArr (List.map
                  (fun e => VObj [("name", mod_name e); ("size", mod_size e);
                                  ("type", VStr (mod_type e))])
                  (largestModules m)));
         ("largestChunks",
          VArr (List.map
                  (fun e => VObj [("id", chunk_id e); ("name", chunk_name e);
                                  ("size", chunk_size e);
                                  ("modules", count_value (chunk_modules e))])
                  (largestChunks m)));
         ("moduleCount", count_value (moduleCount m));
         ("chunkCount", count_value (chunkCount m));
         ("assetCount", count_value (assetCount m));
         ("buildTime", buildTime m);
         ("performance",
          VObj [("initialLoad", initialLoad (performance m));
                ("cacheEfficiency", VNum (cacheEfficiency (performance m)));
                ("chunkFragmentation",
                 VNum (chunkFragmentation (performance m)))])]
  end.

(** What [this.extractMetrics(stats)] evaluates to, as an object; the
    [catch] of [extractMetrics] lets no exception out. *)
Definition metrics_of (stats : value) : value :=
  match extractMetrics stats with
  | Normal r => metrics_value r
  | Throw => metrics_value (Failure "Failed to extract metrics")
  end.

Fixpoint console_error_calls (calls : list (list console_arg)) : io unit :=
  match calls with
  | [] => Done tt
  | args :: rest => Log args (console_error_calls rest)
  end.

(** [this.extractMetrics(stats)]: what it writes to the console, and its
    report. *)
Definition call_extractMetrics (stats : value) : io value :=
  io_bind (console_error_calls (console (fst (extractMetrics_run stats))))
    (fun _ => Done (metrics_of stats)).

(** The functions of the language and of [path] that ask nothing:
    [JSON.parse] (a value, or the message of its [SyntaxError]),
    [JSON.stringify(v)], [JSON.stringify(v, null, 2)], [path.dirname] and
    [path.join]; and the message of the [TypeError] of reading a
    property, by its name, of [null]. *)
Record library : Type := {
  JSON_parse : string -> string + value;
  JSON_stringify : value -> string;
  JSON_stringify_indented : value -> string;
  path_dirname : string -> string;
  path_join : list string -> string;
  reading_of_null : string -> string
}.

Section Handlers.

Variable lib : library.

(** [args.port || 8888] *)
Definition port_of (port : option float) : float :=
  match port with
  | Some n => if JS.truthy (VNum n) then n else 8888%float
  | None => 8888%float
  end.

(** [flag !== false] *)
Definition not_false (flag : option bool) : bool :=
  match flag with
  | Some false => false
  | _ => true
  end.

(** [if (flag)] on an optional flag *)
Definition is_set (flag : option bool) : bool :=
  match flag with
  | Some true => true
  | _ => false
  end.

Definition invalid_stats_file (statsFile : string) (error : option string)
  : string :=
  "Invalid stats file path: " ++ statsFile ++ newline
  ++ "Please provide either:" ++ newline
  ++ "1. Absolute path (e.g. /Users/name/project/stats.json)" ++ newline
  ++ "2. Path relative to workspace (e.g. build/stats.json)" ++ newline
  ++ "3. Path relative to project (e.g. ./stats.json)" ++ newline ++ newline
  ++ "Error: " ++ template error.

Definition invalid_output_directory (outputDir : string)
    (error : option string) : string :=
  "Invalid output directory path: " ++ outputDir ++ newline
  ++ "Please provide either:" ++ newline
  ++ "1. Absolute path (e.g. /Users/name/project/reports)" ++ newline
  ++ "2. Path relative to workspace (e.g. reports)" ++ newline
  ++ "3. Path relative to project (e.g. ./reports)" ++ newline ++ newline
  ++ "Error: " ++ template error.

(** The object of the answer when all went well. *)
Definition stats_analyzed (outputDir : string) (port : float)
    (generateReport : bool) (metrics rawStats : value) : value :=
  VObj
    [("success", VBool true);
     ("message",
      VStr ("Webpack stats analyzed successfully."
            ++ (if generateReport
                then " Report generated at "
                     ++ path_join lib [outputDir; "report.html"]
                else "")
            ++ (if negb generateReport
                then " Analyzer server running at http://localhost:"
                     ++ Num.toString port
                else "")));
     ("reportPath",
      if generateReport then VStr (path_join lib [outputDir; "report.html"])
      else VNull);
     ("serverUrl",
      if negb generateReport
      then VStr ("http://localhost:" ++ Num.toString port)
      else VNull);
     ("metrics", metrics);
     ("rawStats", rawStats)].

(** The object of the answer after an error. *)
Definition stats_not_analyzed (error : js_error) : value :=
  VObj
    [("success", VBool false);
     ("message", VStr ("Error analyzing webpack stats: " ++ message error));
     ("error", VStr (stack error))].

Definition text_result (v : value) (isError : option bool) : tool_result :=
  {| content := [{| type := "text"; text := JSON_stringify_indented lib v |}];
     isError := isError |}.

(** The block of the [try] of [analyzeWebpackStats]. *)
Definition analyzeWebpackStats_try (args : AnalyzeWebpackBuildArgs)
  : io tool_result :=
  (_ <- (if negb (endsWith (statsFile args) ".json")
         then throw_new_Error "Stats file must have .json extension"
         else Done tt) ;;
   statsFileValidation <- validatePath (statsFile args) file ;;
   _ <- (if negb (valid statsFileValidation)
         then throw_new_Error
                (invalid_stats_file (statsFile args)
                   (error statsFileValidation))
         else Done tt) ;;
   _ <- console_error_line
          ("Using stats file at: "
           ++ template (resolvedPath statsFileValidation)) ;;
   statsFilePath <-
     match resolvedPath statsFileValidation with
     | Some p => Done p
     | None => throw_invalid_path
     end ;;
   outputDir <-
     match outputDir args with
     | Some dir =>
         if negb (String.eqb dir "") then
           outputDirValidation <- validatePath dir directory ;;
           _ <- (if negb (valid outputDirValidation)
                 then throw_new_Error
                        (invalid_output_directory dir
                           (error outputDirValidation))
                 else Done tt) ;;
           Done (resolvedPath outputDirValidation)
         else Done (Some (path_dirname lib statsFilePath))
     | None => Done (Some (path_dirname lib statsFilePath))
     end ;;
   statsContent <- fs_readFile statsFilePath ;;
   stats <-
     match JSON_parse lib statsContent with
     | inr stats => Done stats
     | inl syntax =>
         throw_new_Error ("Failed to parse stats file: " ++ syntax
                          ++ ". Make sure it's a valid JSON file.")
     end ;;
   let port := port_of (port args) in
   let openBrowser := not_false (openBrowser args) in
   let generateReport := not_false (generateReport args) in
   outputDir <-
     match outputDir with
     | Some dir => Done dir
     | None => throw_invalid_path
     end ;;
   let reportPath := path_join lib [outputDir; "report.html"] in
   _ <- (if generateReport then
           let tempDir := path_join lib [outputDir; "temp-analyzer"] in
           _ <- fs_mkdir tempDir ;;
           let tempStatsPath := path_join lib [tempDir; "stats.json"] in
           _ <- fs_writeFile tempStatsPath (JSON_stringify lib stats) ;;
           analyzerPath <-
             require_resolve "webpack-bundle-analyzer/lib/bin/analyzer.js" ;;
           _ <- execAsync
                  ("node " ++ quote ++ analyzerPath ++ quote ++ " "
                   ++ quote ++ tempStatsPath ++ quote ++ " -m static -r "
                   ++ quote ++ reportPath ++ quote ++ " -O") ;;
           fs_rm tempDir
         else
           analyzerPath <-
             require_resolve "webpack-bundle-analyzer/lib/bin/analyzer.js" ;;
           let tempDir := path_join lib [outputDir; "temp-analyzer"] in
           _ <- fs_mkdir tempDir ;;
           let tempStatsPath := path_join lib [tempDir; "stats.json"] in
           _ <- fs_writeFile tempStatsPath (JSON_stringify lib stats) ;;
           child <-
             exec ("node " ++ quote ++ analyzerPath ++ quote ++ " "
                   ++ quote ++ tempStatsPath ++ quote ++ " -m server -p "
                   ++ Num.toString port ++ " "
                   ++ (if openBrowser then "-O" else "")) ;;
           runningProcesses_add child) ;;
   metrics <- call_extractMetrics stats ;;
   Done (text_result
           (stats_analyzed outputDir port generateReport metrics
              (if is_set (includeRawStats args) then stats_after stats
               else VUndef))
           None))%io.

(** [private async analyzeWebpackStats(args: AnalyzeWebpackBuildArgs)] *)
Definition analyzeWebpackStats (args : AnalyzeWebpackBuildArgs)
  : io tool_result :=
  io_catch (analyzeWebpackStats_try args)
    (fun error => Done (text_result (stats_not_analyzed error) (Some true))).

(** ** [analyzeWebpackConfig] *)

(** [`${flag}`] *)
Definition boolean_text (flag : bool) : string :=
  if flag then "true" else "false".






(** The object of the answer when the build ran. *)
Definition build_analyzed (what : string) (outputDir : string)
    (port : float) (generateReport : bool) (metrics rawStats : value)
    (stdout stderr : string) : value :=
  VObj
    [("success", VBool true);
     ("message",
      VStr (what ++ " build analyzed successfully."
            ++ (if generateReport
                then " Report generated at "
                     ++ path_join lib [outputDir; "report.html"]
                else "")
            ++ (if negb generateReport
                then " Analyzer server running at http://localhost:"
                     ++ Num.toString port
                else "")));
     ("reportPath",
      if generateReport then VStr (path_join lib [outputDir; "report.html"])
      else VNull);
     ("serverUrl",
      if negb generateReport
      then VStr ("http://localhost:" ++ Num.toString port)
      else VNull);
     ("metrics", metrics);
     ("rawStats", rawStats);
     ("stdout", VStr stdout);
     ("stderr", VStr stderr)].


(** [JSON.parse(content)], which throws a [SyntaxError]. *)
Definition parse_JSON (content : string) : io value :=
  match JSON_parse lib content with
  | inr v => Done v
  | inl syntax => throw_new_Error syntax
  end.

(** The reading of the stats file the build has written, lines 965 to
    978: [metrics] and [rawStats], both [null] when there is no such file
    or it cannot be read or parsed. *)
Definition read_generated_stats (statsFilePath : string)
    (includeRawStats : option bool) : io (value * value) :=
  (generated <- existsSync statsFilePath ;;
   if generated then
     io_catch
       (statsContent <- fs_readFile statsFilePath ;;
        stats <- parse_JSON statsContent ;;
        metrics <- call_extractMetrics stats ;;
        Done (metrics,
              if is_set includeRawStats then stats_after stats else VUndef))
       (fun error =>
          _ <- console_error_with "Error reading stats file:" error ;;
          Done (VNull, VNull))
   else Done (VNull, VNull))%io.



(** ** [analyzeNextjsBuild] *)

Definition invalid_project_directory (projectDir : string)
    (error : option string) : string :=
  "Invalid Next.js project directory path: " ++ projectDir ++ newline
  ++ "Please provide either:" ++ newline
  ++ "1. Absolute path (e.g. /Users/name/project)" ++ newline
  ++ "2. Path relative to workspace (e.g. my-nextjs-app)" ++ newline
  ++ "3. Path relative to project (e.g. ./my-nextjs-app)" ++ newline
  ++ newline
  ++ "Error: " ++ template error.

(** [throw] of the [TypeError] of reading the property [name] of
    [null]. *)
Definition throw_reading_of_null {A} (name : string) : io A :=
  throw_new_Error (reading_of_null lib name).

(** [!!(packageJson.dependencies?.next ||
        packageJson.devDependencies?.next)]; like the names
    [extractMetrics] reads, [dependencies], [devDependencies] and [next]
    name no member of an array or a primitive. *)
Definition depends_on_next (packageJson : value) : io bool :=
  match JS.get packageJson "dependencies" with
  | Throw => throw_reading_of_null "dependencies"
  | Normal dependencies =>
      if JS.truthy (JS.get_opt dependencies "next") then Done true
      else
        match JS.get packageJson "devDependencies" with
        | Throw => throw_reading_of_null "devDependencies"
        | Normal devDependencies =>
            Done (JS.truthy (JS.get_opt devDependencies "next"))
        end
  end.

(** [type === 'module'] *)
Definition is_module (type : value) : bool :=
  match type with
  | VStr name => String.eqb name "module"
  | _ => false
  end.

(** [packageJson.type === 'module'] *)
Definition type_is_module (packageJson : value) : io bool :=
  match JS.get packageJson "type" with
  | Throw => throw_reading_of_null "type"
  | Normal type => Done (is_module type)
  end.

(** [s.replace(/\\/g, '\\\\')]: every backslash is doubled. *)
Fixpoint double_backslashes (s : string) : string :=
  match s with
  | EmptyString => EmptyString
  | String c rest =>
      if Ascii.eqb c "092"
      then String c (String c (double_backslashes rest))
      else String c (double_backslashes rest)
  end.

(** The configuration written for a project of ES modules, line by
    line. *)
Definition esm_next_config (configImportPath : option string)
    (analyzerMode : string) (port : float) (openBrowser : bool)
    (reportPath statsPath : string) : string :=
  String.concat newline
   ["";
    "import { BundleAnalyzerPlugin } from 'webpack-bundle-analyzer';";
    match configImportPath with
    | Some imported =>
        if negb (String.eqb imported "")
        then "import baseConfig from '" ++ imported ++ "';"
        else ""
    | None => ""
    end;
    "";
    "/** @type {import('next').NextConfig} */";
    "const nextConfig = " ++ (match configImportPath with
                            | Some imported =>
                                if negb (String.eqb imported "")
                                then "baseConfig" else "{}"
                            | None => "{}"
                            end) ++ ";";
    "";
    "export default {";
    "  ...nextConfig,";
    "  webpack: (config, { buildId, dev, isServer, defaultLoaders, webpack }) => {";
    "    // Use the existing webpack config function if it exists";
    "    let updatedConfig = config;";
    "    if (typeof nextConfig.webpack === 'function') {";
    "      updatedConfig = nextConfig.webpack(config, { buildId, dev, isServer, defaultLoaders, webpack });";
    "    }";
    "    ";
    "    // Only add analyzer plugin to the client-side bundle";
    "    if (!isServer) {";
    "      updatedConfig.plugins.push(";
    "        new BundleAnalyzerPlugin({";
    "          analyzerMode: " ++ analyzerMode ++ ",";
    "          analyzerPort: " ++ Num.toString port ++ ",";
    "          reportFilename: '" ++ double_backslashes reportPath ++ "',";
    "          openAnalyzer: " ++ boolean_text openBrowser ++ ",";
    "          generateStatsFile: true,";
    "          statsFilename: '" ++ double_backslashes statsPath ++ "',";
    "          logLevel: 'info',";
    "        })";
    "      );";
    "    }";
    "    ";
    "    return updatedConfig;";
    "  },";
    "};";
    "        "].

(** The configuration written for a CommonJS project. *)
Definition commonjs_next_config (configImportPath : option string)
    (analyzerMode : string) (port : float) (openBrowser : bool)
    (reportPath statsPath : string) : string :=
  String.concat newline
   ["";
    "const { BundleAnalyzerPlugin } = require('webpack-bundle-analyzer');";
    match configImportPath with
    | Some imported =>
        if negb (String.eqb imported "")
        then "const baseConfig = require('" ++ imported ++ "');"
        else ""
    | None => ""
    end;
    "";
    "/** @type {import('next').NextConfig} */";
    "const nextConfig = " ++ (match configImportPath with
                            | Some imported =>
                                if negb (String.eqb imported "")
                                then "baseConfig" else "{}"
                            | None => "{}"
                            end) ++ ";";
    "";
    "module.exports = {";
    "  ...nextConfig,";
    "  webpack: (config, { buildId, dev, isServer, defaultLoaders, webpack }) => {";
    "    // Use the existing webpack config function if it exists";
    "    let updatedConfig = config;";
    "    if (typeof nextConfig.webpack === 'function') {";
    "      updatedConfig = nextConfig.webpack(config, { buildId, dev, isServer, defaultLoaders, webpack });";
    "    }";
    "    ";
    "    // Only add analyzer plugin to the client-side bundle";
    "    if (!isServer) {";
    "      updatedConfig.plugins.push(";
    "        new BundleAnalyzerPlugin({";
    "          analyzerMode: " ++ analyzerMode ++ ",";
    "          analyzerPort: " ++ Num.toString port ++ ",";
    "          reportFilename: '" ++ double_backslashes reportPath ++ "',";
    "          openAnalyzer: " ++ boolean_text openBrowser ++ ",";
    "          generateStatsFile: true,";
    "          statsFilename: '" ++ double_backslashes statsPath ++ "',";
    "          logLevel: 'info',";
    "        })";
    "      );";
    "    }";
    "    ";
    "    return updatedConfig;";
    "  },";
    "};";
    "        "].

(** The script written to run the build. *)
Definition next_build_script (projectDir tempConfigPath : string) : string :=
  String.concat newline
   ["";
    "#!/usr/bin/env node";
    "const { spawn } = require('child_process');";
    "const path = require('path');";
    "";
    "// Run Next.js build with our custom config";
    "const nextBuild = spawn('npx', ['next', 'build'], {";
    "  cwd: '" ++ double_backslashes projectDir ++ "',";
    "  env: {";
    "    ...process.env,";
    "    NEXT_CONFIG_FILE: '" ++ double_backslashes tempConfigPath ++ "'";
    "  },";
    "  stdio: 'inherit'";
    "});";
    "";
    "nextBuild.on('error', (err) => {";
    "  console.error('Failed to start Next.js build:', err);";
    "  process.exit(1);";
    "});";
    "";
    "nextBuild.on('close', (code) => {";
    "  if (code !== 0) {";
    "    console.error('Next.js build failed with code:', code);";
    "    process.exit(code);";
    "  }";
    "  console.log('Next.js build completed successfully');";
    "});";
    "      "].

(** The object of the answer after an error. *)
Definition nextjs_not_analyzed (error : js_error) : value :=
  VObj
    [("success", VBool false);
     ("message", VStr ("Error analyzing Next.js build: " ++ message error));
     ("error", VStr (stack error))].

(** The block of the [try] of [analyzeNextjsBuild]. *)
Definition analyzeNextjsBuild_try (args : Nextjs.AnalyzeNextjsBuildArgs)
  : io tool_result :=
  (projectDirValidation <- validatePath (Nextjs.projectDir args) directory ;;
   _ <- (if negb (valid projectDirValidation)
         then throw_new_Error
                (invalid_project_directory (Nextjs.projectDir args)
                   (error projectDirValidation))
         else Done tt) ;;
   _ <- console_error_line
          ("Using project directory at: "
           ++ template (resolvedPath projectDirValidation)) ;;
   projectDir <-
     match resolvedPath projectDirValidation with
     | Some p => Done p
     | None => throw_invalid_path
     end ;;
   let packageJsonPath := path_join lib [projectDir; "package.json"] in
   let nextConfigPath := path_join lib [projectDir; "next.config.js"] in
   let nextConfigMjsPath := path_join lib [projectDir; "next.config.mjs"] in
   hasPackageJson <- existsSync packageJsonPath ;;
   package <-
     (if hasPackageJson then
        packageJsonContent <- fs_readFile packageJsonPath ;;
        packageJson <- parse_JSON packageJsonContent ;;
        isNextProject <- depends_on_next packageJson ;;
        isESM <- type_is_module packageJson ;;
        Done (isNextProject, isESM)
      else Done (false, false)) ;;
   let isNextProject := fst package in
   hasConfigJs <- existsSync nextConfigPath ;;
   config <-
     (if hasConfigJs then Done (true, snd package)
      else
        hasConfigMjs <- existsSync nextConfigMjsPath ;;
        if hasConfigMjs then Done (true, true)
        else Done (false, snd package)) ;;
   let hasNextConfig := fst config in
   let isESM := snd config in
   _ <- (if negb isNextProject
         then throw_new_Error
                "The specified directory does not appear to be a Next.js project. Make sure it has Next.js as a dependency in package.json."
         else Done tt) ;;
   outputDir <-
     match Nextjs.outputDir args with
     | Some dir =>
         if negb (String.eqb dir "") then
           outputDirValidation <- validatePath dir directory ;;
           _ <- (if negb (valid outputDirValidation)
                 then throw_new_Error
                        (invalid_output_directory dir
                           (error outputDirValidation))
                 else Done tt) ;;
           Done (resolvedPath outputDirValidation)
         else Done (Some projectDir)
     | None => Done (Some projectDir)
     end ;;
   let port := port_of (Nextjs.port args) in
   let openBrowser := not_false (Nextjs.openBrowser args) in
   let generateReport := not_false (Nextjs.generateReport args) in
   let tempConfigName :=
     if isESM then "next.analyzer.config.mjs"
     else "next.analyzer.config.js" in
   outputDir <-
     match outputDir with
     | Some dir => Done dir
     | None => throw_invalid_path
     end ;;
   let tempConfigPath := path_join lib [outputDir; tempConfigName] in
   let configImportPath :=
     if hasNextConfig
     then Some (if isESM then nextConfigMjsPath else nextConfigPath)
     else None in
   let analyzerMode := if generateReport then "'static'" else "'server'" in
   let analyzerConfig :=
     (if isESM then esm_next_config else commonjs_next_config)
       configImportPath analyzerMode port openBrowser
       (path_join lib [outputDir; "report.html"])
       (path_join lib [outputDir; "stats.json"]) in
   _ <- fs_writeFile tempConfigPath analyzerConfig ;;
   let buildScriptPath := path_join lib [outputDir; "run-next-build.js"] in
   _ <- fs_writeFile buildScriptPath
          (next_build_script projectDir tempConfigPath) ;;
   _ <- fs_chmod buildScriptPath 493 ;;
   output <- execAsync ("node " ++ buildScriptPath) ;;
   let statsFilePath := path_join lib [outputDir; "stats.json"] in
   generated <-
     read_generated_stats statsFilePath (Nextjs.includeRawStats args) ;;
   Done (text_result
           (build_analyzed "Next.js" outputDir port generateReport
              (fst generated) (snd generated) (fst output) (snd output))
           None))%io.

(** [private async analyzeNextjsBuild(args: AnalyzeNextjsBuildArgs)] *)
Definition analyzeNextjsBuild (args : Nextjs.AnalyzeNextjsBuildArgs)
  : io tool_result :=
  io_catch (analyzeNextjsBuild_try args)
    (fun error => Done (text_result (nextjs_not_analyzed error) (Some true))).

End Handlers.

(** ** Runs *)

(** What was asked, and the answer. *)
Inductive step : Type :=
| DidAccess (p : string) (r : option js_error)
| DidStat (p : string) (r : js_error + fs_kind)
| DidCwd (r : js_error + string)
| DidHomedir (r : js_error + string)
| DidResolve (segments : list string) (r : string)
| DidStack (r : string)
| DidLog (args : list console_arg)
| DidReadFile (p : string) (r : js_error + string)
| DidMkdir (p : string) (r : option js_error)
| DidWriteFile (p data : string) (r : option js_error)
| DidRequireResolve (request : string) (r : js_error + string)
| DidExecAsync (command : string) (r : js_error + string * string)
| DidExec (command : string) (r : nat)
| DidTrack (child : nat)
| DidRm (p : string) (r : option js_error)
| DidExistsSync (p : string) (r : bool)
| DidChmod (p : string) (mode : nat) (r : option js_error).

(** An environment: the answer to each question, given all that was asked
    and answered before (a file may come and go between two questions). *)
Record world : Type := {
  on_access : list step -> string -> option js_error;
  on_stat : list step -> string -> js_error + fs_kind;
  on_cwd : list step -> js_error + string;
  on_homedir : list step -> js_error + string;
  on_resolve : list step -> list string -> string;
  on_stack : list step -> string;
  on_readFile : list step -> string -> js_error + string;
  on_mkdir : list step -> string -> option js_error;
  on_writeFile : list step -> string -> string -> option js_error;
  on_require_resolve : list step -> string -> js_error + string;
  on_execAsync : list step -> string -> js_error + string * string;
  on_exec : list step -> string -> nat;
  on_rm : list step -> string -> option js_error;
  on_existsSync : list step -> string -> bool;
  on_chmod : list step -> string -> nat -> option js_error
}.

(** A promise settles: it is fulfilled with a value or rejected with an
    error. *)
Inductive outcome (A : Type) : Type :=
| Fulfilled (a : A)
| Rejected (e : js_error).
Arguments Fulfilled {A} a.
Arguments Rejected {A} e.

(** The run of a computation in an environment: the outcome, and the
    questions asked, in their order, after those of [past]. *)
Fixpoint run {A} (w : world) (t : io A) (past : list step)
  : outcome A * list step :=
  match t with
  | Done a => (Fulfilled a, past)
  | Raise e => (Rejected e, past)
  | Access p k =>
      let r := on_access w past p in
      run w (k r) (past ++ [DidAccess p r])%list
  | Stat p k =>
      let r := on_stat w past p in
      run w (k r) (past ++ [DidStat p r])%list
  | Cwd k =>
      let r := on_cwd w past in
      run w (k r) (past ++ [DidCwd r])%list
  | Homedir k =>
      let r := on_homedir w past in
      run w (k r) (past ++ [DidHomedir r])%list
  | Resolve segments k =>
      let r := on_resolve w past segments in
      run w (k r) (past ++ [DidResolve segments r])%list
  | Stack k =>
      let r := on_stack w past in
      run w (k r) (past ++ [DidStack r])%list
  | Log args k => run w k (past ++ [DidLog args])%list
  | ReadFile p k =>
      let r := on_readFile w past p in
      run w (k r) (past ++ [DidReadFile p r])%list
  | Mkdir p k =>
      let r := on_mkdir w past p in
      run w (k r) (past ++ [DidMkdir p r])%list
  | WriteFile p data k =>
      let r := on_writeFile w past p data in
      run w (k r) (past ++ [DidWriteFile p data r])%list
  | RequireResolve request k =>
      let r := on_require_resolve w past request in
      run w (k r) (past ++ [DidRequireResolve request r])%list
  | ExecAsync command k =>
      let r := on_execAsync w past command in
      run w (k r) (past ++ [DidExecAsync command r])%list
  | Exec command k =>
      let r := on_exec w past command in
      run w (k r) (past ++ [DidExec command r])%list
  | Track child k => run w k (past ++ [DidTrack child])%list
  | Rm p k =>
      let r := on_rm w past p in
      run w (k r) (past ++ [DidRm p r])%list
  | ExistsSync p k =>
      let r := on_existsSync w past p in
      run w (k r) (past ++ [DidExistsSync p r])%list
  | Chmod p mode k =>
      let r := on_chmod w past p mode in
      run w (k r) (past ++ [DidChmod p mode r])%list
  end.

(** ** Vocabulary of the properties of the runs *)

(** The path a question to the file system is about. *)
Definition probed (s : step) : option string :=
  match s with
  | DidAccess p _ | DidStat p _ => Some p
  | _ => None
  end.

(** An error made by [new Error(msg)]. *)
Definition is_Error (msg : string) (e : js_error) : Prop :=
  message e = msg /\ code e = None.

(** Asking for [p] and finding a [type] there. *)
Definition found_at (type : path_type) (p : string) (asked : list step)
  : Prop :=
  exists stats,
    asked = [DidAccess p None; DidStat p (inr stats)]
    /\ is_a type stats = true.

(** Asking for [p] and finding no [type] there: [fs.access] or [fs.stat]
    fails, or what is there is of another type. *)
Definition not_found_at (type : path_type) (p : string) (asked : list step)
  : Prop :=
  (exists e, asked = [DidAccess p (Some e)])
  \/ (exists e, asked = [DidAccess p None; DidStat p (inl e)])
  \/ (exists stats,
        asked = [DidAccess p None; DidStat p (inr stats)]
        /\ is_a type stats = false).

(** The file system raised [e] on [p]. *)
Definition raised_on (p : string) (e : js_error) (asked : list step) : Prop :=
  In (DidAccess p (Some e)) asked \/ In (DidStat p (inl e)) asked.

(** The questions about paths: whether one can be reached, what is
    there, the directories paths are resolved from, and the stack trace
    of an error. *)
Definition path_question (s : step) : bool :=
  match s with
  | DidAccess _ _ | DidStat _ _ | DidCwd _ | DidHomedir _ | DidResolve _ _
  | DidStack _ => true
  | _ => false
  end.

(** The error a step ends a run with: the one the environment answered
    with, or the one made by [new Error] when its stack trace was
    taken. *)
Definition raises (s : step) (e : js_error) : Prop :=
  match s with
  | DidReadFile _ (inl e') | DidRequireResolve _ (inl e')
  | DidExecAsync _ (inl e') => e' = e
  | DidMkdir _ (Some e') | DidWriteFile _ _ (Some e') | DidRm _ (Some e')
  | DidChmod _ _ (Some e') => e' = e
  | DidStack trace => stack e = trace /\ code e = None
  | _ => False
  end.

(** The steps that change something: on the file system, or by starting
    a process. *)
Definition changes (s : step) : bool :=
  match s with
  | DidMkdir _ _ | DidWriteFile _ _ _ | DidExecAsync _ _ | DidExec _ _
  | DidTrack _ | DidRm _ _ | DidChmod _ _ _ => true
  | _ => false
  end.

(** ** An environment the properties are tried on *)

Definition missing (p : string) : js_error :=
  {| message := "ENOENT: no such file or directory, access '" ++ p ++ "'";
     code := Some "ENOENT";
     stack := "Error: ENOENT: no such file or directory, access '" ++ p
              ++ "'" |}.

(** A file system that holds the file [/work/build/stats.json], with
    [/work] as the working directory and [/home/me] as the home
    directory; [path.resolve] joins its arguments with [/]; every command
    succeeds and says nothing. *)
Definition sample_world : world :=
  {| on_access := fun _ p =>
       if String.eqb p "/work/build/stats.json" || String.eqb p "/work/build"
       then None else Some (missing p);
     on_stat := fun _ p =>
       if String.eqb p "/work/build/stats.json" then inr IsFile
       else if String.eqb p "/work/build" then inr IsDirectory
       else inl (missing p);
     on_cwd := fun _ => inr "/work";
     on_homedir := fun _ => inr "/home/me";
     on_resolve := fun _ segments => String.concat "/" segments;
     on_stack := fun _ => "Error";
     on_readFile := fun _ p =>
       if String.eqb p "/work/build/stats.json" then inr "{}"
       else inl (missing p);
     on_mkdir := fun _ _ => None;
     on_writeFile := fun _ _ _ => None;
     on_require_resolve := fun _ request => inr ("/lib/" ++ request);
     on_execAsync := fun _ _ => inr ("", "");
     on_exec := fun _ _ => 1;
     on_rm := fun _ _ => None;
     on_existsSync := fun _ _ => false;
     on_chmod := fun _ _ _ => None |}.

(** The part of a path before its last [/]. *)
Fixpoint before_last_slash (p : string) : option string :=
  match p with
  | EmptyString => None
  | String c rest =>
      match before_last_slash rest with
      | Some dir => Some (String c dir)
      | None => if Ascii.eqb c "/" then Some EmptyString else None
      end
  end.

(** Functions of the library the properties are tried on: the one
    document [{}] is parsed, as an object without properties. *)
Definition sample_library : library :=
  {| JSON_parse := fun content =>
       if String.eqb content "{}" then inr (VObj [])
       else inl "Unexpected end of JSON input";
     JSON_stringify := fun _ => "{}";
     JSON_stringify_indented := fun _ => "{}";
     path_dirname := fun p =>
       match before_last_slash p with
       | Some dir => dir
       | None => "."
       end;
     path_join := String.concat "/";
     reading_of_null := fun name =>
       "Cannot read properties of null (reading '" ++ name ++ "')" |}.

Definition sample_args : AnalyzeWebpackBuildArgs :=
  {| statsFile := "build/stats.json";
     outputDir := None;
     port := None;
     openBrowser := None;
     generateReport := None;
     includeRawStats := None |}.

(** * Properties *)

(** ** Facts of binary64 arithmetic

    Proved from the specification of the primitive operations
    ([FloatAxioms]) on [spec_float]. *)

Module FloatFacts.

Local Open Scope Z_scope.

Lemma digits2_size : forall p, digits2_pos p = Pos.size p.
Proof. induction p; simpl; congruence. Qed.

Lemma digits2_lower : forall p, 2 ^ (Zpos (digits2_pos p) - 1) <= Zpos p.
Proof.
  intro p. rewrite digits2_size.
  pose proof (Pos.size_le p) as H.
  assert (Hz : 2 ^ Zpos (Pos.size p) <= 2 * Zpos p).
  { change (2 * Zpos p) with (Zpos p~0).
    rewrite <- Pos2Z.inj_pow. apply Pos2Z.pos_le_pos. exact H. }
  replace (Zpos (Pos.size p)) with (1 + (Zpos (Pos.size p) - 1)) in Hz by lia.
  rewrite Z.pow_add_r in Hz by lia. change (2 ^ 1) with 2 in Hz. lia.
Qed.

Lemma digits2_upper : forall p, Zpos p < 2 ^ Zpos (digits2_pos p).
Proof.
  intro p. rewrite digits2_size. rewrite <- Pos2Z.inj_pow.
  apply Pos2Z.pos_lt_pos. apply Pos.size_gt.
Qed.

Lemma shr_1_m : forall mrs, 0 <= shr_m mrs -> shr_m (shr_1 mrs) = shr_m mrs / 2.
Proof.
  intros [m r s] H. simpl in *.
  destruct m as [|p|p]; [reflexivity| |lia].
  destruct p; simpl.
  - rewrite Pos2Z.inj_xI. apply Z.div_unique with (r := 1); lia.
  - rewrite Pos2Z.inj_xO. apply Z.div_unique with (r := 0); lia.
  - reflexivity.
Qed.

Lemma pow2_xO : forall p, 2 ^ Zpos p~0 = 2 ^ Zpos p * 2 ^ Zpos p.
Proof.
  intro p. rewrite <- Z.pow_add_r by lia. f_equal. lia.
Qed.

Lemma pow2_xI : forall p, 2 ^ Zpos p~1 = 2 * (2 ^ Zpos p * 2 ^ Zpos p).
Proof.
  intro p. rewrite <- Z.pow_add_r by lia.
  replace (Zpos p~1) with (1 + (Zpos p + Zpos p)) by lia.
  rewrite Z.pow_add_r by lia. reflexivity.
Qed.

Lemma pow2_pos : forall p, 0 < 2 ^ Zpos p.
Proof. intro p. apply Z.pow_pos_nonneg; lia. Qed.

Lemma iter_shr_1_m : forall p mrs,
  0 <= shr_m mrs -> shr_m (iter_pos shr_1 p mrs) = shr_m mrs / 2 ^ Zpos p.
Proof.
  induction p; intros mrs H; simpl iter_pos.
  - assert (H1 : 0 <= shr_m (shr_1 mrs)).
    { rewrite shr_1_m by assumption. apply Z.div_pos; lia. }
    assert (H2 : 0 <= shr_m (iter_pos shr_1 p (shr_1 mrs))).
    { rewrite IHp by assumption. apply Z.div_pos; [assumption | apply pow2_pos]. }
    rewrite IHp by assumption. rewrite IHp by assumption.
    rewrite shr_1_m by assumption.
    pose proof (pow2_pos p).
    rewrite !Z.div_div by lia. rewrite pow2_xI. reflexivity.
  - assert (H2 : 0 <= shr_m (iter_pos shr_1 p mrs)).
    { rewrite IHp by assumption. apply Z.div_pos; [assumption | apply pow2_pos]. }
    rewrite IHp by assumption. rewrite IHp by assumption.
    pose proof (pow2_pos p).
    rewrite !Z.div_div by lia. rewrite pow2_xO. reflexivity.
  - rewrite shr_1_m by assumption. reflexivity.
Qed.

Lemma shr_record_of_loc_m : forall m l, shr_m (shr_record_of_loc m l) = m.
Proof. intros m [|[]]; reflexivity. Qed.

(** A positive significand at an exponent not below [emin] stays positive
    under the shift of [shr_fexp]. *)
Lemma shr_fexp_pos : forall m e l,
  0 < m -> emin <= e ->
  0 < shr_m (fst (shr_fexp prec emax m e l)) /\ emin <= snd (shr_fexp prec emax m e l).
Proof.
  intros m e l Hm He. unfold shr_fexp, shr.
  destruct m as [|p|p]; try lia.
  simpl Zdigits2.
  remember (fexp prec emax (Zpos (digits2_pos p) + e) - e) as n eqn:Hn.
  destruct n as [|q|q]; simpl fst; simpl snd.
  - rewrite shr_record_of_loc_m. lia.
  - rewrite iter_shr_1_m by (rewrite shr_record_of_loc_m; lia).
    rewrite shr_record_of_loc_m.
    unfold fexp in Hn. fold emin in Hn.
    assert (Hq : Zpos q = Zpos (digits2_pos p) - prec).
    { unfold SpecFloat.emin in *. lia. }
    split; [|lia].
    pose proof (digits2_lower p) as Hlow.
    assert (Hpow : 2 ^ (Zpos (digits2_pos p) - 1) = 2 ^ (prec - 1) * 2 ^ Zpos q).
    { rewrite <- Z.pow_add_r by (unfold prec; lia). f_equal. lia. }
    assert (0 < 2 ^ Zpos q) by (apply Z.pow_pos_nonneg; lia).
    assert (1 <= 2 ^ (prec - 1)) by (unfold prec; apply Z.pow_le_mono_r with (b := 0%Z) (a := 2); lia).
    apply Z.div_str_pos. split; [assumption|]. nia.
  - rewrite shr_record_of_loc_m. lia.
Qed.

Lemma round_nearest_even_pos : forall m l, 0 < m -> 0 < round_nearest_even m l.
Proof.
  intros m l H. unfold round_nearest_even.
  destruct l as [|[]]; try destruct (Z.even m); lia.
Qed.

Lemma binary_round_aux_pos : forall m e l,
  0 < m -> emin <= e -> sf_pos (binary_round_aux prec emax false m e l) = true.
Proof.
  intros m e l Hm He. unfold binary_round_aux.
  pose proof (shr_fexp_pos m e l Hm He) as [H1 H2].
  destruct (shr_fexp prec emax m e l) as [mrs1 e1]. simpl fst in H1. simpl snd in H2.
  pose proof (shr_fexp_pos _ e1 loc_Exact
                (round_nearest_even_pos _ (loc_of_shr_record mrs1) H1) H2) as [H3 _].
  destruct (shr_fexp prec emax _ e1 loc_Exact) as [mrs2 e2]. simpl fst in H3.
  destruct (shr_m mrs2); try lia.
  destruct (e2 <=? emax - prec); reflexivity.
Qed.

Lemma fexp_emin : forall z, emin <= fexp prec emax z.
Proof. intro z. unfold fexp. fold emin. lia. Qed.

Lemma binary_round_pos : forall p e,
  emin <= e -> sf_pos (binary_round prec emax false p e) = true.
Proof.
  intros p e He. unfold binary_round.
  destruct (shl_align p e (fexp prec emax (Zpos (digits2_pos p) + e))) as [mz ez] eqn:Hs.
  apply binary_round_aux_pos; [lia|].
  unfold shl_align in Hs.
  pose proof (fexp_emin (Zpos (digits2_pos p) + e)).
  destruct (fexp prec emax (Zpos (digits2_pos p) + e) - e);
    injection Hs as _ <-; first [lia | apply fexp_emin].
Qed.

Lemma binary_round_true_not_pos : forall p e,
  SFltb (S754_zero false) (binary_round prec emax true p e) = false.
Proof.
  intros p e. unfold binary_round.
  destruct (shl_align p e _) as [mz ez].
  unfold binary_round_aux.
  destruct (shr_fexp prec emax (Zpos mz) ez loc_Exact) as [mrs1 e1].
  destruct (shr_fexp prec emax _ e1 loc_Exact) as [mrs2 e2].
  destruct (shr_m mrs2); try reflexivity.
  destruct (e2 <=? emax - prec); reflexivity.
Qed.

Lemma sf_pos_gt_zero : forall r, sf_pos r = true -> SFltb (S754_zero false) r = true.
Proof. intros [[]|[]| |[] m e]; simpl; intro H; try discriminate; reflexivity. Qed.

Lemma sf_pos_ge_zero : forall r, sf_pos r = true -> SFleb (S754_zero false) r = true.
Proof. intros [[]|[]| |[] m e]; simpl; intro H; try discriminate; reflexivity. Qed.

Lemma iter_xO : forall d m, Zpos (Pos.iter xO m d) = Zpos m * 2 ^ Zpos d.
Proof.
  intros d m. induction d using Pos.peano_ind.
  - simpl. lia.
  - rewrite Pos.iter_succ. rewrite Pos2Z.inj_xO, IHd.
    rewrite Pos2Z.inj_succ. rewrite Z.pow_succ_r by lia. lia.
Qed.

Lemma shl_align_fst : forall m e ez,
  ez <= e -> Zpos (fst (shl_align m e ez)) = Zpos m * 2 ^ (e - ez).
Proof.
  intros m e ez H. unfold shl_align.
  destruct (ez - e) as [|d|d] eqn:Hd; simpl fst.
  - replace (e - ez) with 0 by lia. lia.
  - lia.
  - rewrite iter_xO. f_equal. f_equal. lia.
Qed.

(** What validity says of a finite number. *)
Lemma valid_finite : forall s m e,
  valid_binary (S754_finite s m e) = true ->
  emin <= e /\ Zpos (digits2_pos m) <= prec
  /\ (emin < e -> Zpos (digits2_pos m) = prec).
Proof.
  intros s m e H. simpl in H. unfold bounded, canonical_mantissa in H.
  apply andb_prop in H. destruct H as [H _].
  apply Z.eqb_eq in H. unfold fexp in H. fold emin in H.
  unfold SpecFloat.emin in *. lia.
Qed.

(** Of two valid positive numbers, the one with the larger exponent, or
    with the same exponent and the larger significand, has the larger
    significand once both are written at the smaller exponent. *)
Lemma aligned_lt : forall m1 e1 m2 e2,
  valid_binary (S754_finite false m1 e1) = true ->
  valid_binary (S754_finite false m2 e2) = true ->
  match e1 ?= e2 with
  | Lt => Lt
  | Gt => Gt
  | Eq => Pos.compare_cont Eq m1 m2
  end = Lt ->
  Zpos (fst (shl_align m1 e1 (Z.min e2 e1)))
  < Zpos (fst (shl_align m2 e2 (Z.min e2 e1))).
Proof.
  intros m1 e1 m2 e2 V1 V2 H.
  apply valid_finite in V1. apply valid_finite in V2.
  destruct V1 as (E1 & D1 & N1). destruct V2 as (E2 & D2 & N2).
  rewrite !shl_align_fst by lia.
  destruct (Z.compare_spec e1 e2) as [Heq|Hlt|Hgt]; try discriminate.
  - subst e2. change (Pos.compare_cont Eq m1 m2) with (m1 ?= m2)%positive in H.
    apply Pos.compare_lt_iff in H.
    replace (Z.min e1 e1) with e1 by lia. rewrite Z.sub_diag.
    rewrite Z.pow_0_r, !Z.mul_1_r. apply Pos2Z.pos_lt_pos. exact H.
  - replace (Z.min e2 e1) with e1 by lia. rewrite Z.sub_diag.
    rewrite Z.pow_0_r, Z.mul_1_r.
    pose proof (digits2_upper m1) as U1.
    pose proof (digits2_lower m2) as L2.
    rewrite (N2 ltac:(lia)) in L2.
    assert (Zpos m1 < 2 ^ prec).
    { eapply Z.lt_le_trans; [exact U1|]. apply Z.pow_le_mono_r; lia. }
    assert (2 <= 2 ^ (e2 - e1)).
    { change 2 with (2 ^ 1) at 1. apply Z.pow_le_mono_r; lia. }
    assert (2 ^ prec = 2 * 2 ^ (prec - 1)).
    { unfold prec. rewrite <- Z.pow_succ_r by lia. reflexivity. }
    nia.
Qed.

Lemma SFsub_lt_pos : forall X Y,
  valid_binary X = true -> valid_binary Y = true ->
  SFltb X Y = true -> sf_pos (SFsub prec emax Y X) = true.
Proof.
  intros X Y VX VY H. unfold SFltb in H.
  destruct X as [sx|sx| |sx mx ex], Y as [sy|sy| |sy my ey];
    simpl in H; try discriminate;
    try (destruct sx; try discriminate); try (destruct sy; try discriminate);
    try reflexivity.
  - (* both negative *)
    unfold SFsub, cond_Zopp, binary_normalize.
    pose proof (valid_finite _ _ _ VX) as (EX & _).
    pose proof (valid_finite _ _ _ VY) as (EY & _).
    assert (Hlt : Zpos (fst (shl_align my ey (Z.min ex ey)))
                  < Zpos (fst (shl_align mx ex (Z.min ex ey)))).
    { apply aligned_lt; try assumption.
      destruct (ex ?= ey) eqn:Hc; rewrite (Z.compare_antisym ex ey), Hc; simpl; simpl in H;
        try discriminate; try reflexivity.
      change (Pos.compare_cont Eq my mx) with (my ?= mx)%positive.
      change (Pos.compare_cont Eq mx my) with (mx ?= my)%positive in H.
      rewrite Pos.compare_antisym.
      destruct (mx ?= my)%positive; simpl in *; try discriminate; reflexivity. }
    replace (Z.min ey ex) with (Z.min ex ey) by lia.
    destruct (- Zpos (fst (shl_align my ey (Z.min ex ey)))
              - - Zpos (fst (shl_align mx ex (Z.min ex ey)))) eqn:Hd; try lia.
    apply binary_round_pos. lia.
  - (* negative below positive *)
    unfold SFsub, cond_Zopp, binary_normalize.
    pose proof (valid_finite _ _ _ VX) as (EX & _).
    pose proof (valid_finite _ _ _ VY) as (EY & _).
    destruct (Zpos (fst (shl_align my ey (Z.min ey ex)))
              - - Zpos (fst (shl_align mx ex (Z.min ey ex)))) eqn:Hd; try lia.
    apply binary_round_pos. lia.
  - (* both positive *)
    unfold SFsub, cond_Zopp, binary_normalize.
    pose proof (valid_finite _ _ _ VX) as (EX & _).
    pose proof (valid_finite _ _ _ VY) as (EY & _).
    assert (Hlt : Zpos (fst (shl_align mx ex (Z.min ey ex)))
                  < Zpos (fst (shl_align my ey (Z.min ey ex)))).
    { apply aligned_lt; try assumption.
      destruct (ex ?= ey); try discriminate; try reflexivity.
      destruct (Pos.compare_cont Eq mx my); try discriminate; reflexivity. }
    destruct (Zpos (fst (shl_align my ey (Z.min ey ex)))
              - Zpos (fst (shl_align mx ex (Z.min ey ex)))) eqn:Hd; try lia.
    apply binary_round_pos. lia.
Qed.


Lemma SFsub_pos_asym : forall X Y,
  SFltb (S754_zero false) (SFsub prec emax Y X) = true ->
  SFltb (S754_zero false) (SFsub prec emax X Y) = false.
Proof.
  intros X Y H.
  destruct X as [sx|sx| |sx mx ex], Y as [sy|sy| |sy my ey];
    try (destruct sx); try (destruct sy);
    try reflexivity; try discriminate.
  all: unfold SFsub in *; unfold binary_normalize in *.
  all: replace (Z.min ex ey) with (Z.min ey ex) by lia.
  all: set (a := cond_Zopp _ (Zpos (fst (shl_align my ey (Z.min ey ex))))) in *.
  all: set (b := cond_Zopp _ (Zpos (fst (shl_align mx ex (Z.min ey ex))))) in *.
  all: destruct (a - b) eqn:Hab; try discriminate;
       try (rewrite binary_round_true_not_pos in H; discriminate).
  all: destruct (b - a) eqn:Hba; try lia; try reflexivity.
  all: apply binary_round_true_not_pos.
Qed.

Lemma SFadd_nonneg : forall X Y,
  valid_binary X = true -> valid_binary Y = true ->
  SFleb (S754_zero false) X = true -> SFleb (S754_zero false) Y = true ->
  SFleb (S754_zero false) (SFadd prec emax X Y) = true.
Proof.
  intros X Y VX VY HX HY.
  destruct X as [sx|sx| |sx mx ex], Y as [sy|sy| |sy my ey];
    try (destruct sx); try (destruct sy);
    try reflexivity; try discriminate.
  unfold SFadd, cond_Zopp, binary_normalize.
  pose proof (valid_finite _ _ _ VX) as (EX & _).
  pose proof (valid_finite _ _ _ VY) as (EY & _).
  destruct (Zpos (fst (shl_align mx ex (Z.min ex ey)))
            + Zpos (fst (shl_align my ey (Z.min ex ey)))) eqn:Hd; try lia.
  apply sf_pos_ge_zero. apply binary_round_pos. lia.
Qed.

Local Open Scope float_scope.

Lemma zero_spec : Prim2SF 0 = S754_zero false.
Proof. reflexivity. Qed.

(** A difference is positive when the number taken away is the smaller. *)
Lemma sub_pos_of_lt : forall x y, (x <? y) = true -> (0 <? y - x) = true.
Proof.
  intros x y H. rewrite ltb_spec in *. rewrite sub_spec, zero_spec.
  apply sf_pos_gt_zero. apply SFsub_lt_pos; auto using Prim2SF_valid.
Qed.

(** Two differences in opposite directions are not both positive. *)
Lemma sub_pos_asym : forall x y, (0 <? y - x) = true -> (0 <? x - y) = false.
Proof.
  intros x y H. rewrite ltb_spec in *. rewrite sub_spec, zero_spec in *.
  apply SFsub_pos_asym. exact H.
Qed.

(** A sum of numbers that are not negative is not negative. *)
Lemma add_nonneg : forall x y,
  (0 <=? x) = true -> (0 <=? y) = true -> (0 <=? x + y) = true.
Proof.
  intros x y Hx Hy. rewrite leb_spec in *. rewrite add_spec, zero_spec in *.
  apply SFadd_nonneg; auto using Prim2SF_valid.
Qed.

End FloatFacts.

(** ** Sanity checks of the embedding *)

Example extname_samples :
  map Path.extname
    ["index.html"; "index.coffee.md"; "index."; "index"; ".index";
     ".index.md"; "a/b.c/d"; "a/b.js/"; ".."; "..."; "a.."; "x/..";
     "/a.b/"; ""; "//"; "a/.b"]
  = [".html"; ".md"; "."; ""; ""; ".md"; ""; ".js"; ""; "."; "."; "";
     ".b"; ""; ""; ""].
Proof. vm_compute. reflexivity. Qed.

Example getModuleType_samples :
  map getModuleType
    [""; "src/app/node_modules/lodash/index.js"; "src/components/Button.tsx";
     "node_modules"; "a/node_modules/"; "a/node_modules/@scope/pkg/x.js";
     "src/Logo.SVG"; "README"]
  = ["unknown"; "npm:lodash"; "typescript"; "npm:"; "npm:"; "npm:@scope";
     "image"; "other"].
Proof. vm_compute. reflexivity. Qed.

Example Number_toString_samples :
  map Num.toString
    [0.5; 179; 1024.5; 0x1p70; 0x1p-1074; 0x1.fffffffffffffp+1023;
     0x1.999999999999ap-4; 0x1.3333333333334p-2; -1.5; neg_zero; nan;
     infinity; 0x1.ad7f29abcaf48p-24; 0x1.b1ae4d6e2ef5p+69]%float
  = ["0.5"; "179"; "1024.5"; "1.1805916207174113e+21"; "5e-324";
     "1.7976931348623157e+308"; "0.1"; "0.30000000000000004"; "-1.5"; "0";
     "NaN"; "Infinity"; "1e-7"; "1e+21"].
Proof. vm_compute. reflexivity. Qed.

Example StringToNumber_samples :
  map Num.ofString
    [""; "  42 "; "1000"; "0.5"; "-1.5e3"; ".5"; "5."; "0x1F"; "0b101";
     "1e999"; "-Infinity"; "0.1"; "12e-1"]
  = [0; 42; 1000; 0.5; -1500; 0.5; 5; 31; 5; infinity; neg_infinity;
     0x1.999999999999ap-4; 1.2]%float
  /\ forallb (fun s => is_nan (Num.ofString s))
       ["abc"; "0x"; "."; "1e"; "1 2"; "+-1"; "1_0"; "0x1.5"; "Infinit"]
     = true
  /\ (Num.ofString "-0" =? 0)%float = true
  /\ get_sign (Num.ofString "-0") = true.
Proof. vm_compute. repeat split; reflexivity. Qed.

Example calculateChunkSize_samples :
  let stats :=
    VObj [("assets",
           VArr [VObj [("name", VStr "main.js"); ("size", VNum 100);
                       ("chunks", VArr [VStr "7"])];
                 VNull;
                 VObj [("name", VStr "vendor.js"); ("size", VNum 30)]])] in
  map (fun c => calculateChunkSize c stats)
    [VNull;
     VObj [("size", VNum 500);
           ("modules", VArr [VObj [("size", VNum 900)]])];
     VObj [("modules", VArr [VObj [("size", VNum 4)]; VNull;
                             VObj [("name", VStr "x")];
                             VObj [("size", VNum 6)]])];
     VObj [("id", VNum 7)];
     VObj [("id", VNum 1); ("names", VArr [VStr "vendor"])];
     VObj [("names", VArr [VStr "vendor"])];
     VObj [("id", VNum 7); ("names", VArr [VStr "js"])];
     VObj [("modules", VArr [VObj [("size", VStr "12")]])];
     VObj [("id", VObj [("toString", VNum 1)])]]
  = [Normal (VNum 0); Normal (VNum 500); Normal (VNum 10); Normal (VNum 100);
     Normal (VNum 30); Normal (VNum 0); Normal (VNum 130);
     Normal (VStr "012"); Throw].
Proof. vm_compute. reflexivity. Qed.

(** The scenario of the specification. *)
Definition scenario_stats : value :=
  VObj [("assets",
         VArr [VObj [("name", VStr "main.js"); ("size", VNum 1000)];
               VObj [("name", VStr "main.css"); ("size", VNum 200)]]);
        ("entrypoints",
         VObj [("main",
                VObj [("assets", VArr [VObj [("size", VNum 1000)]]);
                      ("chunks", VArr [VStr "0"])])]);
        ("chunks",
         VArr [VObj [("id", VStr "0"); ("size", VNum 1000);
                     ("modules", VArr [])]]);
        ("time", VNum 543)].

Example extractMetrics_scenario :
  extractMetrics scenario_stats
  = Normal (Report
      {| totalSize := VNum 1200;
         totalSizeByType := [("js", VNum 1000); ("css", VNum 200)];
         entrypoints :=
           [("main", {| ep_size := VNum 1000;
                        ep_chunks := VArr [VStr "0"] |})];
         largestModules := [];
         largestChunks :=
           [{| chunk_id := VStr "0"; chunk_name := VStr "unnamed chunk";
               chunk_size := VNum 1000; chunk_modules := 0 |}];
         moduleCount := 0; chunkCount := 1; assetCount := 2;
         buildTime := VNum 543;
         performance :=
           {| initialLoad := VNum 0.9765625; cacheEfficiency := 0;
              chunkFragmentation := 1 |} |}).
Proof. vm_compute. reflexivity. Qed.

Example extractMetrics_degenerate :
  map extractMetrics
    [VNull; VUndef;
     VObj [("assets", VArr [VObj [("name", VNum 5)]])];
     VObj [("modules", VArr [VObj [("size", VNum 1); ("name", VNum 5)]])];
     VObj [("chunks", VArr [VObj [("id", VObj [("toString", VNull)])]])]]
  = repeat (Normal (Failure "Failed to extract metrics")) 5.
Proof. vm_compute. reflexivity. Qed.

(** ** Callbacks that may throw *)

Lemma bind_Normal :
  forall {A B} (e : exc A) (k : A -> exc B) (b : B),
    bind e k = Normal b -> exists a, e = Normal a /\ k a = Normal b.
Proof.
  intros A B [a|] k b H; simpl in H; [eauto | discriminate].
Qed.

Ltac bind_inv H :=
  let a := fresh "x" in
  let Ha := fresh "E" in
  apply bind_Normal in H; destruct H as (a & Ha & H).

Lemma filterM_filter :
  forall {A} (p : A -> exc bool) (l l' : list A),
    filterM p l = Normal l' ->
    l' = List.filter
           (fun x => match p x with Normal b => b | Throw => false end) l.
Proof.
  induction l as [|x r IH]; intros l' H; simpl in H.
  - injection H as <-. reflexivity.
  - bind_inv H. bind_inv H. injection H as <-.
    simpl. rewrite E. rewrite (IH _ E0). reflexivity.
Qed.

Lemma filterM_total :
  forall {A} (p : A -> bool) (l : list A),
    filterM (fun x => ret (p x)) l = Normal (List.filter p l).
Proof.
  induction l as [|x r IH]; simpl; [reflexivity|].
  rewrite IH. simpl. reflexivity.
Qed.

Lemma mapM_length :
  forall {A B} (f : A -> exc B) (l : list A) (l' : list B),
    mapM f l = Normal l' -> List.length l' = List.length l.
Proof.
  induction l as [|x r IH]; intros l' H; simpl in H.
  - injection H as <-. reflexivity.
  - bind_inv H. bind_inv H. injection H as <-.
    simpl. f_equal. apply IH. assumption.
Qed.

Lemma mapM_map :
  forall {A B C} (f : A -> exc B) (g : B -> C) (k : A -> C),
    (forall a b, f a = Normal b -> g b = k a) ->
    forall (l : list A) (l' : list B),
      mapM f l = Normal l' -> List.map g l' = List.map k l.
Proof.
  intros A B C f g k Hfg.
  induction l as [|x r IH]; intros l' H; simpl in H.
  - injection H as <-. reflexivity.
  - bind_inv H. bind_inv H. injection H as <-.
    simpl. f_equal; [apply Hfg; assumption | apply IH; assumption].
Qed.

(** ** The order [sort] leaves *)

Section Sorting.

Variable compare : value -> value -> exc float.
Variable key : value -> float.

(** The comparator answers with a difference of keys, the second
    argument's minus the first's: larger keys go first. *)
Hypothesis compare_key :
  forall a b c, compare a b = Normal c -> c = (key b - key a)%float.

Lemma insert_length :
  forall x l l',
    Arr.insert compare x l = Normal l' ->
    List.length l' = S (List.length l).
Proof.
  intros x. induction l as [|y r IH]; intros l' H; simpl in H.
  - injection H as <-. reflexivity.
  - bind_inv H. destruct (0 <? x0)%float.
    + bind_inv H. injection H as <-. simpl. f_equal. apply IH. assumption.
    + injection H as <-. reflexivity.
Qed.

Lemma sorted_length :
  forall l l',
    Arr.sorted compare l = Normal l' -> List.length l' = List.length l.
Proof.
  induction l as [|x r IH]; intros l' H; simpl in H.
  - injection H as <-. reflexivity.
  - bind_inv H. apply insert_length in H. rewrite H.
    simpl. f_equal. apply IH. assumption.
Qed.

(** The head after an insertion is the new element or the old head. *)
Lemma insert_head :
  forall x l l',
    Arr.insert compare x l = Normal l' ->
    List.hd_error l' = Some x \/ List.hd_error l' = List.hd_error l.
Proof.
  intros x [|y r] l' H; simpl in H.
  - injection H as <-. left. reflexivity.
  - bind_inv H. destruct (0 <? x0)%float.
    + bind_inv H. injection H as <-. right. reflexivity.
    + injection H as <-. left. reflexivity.
Qed.

Lemma non_increasing_cons :
  forall a l,
    non_increasing (a :: l) = true <->
    (match l with [] => True | b :: _ => (a <? b)%float = false end)
    /\ non_increasing l = true.
Proof.
  intros a [|b r]; simpl.
  - tauto.
  - rewrite andb_true_iff, negb_true_iff. tauto.
Qed.

Lemma insert_non_increasing :
  forall x l l',
    Arr.insert compare x l = Normal l' ->
    non_increasing (List.map key l) = true ->
    non_increasing (List.map key l') = true.
Proof.
  intros x. induction l as [|y r IH]; intros l' H Hs; simpl in H.
  - injection H as <-. reflexivity.
  - bind_inv H. apply compare_key in E. subst x0.
    destruct (0 <? key y - key x)%float eqn:Hc.
    + bind_inv H. injection H as <-.
      change (List.map key (y :: r)) with (key y :: List.map key r) in Hs.
      apply non_increasing_cons in Hs. destruct Hs as [Hhd Htl].
      change (List.map key (y :: x0)) with (key y :: List.map key x0).
      apply non_increasing_cons. split; [|apply IH; assumption].
      destruct (insert_head _ _ _ E) as [Hx|Hr].
      * destruct x0 as [|z x0]; [exact I|]. simpl in Hx.
        injection Hx as ->. simpl.
        destruct (key y <? key x)%float eqn:Hlt; [|reflexivity].
        apply FloatFacts.sub_pos_of_lt in Hlt.
        apply FloatFacts.sub_pos_asym in Hc. congruence.
      * destruct x0 as [|z x0]; [exact I|].
        destruct r as [|z' r]; simpl in Hr; [discriminate|].
        injection Hr as ->. exact Hhd.
    + injection H as <-.
      change (List.map key (x :: y :: r))
        with (key x :: List.map key (y :: r)).
      apply non_increasing_cons. split; [|assumption]. simpl.
      destruct (key x <? key y)%float eqn:Hlt; [|reflexivity].
      apply FloatFacts.sub_pos_of_lt in Hlt. congruence.
Qed.

Lemma sorted_non_increasing :
  forall l l',
    Arr.sorted compare l = Normal l' ->
    non_increasing (List.map key l') = true.
Proof.
  induction l as [|x r IH]; intros l' H; simpl in H.
  - injection H as <-. reflexivity.
  - bind_inv H. eapply insert_non_increasing; eauto.
Qed.

End Sorting.

Lemma non_increasing_firstn :
  forall n l, non_increasing l = true -> non_increasing (firstn n l) = true.
Proof.
  induction n as [|n IH]; intros l H; [reflexivity|].
  destruct l as [|a l]; [reflexivity|].
  change (firstn (S n) (a :: l)) with (a :: firstn n l).
  apply non_increasing_cons in H. destruct H as [Hhd Htl].
  apply non_increasing_cons. split; [|apply IH; assumption].
  destruct n; [exact I|]. destruct l as [|b l]; [exact I|]. exact Hhd.
Qed.

(** ** The heap *)

Lemma get_get_opt :
  forall v k x, JS.get v k = Normal x -> x = JS.get_opt v k.
Proof.
  intros [] k x H; simpl in H; try discriminate;
    injection H as <-; reflexivity.
Qed.

Lemma set_nth_last :
  forall {A} (l : list A) (x y : A),
    Arr.set_nth (List.length l) y (l ++ [x])%list = (l ++ [y])%list.
Proof.
  induction l as [|a l IH]; intros x y; simpl; [reflexivity|].
  rewrite IH. reflexivity.
Qed.

Lemma read_push_last :
  forall l h, Arr.read (Fresh (List.length (fresh h))) (Arr.push l h) = l.
Proof.
  intros l h. simpl. apply nth_middle.
Qed.

Lemma write_push_last :
  forall l l' h,
    Arr.write (Fresh (List.length (fresh h))) l' (Arr.push l h)
    = Arr.push l' h.
Proof.
  intros l l' h. unfold Arr.write, Arr.push. simpl.
  rewrite set_nth_last. reflexivity.
Qed.

(** One step of a computation on the heap. *)

Lemma run_bind :
  forall {A B} (c : M A) (f : A -> M B) h,
    bindM c f h
    = match c h with
      | (h', Normal a) => f a h'
      | (h', Throw) => (h', Throw)
      end.
Proof. reflexivity. Qed.

Lemma run_stats_get :
  forall {B} k (f : value -> M B) h,
    bindM (stats_get k) f h
    = match JS.get (input h) k with
      | Normal v => f v h
      | Throw => (h, Throw)
      end.
Proof. intros. unfold bindM, stats_get. destruct (JS.get _ _); reflexivity. Qed.

Lemma run_stats_value :
  forall {B} (f : value -> M B) h,
    bindM stats_value f h = f (input h) h.
Proof. reflexivity. Qed.

Lemma run_lift :
  forall {A B} (e : exc A) (f : A -> M B) h,
    bindM (lift e) f h
    = match e with
      | Normal a => f a h
      | Throw => (h, Throw)
      end.
Proof. intros. unfold bindM, lift. destruct e; reflexivity. Qed.

Lemma run_filter :
  forall {B} p a (f : aref -> M B) h,
    bindM (Arr.filter p a) f h
    = match filterM p (Arr.read a h) with
      | Normal l => f (Fresh (List.length (fresh h))) (Arr.push l h)
      | Throw => (h, Throw)
      end.
Proof.
  intros. unfold bindM, Arr.filter, Arr.alloc.
  destruct (filterM _ _); reflexivity.
Qed.

Lemma run_length :
  forall {B} a (f : nat -> M B) h,
    bindM (Arr.length a) f h = f (List.length (Arr.read a h)) h.
Proof. reflexivity. Qed.

Lemma run_spread :
  forall {B} a (f : aref -> M B) h,
    bindM (Arr.spread a) f h
    = f (Fresh (List.length (fresh h))) (Arr.push (Arr.read a h) h).
Proof. reflexivity. Qed.

Lemma run_slice :
  forall {B} start stop a (f : aref -> M B) h,
    bindM (Arr.slice start stop a) f h
    = f (Fresh (List.length (fresh h)))
        (Arr.push (firstn (stop - start) (skipn start (Arr.read a h))) h).
Proof. reflexivity. Qed.

Lemma run_sort :
  forall {B} compare a (f : aref -> M B) h,
    bindM (Arr.sort compare a) f h
    = match Arr.sorted compare (Arr.read a h) with
      | Normal l => f a (Arr.write a l h)
      | Throw => (h, Throw)
      end.
Proof.
  intros. unfold bindM, Arr.sort. destruct (Arr.sorted _ _); reflexivity.
Qed.

Lemma run_map :
  forall {A B} (g : value -> exc A) a (f : list A -> M B) h,
    bindM (Arr.map g a) f h
    = match mapM g (Arr.read a h) with
      | Normal l => f l h
      | Throw => (h, Throw)
      end.
Proof.
  intros. unfold bindM, Arr.map. destruct (mapM _ _); reflexivity.
Qed.

(** The pipeline [[...a].filter(p).sort(compare).slice(0, n).map(g)] on an
    array of the document: what it returns, and that it leaves the
    document as it was. *)
Lemma run_pipeline :
  forall {A B} field p compare n (g : value -> exc A) (k : list A -> B) h,
    let c :=
      (copy <- Arr.spread (InDoc field) ;;
       filtered <- Arr.filter p copy ;;
       ordered <- Arr.sort compare filtered ;;
       top <- Arr.slice 0 n ordered ;;
       largest <- Arr.map g top ;;
       retM (k largest))%M in
    input (fst (c h)) = input h
    /\ snd (c h)
       = bind (filterM p (Arr.read (InDoc field) h)) (fun valid =>
           bind (Arr.sorted compare valid) (fun ordered =>
             bind (mapM g (firstn n ordered)) (fun largest =>
               ret (k largest)))).
Proof.
  intros A B field p compare n g k h c. subst c.
  rewrite run_spread, run_filter, read_push_last.
  destruct (filterM p (Arr.read (InDoc field) h)) as [valid|];
    [|split; reflexivity].
  cbn [bind]. rewrite run_sort, read_push_last.
  destruct (Arr.sorted compare valid) as [ordered|]; [|split; reflexivity].
  rewrite write_push_last, run_slice, read_push_last, run_map.
  rewrite read_push_last. rewrite Nat.sub_0_r. simpl skipn.
  cbn [bind].
  destruct (mapM g (firstn n ordered)); split; reflexivity.
Qed.

Lemma read_doc :
  forall h k v,
    JS.get (input h) k = Normal v ->
    Arr.read (InDoc k) h = Arr.elements v.
Proof.
  intros h k v H. apply get_get_opt in H. subst v. reflexivity.
Qed.

(** The modules pass: the document is left as it was, and the report gets
    what [modulesSummary] computes. *)
Lemma processModules_run :
  forall m h,
    input (fst (processModules m h)) = input h
    /\ snd (processModules m h) = modulesPass (input h) m.
Proof.
  intros m h. unfold processModules, modulesPass. rewrite run_stats_get.
  destruct (JS.get (input h) "modules") as [modules|] eqn:Hget;
    [|split; reflexivity].
  cbn [bind].
  destruct (JS.truthy modules && JS.isArray modules); [|split; reflexivity].
  rewrite run_filter, (read_doc _ _ _ Hget).
  unfold modulesSummary.
  destruct (filterM validModule (Arr.elements modules)) as [valid|] eqn:Hf;
    [|split; reflexivity].
  rewrite run_length, read_push_last.
  pose proof (run_pipeline "modules" validModule compareModules 20
                moduleEntry (with_modules m (List.length valid))
                (Arr.push valid h)) as [Hin Hout].
  cbv zeta in Hin, Hout.
  split; [exact Hin|].
  rewrite Hout.
  change (Arr.read (InDoc "modules") (Arr.push valid h))
    with (Arr.read (InDoc "modules") h).
  rewrite (read_doc _ _ _ Hget), Hf. cbn [bind].
  destruct (Arr.sorted compareModules valid) as [ordered|]; [|reflexivity].
  cbn [bind].
  destruct (mapM moduleEntry (firstn 20 ordered)); reflexivity.
Qed.

(** The chunks pass: the document is left as it was, and the report gets
    what [chunksSummary] computes. *)
Lemma processChunks_run :
  forall m h,
    input (fst (processChunks m h)) = input h
    /\ snd (processChunks m h) = chunksPass (input h) m.
Proof.
  intros m h. unfold processChunks, chunksPass. rewrite run_stats_get.
  destruct (JS.get (input h) "chunks") as [chunks|] eqn:Hget;
    [|split; reflexivity].
  cbn [bind].
  destruct (JS.truthy chunks && JS.isArray chunks); [|split; reflexivity].
  rewrite run_filter, (read_doc _ _ _ Hget).
  unfold chunksSummary, validChunk.
  rewrite filterM_total.
  set (valid := List.filter JS.truthy (Arr.elements chunks)).
  rewrite run_length, read_push_last, run_stats_value.
  change (input (Arr.push valid h)) with (input h).
  set (finish := fun largest : list chunk_info =>
         let m1 := with_chunks m (List.length valid) largest in
         if (0 <? List.length valid)%nat then
           with_perf m1
             {| initialLoad := initialLoad (performance m1);
                cacheEfficiency := cacheEfficiency (performance m1);
                chunkFragmentation :=
                  fragmentation (List.length valid) m1 |}
         else m1).
  pose proof (run_pipeline "chunks" validChunk (compareChunks (input h)) 10
                (chunkEntry (input h)) finish (Arr.push valid h))
    as [Hin Hout].
  cbv zeta in Hin, Hout.
  split; [exact Hin|].
  etransitivity; [exact Hout|].
  change (Arr.read (InDoc "chunks") (Arr.push valid h))
    with (Arr.read (InDoc "chunks") h).
  rewrite (read_doc _ _ _ Hget). unfold validChunk. rewrite filterM_total.
  fold valid. cbn [bind].
  destruct (Arr.sorted (compareChunks (input h)) valid) as [ordered|];
    [|reflexivity].
  cbn [bind].
  destruct (mapM (chunkEntry (input h)) (firstn 10 ordered)); reflexivity.
Qed.

(** The block of the [try] leaves the document as it was and returns the
    report of the document. *)
Lemma extractMetrics_try_run :
  forall h,
    input (fst (extractMetrics_try h)) = input h
    /\ snd (extractMetrics_try h)
       = bind (report_of (input h)) (fun m => ret (Report m)).
Proof.
  intro h. unfold extractMetrics_try, report_of.
  rewrite run_stats_value, run_lift.
  destruct (JS.get (input h) "time") as [time|]; [|split; reflexivity].
  cbn [bind]. rewrite run_lift.
  destruct (processAssets (input h) (initial_metrics time)) as [m1|];
    [|split; reflexivity].
  cbn [bind]. rewrite run_lift.
  destruct (processEntrypoints (input h) m1) as [m2|]; [|split; reflexivity].
  cbn [bind]. rewrite (run_bind (processModules m2)).
  destruct (processModules_run m2 h) as [Hin3 Hout3].
  destruct (processModules m2 h) as [h3 r3]. simpl in Hin3, Hout3.
  rewrite <- Hout3. destruct r3 as [m3|]; [|split; [exact Hin3|reflexivity]].
  cbn [bind]. rewrite (run_bind (processChunks m3)).
  destruct (processChunks_run m3 h3) as [Hin4 Hout4].
  destruct (processChunks m3 h3) as [h4 r4]. simpl in Hin4, Hout4.
  rewrite Hin3 in Hout4. rewrite <- Hout4.
  destruct r4 as [m4|]; [|split; [simpl; congruence|reflexivity]].
  cbn [bind]. rewrite run_lift.
  destruct (cacheEfficiencyPass m4); split;
    solve [simpl; congruence | reflexivity].
Qed.

(** [extractMetrics] returns the report of the document, or the degenerate
    report when building it throws. *)
Lemma extractMetrics_report :
  forall stats,
    extractMetrics stats
    = match report_of stats with
      | Normal m => Normal (Report m)
      | Throw => Normal (Failure "Failed to extract metrics")
      end.
Proof.
  intro stats. unfold extractMetrics, extractMetrics_run, try_catch.
  destruct (extractMetrics_try_run (initial_heap stats)) as [_ Hout].
  destruct (extractMetrics_try (initial_heap stats)) as [h r].
  simpl in Hout. subst r. simpl input.
  destruct (report_of stats); reflexivity.
Qed.

Lemma extractMetrics_Report :
  forall stats m,
    extractMetrics stats = Normal (Report m) -> report_of stats = Normal m.
Proof.
  intros stats m H. rewrite extractMetrics_report in H.
  destruct (report_of stats); congruence.
Qed.

(** ** What each pass changes *)

Lemma foldM_invariant :
  forall {A B} (f : B -> A -> exc B) (P : B -> Prop),
    (forall acc x acc', f acc x = Normal acc' -> P acc -> P acc') ->
    forall l acc r, foldM f acc l = Normal r -> P acc -> P r.
Proof.
  intros A B f P Hstep. induction l as [|x l IH]; intros acc r H HP.
  - simpl in H. injection H as <-. exact HP.
  - simpl in H. bind_inv H. eapply IH; eauto.
Qed.

Lemma add_primitive :
  forall a b v, JS.add a b = Normal v -> primitive v = true.
Proof.
  intros a b v H. unfold JS.add in H. bind_inv H. bind_inv H.
  injection H as <-. unfold JS.prim_add.
  destruct x; try reflexivity; destruct x0; reflexivity.
Qed.

Lemma same_summaries_refl : forall m, same_summaries m m.
Proof. intro m. repeat split. Qed.

Lemma same_summaries_trans :
  forall m1 m2 m3,
    same_summaries m1 m2 -> same_summaries m2 m3 -> same_summaries m1 m3.
Proof.
  unfold same_summaries. intros m1 m2 m3 H12 H23.
  decompose [and] H12. decompose [and] H23. repeat split; congruence.
Qed.

Lemma processAsset_frame :
  forall m asset m',
    processAsset m asset = Normal m' ->
    same_summaries m m'
    /\ entrypoints m' = entrypoints m
    /\ assetCount m' = assetCount m
    /\ (primitive (totalSize m) = true -> primitive (totalSize m') = true).
Proof.
  intros m asset m' H. unfold processAsset in H.
  destruct (negb (JS.truthy asset)).
  - injection H as <-. auto using same_summaries_refl.
  - bind_inv H. bind_inv H. bind_inv H. bind_inv H. bind_inv H.
    injection H as <-. simpl.
    repeat split. intros _. eapply add_primitive; eauto.
Qed.

Lemma processAssets_frame :
  forall stats m m',
    processAssets stats m = Normal m' ->
    same_summaries m m'
    /\ entrypoints m' = entrypoints m
    /\ (assetCount m = 0 ->
        assetCount m' = List.length (doc_array stats "assets"))
    /\ (primitive (totalSize m) = true -> primitive (totalSize m') = true).
Proof.
  intros stats m m' H. unfold processAssets in H. bind_inv H.
  pose proof (get_get_opt _ _ _ E) as Hx. unfold doc_array. rewrite <- Hx.
  destruct (JS.truthy x && JS.isArray x) eqn:Harr.
  - revert H.
    match goal with
    | |- foldM _ ?m1 _ = _ -> _ => set (start := m1)
    end.
    intro H.
    assert (Hgoal :
      same_summaries start m'
      /\ entrypoints m' = entrypoints start
      /\ assetCount m' = assetCount start
      /\ (primitive (totalSize start) = true
          -> primitive (totalSize m') = true)).
    { revert H. generalize start. clear.
      induction (Arr.elements x) as [|a l IH]; intros start H; simpl in H.
      - injection H as <-. auto using same_summaries_refl.
      - bind_inv H. apply processAsset_frame in E.
        apply IH in H. destruct E as (S1 & E1 & A1 & P1).
        destruct H as (S2 & E2 & A2 & P2).
        repeat split; try congruence; eauto using same_summaries_trans.
        all: destruct S1 as (? & ? & ? & ? & ? & ?);
             destruct S2 as (? & ? & ? & ? & ? & ?); congruence. }
    destruct Hgoal as (S & E1 & A & P). subst start. simpl in *.
    repeat split; try tauto; try apply S; try congruence.
  - injection H as <-. repeat split; try tauto.
    intro Hz. rewrite Hz.
    destruct x; simpl in *; try reflexivity. discriminate.
Qed.

Lemma add_entry_Forall :
  forall {A} (P : string * A -> Prop) k v l,
    P (k, v) -> Forall P l -> Forall P (add_entry k v l).
Proof.
  intros A P k v. induction l as [|[k' v'] l IH]; intros Hv Hl; simpl.
  - constructor; [assumption | constructor].
  - inversion Hl; subst.
    destruct (enumerated_behind k k'); constructor; auto.
Qed.

Lemma replace_entry_Forall :
  forall {A} (P : string * A -> Prop) k v l,
    P (k, v) -> Forall P l -> Forall P (replace_entry k v l).
Proof.
  intros A P k v. induction l as [|[k' v'] l IH]; intros Hv Hl; simpl.
  - constructor.
  - inversion Hl; subst. destruct (String.eqb k k'); constructor; auto.
Qed.

Lemma set_entry_Forall :
  forall {A} (P : string * A -> Prop) k v l,
    P (k, v) -> Forall P l -> Forall P (set_entry k v l).
Proof.
  intros A P k v l Hv Hl. unfold set_entry.
  destruct (find_entry k l);
    auto using add_entry_Forall, replace_entry_Forall.
Qed.

Lemma assign_Forall :
  forall {A} (P : string * A -> Prop) k v l,
    P (k, v) -> Forall P l -> Forall P (assign k v l).
Proof.
  intros. unfold assign. destruct (String.eqb k "__proto__");
    auto using set_entry_Forall.
Qed.

Lemma find_entry_Forall :
  forall {A} (P : string * A -> Prop) k l v,
    Forall P l -> find_entry k l = Some v -> exists k', P (k', v).
Proof.
  intros A P k. induction l as [|[k' v'] l IH]; intros v Hl H; simpl in H.
  - discriminate.
  - inversion Hl; subst. destruct (String.eqb k k').
    + injection H as <-. eauto.
    + eauto.
Qed.

Lemma processEntrypoint_frame :
  forall m entry m',
    processEntrypoint m entry = Normal m' ->
    same_summaries m m'
    /\ totalSize m' = totalSize m
    /\ assetCount m' = assetCount m
    /\ (sizes_primitive m -> sizes_primitive m').
Proof.
  intros m [name entrypoint] m' H. unfold processEntrypoint in H.
  destruct (negb (JS.truthy entrypoint)).
  - injection H as <-. auto using same_summaries_refl.
  - bind_inv H. bind_inv H. bind_inv H.
    assert (Hprim : primitive x1 = true).
    { destruct (JS.truthy x0 && JS.isArray x0).
      - eapply (foldM_invariant _ (fun v => primitive v = true));
          [ | exact E1 | reflexivity].
        intros acc a acc' Hstep Hacc. cbv beta in Hstep.
        destruct (JS.typeof_object a).
        + bind_inv Hstep. eapply add_primitive; eauto.
        + injection Hstep as <-. assumption.
      - injection E1 as <-. reflexivity. }
    assert (Hsizes :
      sizes_primitive m ->
      Forall (fun e => primitive (ep_size (snd e)) = true)
        (assign name {| ep_size := x1; ep_chunks := JS.or x (VArr []) |}
                (entrypoints m))).
    { intro Hs. apply assign_Forall; assumption. }
    destruct (String.eqb name "main" || String.eqb name "index").
    + bind_inv H. injection H as <-. simpl. repeat split. exact Hsizes.
    + injection H as <-. simpl. repeat split. exact Hsizes.
Qed.

Lemma processEntrypoints_frame :
  forall stats m m',
    processEntrypoints stats m = Normal m' ->
    same_summaries m m'
    /\ totalSize m' = totalSize m
    /\ assetCount m' = assetCount m
    /\ (sizes_primitive m -> sizes_primitive m').
Proof.
  intros stats m m' H. unfold processEntrypoints in H. bind_inv H.
  destruct (JS.truthy x).
  - revert H. generalize m. clear.
    induction (JS.entries x) as [|a l IH]; intros m H; simpl in H.
    + injection H as <-. auto using same_summaries_refl.
    + bind_inv H. apply processEntrypoint_frame in E. apply IH in H.
      destruct E as (S1 & T1 & A1 & P1). destruct H as (S2 & T2 & A2 & P2).
      repeat split; try congruence; eauto using same_summaries_trans.
      all: destruct S1 as (? & ? & ? & ? & ? & ?);
           destruct S2 as (? & ? & ? & ? & ? & ?); congruence.
  - injection H as <-. auto using same_summaries_refl.
Qed.

Lemma isArray_truthy :
  forall v, JS.truthy v && JS.isArray v = JS.isArray v.
Proof. intros []; try reflexivity; simpl; apply andb_false_r. Qed.

(** The modules pass either is skipped or stores a summary. *)
Lemma modulesPass_cases :
  forall stats m m',
    modulesPass stats m = Normal m' ->
    (JS.isArray (JS.get_opt stats "modules") = false /\ m' = m)
    \/ (JS.isArray (JS.get_opt stats "modules") = true
        /\ exists cl,
             modulesSummary (doc_array stats "modules") = Normal cl
             /\ m' = with_modules m (fst cl) (snd cl)).
Proof.
  intros stats m m' H. unfold modulesPass in H. bind_inv H.
  apply get_get_opt in E. subst x. rewrite isArray_truthy in H.
  destruct (JS.isArray (JS.get_opt stats "modules")).
  - right. split; [reflexivity|]. bind_inv H. injection H as <-. eauto.
  - left. injection H as <-. auto.
Qed.

(** The chunks pass either is skipped or stores a summary and the
    fragmentation. *)
Lemma chunksPass_cases :
  forall stats m m',
    chunksPass stats m = Normal m' ->
    (JS.isArray (JS.get_opt stats "chunks") = false /\ m' = m)
    \/ (JS.isArray (JS.get_opt stats "chunks") = true
        /\ exists cl,
             chunksSummary stats (doc_array stats "chunks") = Normal cl
             /\ totalSize m' = totalSize m
             /\ entrypoints m' = entrypoints m
             /\ largestModules m' = largestModules m
             /\ moduleCount m' = moduleCount m
             /\ assetCount m' = assetCount m
             /\ cacheEfficiency (performance m')
                = cacheEfficiency (performance m)
             /\ chunkCount m' = fst cl
             /\ largestChunks m' = snd cl).
Proof.
  intros stats m m' H. unfold chunksPass in H. bind_inv H.
  apply get_get_opt in E. subst x. rewrite isArray_truthy in H.
  destruct (JS.isArray (JS.get_opt stats "chunks")).
  - right. split; [reflexivity|]. bind_inv H. injection H as <-.
    exists x. split; [assumption|].
    destruct (0 <? fst x)%nat; repeat split.
  - left. injection H as <-. auto.
Qed.

Lemma doc_array_not_array :
  forall stats k,
    JS.isArray (JS.get_opt stats k) = false -> doc_array stats k = [].
Proof.
  intros stats k H. unfold doc_array.
  destruct (JS.get_opt stats k); try reflexivity. discriminate.
Qed.

(** ** The summaries of the modules and of the chunks *)

Lemma get_truthy :
  forall v k, non_null v = true -> JS.get v k = Normal (JS.get_opt v k).
Proof. intros [] k H; try discriminate; reflexivity. Qed.

Lemma truthy_non_null : forall v, JS.truthy v = true -> non_null v = true.
Proof. intros [] H; try discriminate; reflexivity. Qed.

Lemma validModule_spec :
  forall module,
    match validModule module with Normal b => b | Throw => false end
    = non_null module && size_positive module.
Proof.
  intro module. unfold validModule.
  destruct (JS.truthy module) eqn:Ht; simpl negb; cbv iota.
  - rewrite (get_truthy _ _ (truthy_non_null _ Ht)). cbn [bind].
    rewrite (truthy_non_null _ Ht). reflexivity.
  - destruct module; try discriminate; try reflexivity.
    all: unfold size_positive; simpl; symmetry; apply andb_false_r || reflexivity.
Qed.

Lemma sub_num_of :
  forall a b c, JS.sub a b = Normal c -> c = (num_of a - num_of b)%float.
Proof.
  intros a b c H. unfold JS.sub in H. bind_inv H. bind_inv H.
  injection H as <-. unfold num_of. rewrite E, E0. reflexivity.
Qed.

Lemma compareModules_key :
  forall a b c,
    compareModules a b = Normal c ->
    c = (module_key b - module_key a)%float.
Proof.
  intros a b c H. unfold compareModules in H. bind_inv H. bind_inv H.
  apply get_get_opt in E, E0. subst. apply sub_num_of in H. exact H.
Qed.

Lemma moduleEntry_key :
  forall module e,
    moduleEntry module = Normal e -> num_of (mod_size e) = module_key module.
Proof.
  intros module e H. unfold moduleEntry in H.
  bind_inv H. bind_inv H. bind_inv H. injection H as <-.
  apply get_get_opt in E0. subst. reflexivity.
Qed.

Lemma compareChunks_key :
  forall stats a b c,
    compareChunks stats a b = Normal c ->
    c = (chunk_key stats b - chunk_key stats a)%float.
Proof.
  intros stats a b c H. unfold compareChunks in H. bind_inv H. bind_inv H.
  apply sub_num_of in H. unfold chunk_key. rewrite E, E0. exact H.
Qed.

Lemma chunkEntry_key :
  forall stats chunk e,
    chunkEntry stats chunk = Normal e ->
    num_of (chunk_size e) = chunk_key stats chunk.
Proof.
  intros stats chunk e H. unfold chunkEntry in H.
  do 6 bind_inv H. injection H as <-.
  unfold chunk_key. rewrite E3. reflexivity.
Qed.

Lemma modulesSummary_spec :
  forall modules cl,
    modulesSummary modules = Normal cl ->
    fst cl
    = List.length
        (List.filter (fun module => non_null module && size_positive module)
           modules)
    /\ List.length (snd cl) = Nat.min 20 (fst cl)
    /\ non_increasing
         (List.map (fun e => num_of (mod_size e)) (snd cl)) = true.
Proof.
  intros modules cl H. unfold modulesSummary in H.
  bind_inv H. bind_inv H. bind_inv H. injection H as <-. simpl.
  apply filterM_filter in E.
  rewrite (filter_ext _ _ validModule_spec) in E. subst x.
  split; [reflexivity|]. split.
  - rewrite (mapM_length _ _ _ E1), length_firstn.
    rewrite (sorted_length _ _ _ E0). reflexivity.
  - rewrite (mapM_map _ _ module_key moduleEntry_key _ _ E1).
    rewrite <- firstn_map. apply non_increasing_firstn.
    eapply sorted_non_increasing; [exact compareModules_key | exact E0].
Qed.

Lemma chunksSummary_spec :
  forall stats chunks cl,
    chunksSummary stats chunks = Normal cl ->
    fst cl = List.length (List.filter JS.truthy chunks)
    /\ List.length (snd cl) = Nat.min 10 (fst cl)
    /\ non_increasing
         (List.map (fun e => num_of (chunk_size e)) (snd cl)) = true.
Proof.
  intros stats chunks cl H. unfold chunksSummary in H.
  bind_inv H. bind_inv H. injection H as <-. simpl.
  split; [reflexivity|]. split.
  - rewrite (mapM_length _ _ _ E0), length_firstn.
    rewrite (sorted_length _ _ _ E). reflexivity.
  - rewrite (mapM_map _ _ (chunk_key stats) (chunkEntry_key stats) _ _ E0).
    rewrite <- firstn_map. apply non_increasing_firstn.
    eapply sorted_non_increasing; [exact (compareChunks_key stats) | exact E].
Qed.

(** The passes a successful extraction goes through. *)
Lemma report_of_passes :
  forall stats m,
    report_of stats = Normal m ->
    exists time m1 m2 m3 m4,
      JS.get stats "time" = Normal time
      /\ processAssets stats (initial_metrics time) = Normal m1
      /\ processEntrypoints stats m1 = Normal m2
      /\ modulesPass stats m2 = Normal m3
      /\ chunksPass stats m3 = Normal m4
      /\ cacheEfficiencyPass m4 = Normal m.
Proof.
  intros stats m H. unfold report_of in H.
  do 5 bind_inv H. exists x, x0, x1, x2, x3. auto 10.
Qed.

Lemma cacheEfficiencyPass_frame :
  forall m m',
    cacheEfficiencyPass m = Normal m' ->
    totalSize m' = totalSize m
    /\ entrypoints m' = entrypoints m
    /\ largestModules m' = largestModules m
    /\ largestChunks m' = largestChunks m
    /\ moduleCount m' = moduleCount m
    /\ chunkCount m' = chunkCount m
    /\ assetCount m' = assetCount m.
Proof.
  intros m m' H. unfold cacheEfficiencyPass in H. bind_inv H.
  destruct (x && (1 <? chunkCount m)%nat).
  - bind_inv H. bind_inv H. injection H as <-. repeat split.
  - injection H as <-. repeat split.
Qed.

(** The counts and the two lists of a report, from the document. *)
Lemma report_of_summaries :
  forall stats m,
    report_of stats = Normal m ->
    moduleCount m = List.length (valid_modules stats)
    /\ chunkCount m
       = List.length (List.filter JS.truthy (doc_array stats "chunks"))
    /\ assetCount m = List.length (doc_array stats "assets")
    /\ List.length (largestModules m) = Nat.min 20 (moduleCount m)
    /\ List.length (largestChunks m) = Nat.min 10 (chunkCount m)
    /\ non_increasing
         (List.map (fun e => num_of (mod_size e)) (largestModules m)) = true
    /\ non_increasing
         (List.map (fun e => num_of (chunk_size e)) (largestChunks m)) = true.
Proof.
  intros stats m H.
  destruct (report_of_passes _ _ H)
    as (time & m1 & m2 & m3 & m4 & Ht & H1 & H2 & H3 & H4 & H5).
  apply processAssets_frame in H1.
  destruct H1 as ((LM1 & LC1 & MC1 & CC1 & _) & _ & AC1 & _).
  apply processEntrypoints_frame in H2.
  destruct H2 as ((LM2 & LC2 & MC2 & CC2 & _) & _ & AC2 & _).
  apply cacheEfficiencyPass_frame in H5.
  destruct H5 as (_ & _ & LM5 & LC5 & MC5 & CC5 & AC5).
  simpl in LM1, LC1, MC1, CC1, AC1. specialize (AC1 eq_refl).
  rewrite LM5, LC5, MC5, CC5, AC5. clear LM5 LC5 MC5 CC5 AC5 H m.
  assert (Hmod :
    moduleCount m3 = List.length (valid_modules stats)
    /\ List.length (largestModules m3) = Nat.min 20 (moduleCount m3)
    /\ non_increasing
         (List.map (fun e => num_of (mod_size e)) (largestModules m3)) = true
    /\ largestChunks m3 = [] /\ chunkCount m3 = 0
    /\ assetCount m3 = List.length (doc_array stats "assets")).
  { destruct (modulesPass_cases _ _ _ H3) as [[Hno ->]|[Hyes (cl & Hs & ->)]].
    - unfold valid_modules. rewrite (doc_array_not_array _ _ Hno).
      rewrite MC2, MC1, LM2, LM1. simpl. repeat split; try congruence.
    - apply modulesSummary_spec in Hs. destruct Hs as (Hc & Hl & Hn).
      unfold with_modules, valid_modules.
      cbn [moduleCount largestModules largestChunks chunkCount assetCount].
      repeat split; congruence. }
  destruct Hmod as (MC3 & LL3 & NI3 & LC3 & CC3 & AC3).
  destruct (chunksPass_cases _ _ _ H4)
    as [[Hno ->]|[Hyes (cl & Hs & _ & _ & LM4 & MC4 & AC4 & _ & CC4 & LC4)]].
  - rewrite (doc_array_not_array _ _ Hno), LC3, CC3. simpl.
    repeat split; assumption.
  - apply chunksSummary_spec in Hs. destruct Hs as (Hc & Hl & Hn).
    rewrite LM4, MC4, AC4, CC4, LC4. repeat split; congruence.
Qed.

(** * The claims *)

(** ** The Metrics Extraction Engine *)

(** C1.  [extractMetrics] returns for every value, be it [null], a
    primitive or a malformed document: it never throws, and what it
    returns is a Metrics Report or the degenerate report
    [{error: "Failed to extract metrics"}]. *)
Theorem extractMetrics_never_throws :
  forall stats : value,
    exists r : result,
      extractMetrics stats = Normal r
      /\ (r = Failure "Failed to extract metrics"
          \/ exists m : metrics, r = Report m).
Proof.
  intro stats. rewrite extractMetrics_report.
  destruct (report_of stats) as [m|]; eauto.
Qed.

(** C10.  A call of [extractMetrics] leaves the stats document as it was,
    whether it returns a report or the degenerate report: the only
    operation that writes to an array, [sort], is applied to arrays the
    function has created. *)
Theorem extractMetrics_leaves_the_document :
  forall stats : value, stats_after stats = stats.
Proof.
  intro stats. unfold stats_after, extractMetrics_run, try_catch.
  destruct (extractMetrics_try_run (initial_heap stats)) as [Hin _].
  destruct (extractMetrics_try (initial_heap stats)) as [h [r|]];
    simpl in Hin; simpl; exact Hin.
Qed.

(** The heap does record a sort: applied to the array of the document
    itself, without the copy, it reorders the document. *)
Example sort_in_place_reorders_the_document :
  let stats := cache_scenario_stats in
  let after :=
    input (fst (Arr.sort (compareChunks stats) (InDoc "chunks")
                  (initial_heap stats))) in
  List.map (fun chunk => JS.get_opt chunk "size") (doc_array stats "chunks")
  = [VNum 400; VNum 600]
  /\ List.map (fun chunk => JS.get_opt chunk "size")
       (doc_array after "chunks")
     = [VNum 600; VNum 400].
Proof. vm_compute. split; reflexivity. Qed.

(** C7 as stated fails: a null asset is counted by [assetCount], and a
    chunk entry that is not null but falsy is not counted by
    [chunkCount]. *)
Lemma counts_of_non_null_entries_counterexample :
  exists m : metrics,
    extractMetrics falsy_entries_stats = Normal (Report m)
    /\ assetCount m = 2
    /\ List.length (List.filter non_null
                      (doc_array falsy_entries_stats "assets")) = 1
    /\ chunkCount m = 1
    /\ List.length (List.filter non_null
                      (doc_array falsy_entries_stats "chunks")) = 2.
Proof.
  eexists. split; [vm_compute; reflexivity|].
  repeat split.
Qed.

(** C7, amended.  In every report, [moduleCount] is the number of modules
    that are not null and have a size above 0, [chunkCount] is the number
    of chunk entries that are truthy (not [null], and not [false], [0] or
    the empty string), and [assetCount] is the length of the assets
    sequence, null entries included. *)
Theorem counts_of_the_report :
  forall (stats : value) (m : metrics),
    extractMetrics stats = Normal (Report m) ->
    moduleCount m = List.length (valid_modules stats)
    /\ chunkCount m
       = List.length (List.filter JS.truthy (doc_array stats "chunks"))
    /\ assetCount m = List.length (doc_array stats "assets").
Proof.
  intros stats m H. apply extractMetrics_Report in H.
  apply report_of_summaries in H. tauto.
Qed.

Lemma counts_of_the_report_witness :
  exists m : metrics,
    extractMetrics sample_stats = Normal (Report m)
    /\ (moduleCount m, chunkCount m, assetCount m) = (3, 3, 2)
    /\ moduleCount m = List.length (valid_modules sample_stats)
    /\ chunkCount m
       = List.length
           (List.filter JS.truthy (doc_array sample_stats "chunks"))
    /\ assetCount m = List.length (doc_array sample_stats "assets").
Proof.
  eexists. split; [vm_compute; reflexivity|].
  split; [reflexivity|].
  apply (counts_of_the_report sample_stats). vm_compute. reflexivity.
Defined.

(** C6 as stated fails: a chunk entry that is not null but falsy does not
    reach [largestChunks]. *)
Lemma largest_chunks_length_counterexample :
  exists m : metrics,
    extractMetrics falsy_entries_stats = Normal (Report m)
    /\ List.length (largestChunks m) = 1
    /\ Nat.min 10
         (List.length (List.filter non_null
                         (doc_array falsy_entries_stats "chunks"))) = 2.
Proof.
  eexists. split; [vm_compute; reflexivity|].
  split; reflexivity.
Qed.

(** *** Cache efficiency *)

Lemma ToPrimitive_primitive :
  forall v, primitive v = true -> JS.ToPrimitive v = Normal v.
Proof. intros [] H; try discriminate; reflexivity. Qed.

Lemma gt_primitive :
  forall a b,
    primitive a = true -> primitive b = true ->
    JS.gt a b = Normal (JS.prim_gt a b).
Proof.
  intros a b Ha Hb. unfold JS.gt.
  rewrite (ToPrimitive_primitive _ Ha), (ToPrimitive_primitive _ Hb).
  reflexivity.
Qed.

Lemma ToNumber_primitive :
  forall v, primitive v = true -> JS.ToNumber v = Normal (JS.prim_number v).
Proof.
  intros v H. unfold JS.ToNumber. rewrite (ToPrimitive_primitive _ H).
  reflexivity.
Qed.

Lemma sub_primitive :
  forall a b,
    primitive a = true -> primitive b = true ->
    JS.sub a b = Normal (JS.prim_number a - JS.prim_number b)%float.
Proof.
  intros a b Ha Hb. unfold JS.sub.
  rewrite (ToNumber_primitive _ Ha), (ToNumber_primitive _ Hb). reflexivity.
Qed.

Lemma div_primitive :
  forall a b,
    primitive a = true -> primitive b = true ->
    JS.div a b = Normal (JS.prim_number a / JS.prim_number b)%float.
Proof.
  intros a b Ha Hb. unfold JS.div.
  rewrite (ToNumber_primitive _ Ha), (ToNumber_primitive _ Hb). reflexivity.
Qed.

(** [main.size || index.size || 0] is the main bundle size. *)
Lemma mainBundleSize_or :
  forall m,
    JS.or (entrypoint_size "main" m)
          (JS.or (entrypoint_size "index" m) (VNum 0))
    = mainBundleSize m.
Proof.
  intro m. unfold mainBundleSize, counted_size, entrypoint_size, JS.or.
  destruct (find_entry "main" (entrypoints m)) as [e|];
    destruct (find_entry "index" (entrypoints m)) as [e'|];
    try destruct (JS.truthy (ep_size e));
    try destruct (JS.truthy (ep_size e')); reflexivity.
Qed.

Lemma mainBundleSize_primitive :
  forall m, sizes_primitive m -> primitive (mainBundleSize m) = true.
Proof.
  intros m Hs. unfold mainBundleSize, counted_size.
  destruct (find_entry "main" (entrypoints m)) as [e|] eqn:Hm;
    destruct (find_entry "index" (entrypoints m)) as [e'|] eqn:Hi;
    try destruct (JS.truthy (ep_size e));
    try destruct (JS.truthy (ep_size e')); try reflexivity.
  all: try (destruct (find_entry_Forall _ _ _ _ Hs Hm) as [k Hk]; exact Hk).
  all: destruct (find_entry_Forall _ _ _ _ Hs Hi) as [k Hk]; exact Hk.
Qed.

Lemma cacheEfficiencyPass_spec :
  forall m4 m,
    primitive (totalSize m4) = true ->
    sizes_primitive m4 ->
    cacheEfficiency (performance m4) = 0%float ->
    cacheEfficiencyPass m4 = Normal m ->
    cacheEfficiency (performance m)
    = cacheEfficiency_formula m (mainBundleSize m).
Proof.
  intros m4 m HT HS HC H. unfold cacheEfficiencyPass in H.
  rewrite (gt_primitive _ (VNum 0) HT eq_refl) in H. cbn [bind] in H.
  unfold cacheEfficiency_formula.
  destruct (JS.prim_gt (totalSize m4) (VNum 0) && (1 <? chunkCount m4)%nat)
    eqn:Hcond.
  - rewrite mainBundleSize_or in H.
    rewrite (sub_primitive _ _ HT (mainBundleSize_primitive _ HS)) in H.
    cbn [bind] in H.
    rewrite (div_primitive (VNum _) _ (eq_refl true) HT) in H.
    cbn [bind] in H.
    injection H as <-.
    unfold with_perf, mainBundleSize, counted_size.
    cbn [totalSize chunkCount entrypoints performance cacheEfficiency].
    rewrite Hcond. reflexivity.
  - injection H as <-. rewrite Hcond. exact HC.
Qed.

(** C5 as stated fails: with an entrypoint [main] of size 0 the size of
    [index] is taken, whereas the claim takes the size of [main] as soon
    as there is such an entrypoint. *)
Lemma cacheEfficiency_counterexample :
  exists m : metrics,
    extractMetrics main_of_size_zero_stats = Normal (Report m)
    /\ option_map ep_size (find_entry "main" (entrypoints m))
       = Some (VNum 0)
    /\ cacheEfficiency (performance m) = 60%float
    /\ cacheEfficiency_formula m (mainBundleSize_as_specified m)
       = 100%float
    /\ cacheEfficiency (performance m)
       <> cacheEfficiency_formula m (mainBundleSize_as_specified m).
Proof.
  eexists. split; [vm_compute; reflexivity|].
  split; [reflexivity|]. split; [reflexivity|].
  split; [vm_compute; reflexivity|].
  intro H.
  apply (f_equal (fun x => PrimFloat.eqb x 60%float)) in H.
  vm_compute in H. discriminate.
Qed.

(** C5, amended.  In every report, when [totalSize > 0] and
    [chunkCount > 1], [performance.cacheEfficiency] is
    [min(((totalSize - mainBundleSize) / totalSize) * 100, 100)], where
    [mainBundleSize] is the size of the entrypoint [main] if there is one
    and its size is not 0, or else the size of [index] on the same
    condition, or else 0; in all other cases it is 0. *)
Theorem cacheEfficiency_of_the_report :
  forall (stats : value) (m : metrics),
    extractMetrics stats = Normal (Report m) ->
    cacheEfficiency (performance m)
    = cacheEfficiency_formula m (mainBundleSize m).
Proof.
  intros stats m H. apply extractMetrics_Report in H.
  destruct (report_of_passes _ _ H)
    as (time & m1 & m2 & m3 & m4 & Ht & H1 & H2 & H3 & H4 & H5).
  apply processAssets_frame in H1.
  destruct H1 as ((_ & _ & _ & _ & CE1 & _) & EP1 & _ & TS1).
  apply processEntrypoints_frame in H2.
  destruct H2 as ((_ & _ & _ & _ & CE2 & _) & TS2 & _ & SP2).
  assert (H3' : totalSize m3 = totalSize m2
                /\ entrypoints m3 = entrypoints m2
                /\ performance m3 = performance m2).
  { destruct (modulesPass_cases _ _ _ H3) as [[_ ->]|[_ (cl & _ & ->)]];
      repeat split. }
  destruct H3' as (TS3 & EP3 & PF3).
  assert (H4' : totalSize m4 = totalSize m3
                /\ entrypoints m4 = entrypoints m3
                /\ cacheEfficiency (performance m4)
                   = cacheEfficiency (performance m3)).
  { destruct (chunksPass_cases _ _ _ H4)
      as [[_ ->]|[_ (cl & _ & TS & EP & _ & _ & _ & CE & _)]];
      repeat split; assumption. }
  destruct H4' as (TS4 & EP4 & CE4).
  apply (cacheEfficiencyPass_spec m4); try assumption.
  - rewrite TS4, TS3, TS2. apply TS1. reflexivity.
  - unfold sizes_primitive. rewrite EP4, EP3. apply SP2.
    unfold sizes_primitive. rewrite EP1. constructor.
  - rewrite CE4, PF3, CE2, CE1. reflexivity.
Qed.

(** Total size 1000, two chunks, [main] of size 400: 60. *)
Lemma cacheEfficiency_of_the_report_witness :
  exists m : metrics,
    extractMetrics cache_scenario_stats = Normal (Report m)
    /\ (totalSize m, chunkCount m, mainBundleSize m)
       = (VNum 1000, 2, VNum 400)
    /\ cacheEfficiency (performance m) = 60%float
    /\ cacheEfficiency (performance m)
       = cacheEfficiency_formula m (mainBundleSize m).
Proof.
  eexists. split; [vm_compute; reflexivity|].
  split; [reflexivity|]. split; [reflexivity|].
  apply (cacheEfficiency_of_the_report cache_scenario_stats).
  vm_compute. reflexivity.
Defined.

(** *** A [modules] property that holds no sequence *)

Lemma sorted_ext :
  forall (c c' : value -> value -> exc float),
    (forall a b, c a b = c' a b) ->
    forall l, Arr.sorted c l = Arr.sorted c' l.
Proof.
  intros c c' Hc.
  assert (Hins : forall x l, Arr.insert c x l = Arr.insert c' x l).
  { intros x. induction l as [|y r IH]; simpl; [reflexivity|].
    rewrite Hc, IH. reflexivity. }
  induction l as [|x r IH]; simpl; [reflexivity|].
  rewrite IH. destruct (Arr.sorted c' r); simpl; [apply Hins | reflexivity].
Qed.

Lemma mapM_ext :
  forall {A B} (f g : A -> exc B),
    (forall a, f a = g a) -> forall l, mapM f l = mapM g l.
Proof.
  intros A B f g H. induction l as [|x r IH]; simpl; [reflexivity|].
  rewrite H, IH. reflexivity.
Qed.

(** Of the document, [calculateChunkSize] reads the assets only. *)
Lemma calculateChunkSize_assets :
  forall stats stats' chunk,
    JS.get stats "assets" = JS.get stats' "assets" ->
    calculateChunkSize chunk stats = calculateChunkSize chunk stats'.
Proof.
  intros stats stats' chunk H. unfold calculateChunkSize.
  destruct (negb (JS.truthy chunk)); [reflexivity|].
  destruct (JS.get chunk "size") as [size|]; [|reflexivity]. cbn [bind].
  destruct (JS.typeof_number size); [reflexivity|].
  destruct (JS.get chunk "modules") as [modules|]; [|reflexivity].
  cbn [bind]. rewrite H. reflexivity.
Qed.

Lemma chunksPass_assets :
  forall stats stats' m,
    JS.get stats "chunks" = JS.get stats' "chunks" ->
    JS.get stats "assets" = JS.get stats' "assets" ->
    chunksPass stats m = chunksPass stats' m.
Proof.
  intros stats stats' m Hc Ha. unfold chunksPass. rewrite Hc.
  destruct (JS.get stats' "chunks") as [chunks|]; [|reflexivity].
  cbn [bind]. destruct (JS.truthy chunks && JS.isArray chunks);
    [|reflexivity].
  unfold chunksSummary.
  rewrite (sorted_ext (compareChunks stats) (compareChunks stats')).
  - destruct (Arr.sorted _ _) as [ordered|]; [|reflexivity]. cbn [bind].
    rewrite (mapM_ext (chunkEntry stats) (chunkEntry stats')); [reflexivity|].
    intro c. unfold chunkEntry.
    rewrite (calculateChunkSize_assets _ _ c Ha). reflexivity.
  - intros a b. unfold compareChunks.
    rewrite (calculateChunkSize_assets _ _ a Ha).
    rewrite (calculateChunkSize_assets _ _ b Ha). reflexivity.
Qed.

Lemma lookup_without :
  forall k0 k props,
    JS.lookup k
      (List.filter (fun kv => negb (String.eqb k0 (fst kv))) props)
    = if String.eqb k0 k then None else JS.lookup k props.
Proof.
  intros k0 k. induction props as [|[k' v] r IH]; simpl.
  - destruct (String.eqb k0 k); reflexivity.
  - destruct (String.eqb k0 k') eqn:H0; simpl.
    + rewrite IH. destruct (String.eqb k0 k) eqn:Hk; [reflexivity|].
      apply String.eqb_eq in H0. subst k'.
      rewrite String.eqb_sym, Hk. reflexivity.
    + destruct (String.eqb k k') eqn:Hk'.
      * apply String.eqb_eq in Hk'. subst k'. rewrite H0. reflexivity.
      * exact IH.
Qed.

Lemma get_without_other :
  forall k0 k stats,
    String.eqb k0 k = false ->
    JS.get (without_prop k0 stats) k = JS.get stats k.
Proof.
  intros k0 k [] H; try reflexivity.
  simpl. unfold JS.own. rewrite lookup_without, H. reflexivity.
Qed.

Lemma get_opt_without_same :
  forall k stats, JS.get_opt (without_prop k stats) k = JS.get_opt stats k
                  \/ JS.get_opt (without_prop k stats) k = VUndef.
Proof.
  intros k []; try (left; reflexivity).
  right. simpl. unfold JS.own. rewrite lookup_without, String.eqb_refl.
  reflexivity.
Qed.

Lemma modulesPass_skipped :
  forall stats m time,
    JS.get stats "time" = Normal time ->
    JS.isArray (JS.get_opt stats "modules") = false ->
    modulesPass stats m = Normal m.
Proof.
  intros stats m time Ht Hm. unfold modulesPass.
  assert (Hnn : non_null stats = true)
    by (destruct stats; try discriminate; reflexivity).
  rewrite (get_truthy _ _ Hnn). cbn [bind].
  rewrite isArray_truthy, Hm. reflexivity.
Qed.

Lemma processAssets_ext :
  forall stats stats' m,
    JS.get stats "assets" = JS.get stats' "assets" ->
    processAssets stats m = processAssets stats' m.
Proof. intros stats stats' m H. unfold processAssets. rewrite H. reflexivity. Qed.

Lemma processEntrypoints_ext :
  forall stats stats' m,
    JS.get stats "entrypoints" = JS.get stats' "entrypoints" ->
    processEntrypoints stats m = processEntrypoints stats' m.
Proof.
  intros stats stats' m H. unfold processEntrypoints. rewrite H. reflexivity.
Qed.

(** The report of a document whose [modules] holds no sequence is the
    report of the document without that property. *)
Lemma report_of_without_modules :
  forall stats,
    JS.isArray (JS.get_opt stats "modules") = false ->
    report_of (without_prop "modules" stats) = report_of stats.
Proof.
  intros stats Hm. unfold report_of.
  rewrite (get_without_other "modules" "time") by reflexivity.
  destruct (JS.get stats "time") as [time|] eqn:Ht; [|reflexivity].
  cbn [bind].
  assert (Ha : JS.get (without_prop "modules" stats) "assets"
               = JS.get stats "assets")
    by (apply get_without_other; reflexivity).
  assert (He : JS.get (without_prop "modules" stats) "entrypoints"
               = JS.get stats "entrypoints")
    by (apply get_without_other; reflexivity).
  assert (Hc : JS.get (without_prop "modules" stats) "chunks"
               = JS.get stats "chunks")
    by (apply get_without_other; reflexivity).
  assert (Ht' : JS.get (without_prop "modules" stats) "time" = Normal time)
    by (rewrite get_without_other; [assumption | reflexivity]).
  rewrite (processAssets_ext _ _ _ Ha).
  destruct (processAssets stats (initial_metrics time)) as [m1|];
    [|reflexivity].
  cbn [bind]. rewrite (processEntrypoints_ext _ _ _ He).
  destruct (processEntrypoints stats m1) as [m2|]; [|reflexivity].
  cbn [bind].
  rewrite (modulesPass_skipped _ _ _ Ht Hm).
  rewrite (modulesPass_skipped _ _ _ Ht').
  - cbn [bind]. rewrite (chunksPass_assets _ _ m2 Hc Ha). reflexivity.
  - destruct (get_opt_without_same "modules" stats) as [-> | ->];
      [assumption | reflexivity].
Qed.

(** C2 as stated fails: a document whose [modules] is a number gets a
    normal report, not the degenerate one. *)
Lemma modules_not_a_sequence_counterexample :
  let stats := VObj [("modules", VNum 5)] in
  JS.isArray (JS.get_opt stats "modules") = false
  /\ extractMetrics stats = Normal (Report (initial_metrics VUndef))
  /\ extractMetrics stats <> Normal (Failure "Failed to extract metrics").
Proof.
  split; [reflexivity|]. split; [vm_compute; reflexivity|].
  vm_compute. discriminate.
Qed.

(** C2, amended.  For every document whose [modules] property is not a
    sequence, [extractMetrics] does not throw and skips the modules pass:
    it returns what it returns for the document without that property,
    and whenever that is a report, [moduleCount] is 0 and [largestModules]
    is empty. *)
Theorem modules_not_a_sequence :
  forall stats : value,
    JS.isArray (JS.get_opt stats "modules") = false ->
    extractMetrics stats = extractMetrics (without_prop "modules" stats)
    /\ forall m : metrics,
         extractMetrics stats = Normal (Report m) ->
         moduleCount m = 0 /\ largestModules m = [].
Proof.
  intros stats Hm. split.
  - rewrite !extractMetrics_report.
    rewrite (report_of_without_modules _ Hm). reflexivity.
  - intros m H. apply extractMetrics_Report in H.
    apply report_of_summaries in H.
    destruct H as (MC & _ & _ & LM & _).
    unfold valid_modules in MC.
    rewrite (doc_array_not_array _ _ Hm) in MC. simpl in MC.
    rewrite MC in LM. split; [assumption|].
    apply length_zero_iff_nil. exact LM.
Qed.

Lemma modules_not_a_sequence_witness :
  let stats :=
    VObj [("modules", VNum 5);
          ("assets", VArr [VObj [("name", VStr "a.js"); ("size", VNum 7)]])] in
  JS.isArray (JS.get_opt stats "modules") = false
  /\ without_prop "modules" stats
     = VObj [("assets",
              VArr [VObj [("name", VStr "a.js"); ("size", VNum 7)]])]
  /\ (extractMetrics stats = extractMetrics (without_prop "modules" stats)
      /\ forall m : metrics,
           extractMetrics stats = Normal (Report m) ->
           moduleCount m = 0 /\ largestModules m = []).
Proof.
  split; [reflexivity|]. split; [reflexivity|].
  apply (modules_not_a_sequence
           (VObj [("modules", VNum 5);
                  ("assets",
                   VArr [VObj [("name", VStr "a.js"); ("size", VNum 7)]])])).
  reflexivity.
Defined.

(** ** The Chunk Size Resolver *)

(** C3.  A chunk whose [size] is a number resolves to that number, whatever
    its [modules] and whatever the assets of the document. *)
Theorem calculateChunkSize_explicit_size :
  forall (chunk stats : value) (n : float),
    JS.get chunk "size" = Normal (VNum n) ->
    calculateChunkSize chunk stats = Normal (VNum n).
Proof.
  intros chunk stats n Hsize.
  unfold calculateChunkSize.
  destruct chunk; simpl in Hsize; try discriminate.
  simpl. unfold ret in Hsize. injection Hsize as ->. reflexivity.
Qed.

(** Explicit size 500 against modules that sum to 900: 500 wins. *)
Lemma calculateChunkSize_explicit_size_witness :
  let chunk :=
    VObj [("id", VNum 3); ("size", VNum 500);
          ("modules", VArr [VObj [("size", VNum 400)];
                            VObj [("size", VNum 500)]])] in
  let stats :=
    VObj [("assets", VArr [VObj [("name", VStr "3.js"); ("size", VNum 77);
                                 ("chunks", VArr [VStr "3"])]])] in
  JS.get chunk "size" = Normal (VNum 500)
  /\ calculateChunkSize chunk stats = Normal (VNum 500).
Proof.
  split; [reflexivity |].
  apply (calculateChunkSize_explicit_size _ _ 500%float). reflexivity.
Defined.

Lemma foldM_total :
  forall {A B} (f : B -> A -> exc B) (P : B -> Prop) (Q : A -> Prop),
    (forall acc x, P acc -> Q x -> exists acc', f acc x = Normal acc' /\ P acc') ->
    forall l acc,
      Forall Q l -> P acc -> exists r, foldM f acc l = Normal r /\ P r.
Proof.
  intros A B f P Q Hstep. induction l as [|x l IH]; intros acc HQ HP.
  - exists acc. split; [reflexivity | assumption].
  - inversion HQ; subst. simpl.
    destruct (Hstep acc x HP H1) as (acc' & -> & HP'). cbn [bind].
    apply IH; assumption.
Qed.

Lemma nonneg_zero : nonneg_number (VNum 0).
Proof. exists 0%float. split; reflexivity. Qed.

Lemma size_ok_or :
  forall v, size_ok v = true -> nonneg_number (JS.or v (VNum 0)).
Proof.
  intros [] H; try discriminate; try apply nonneg_zero.
  unfold JS.or. destruct (JS.truthy (VNum n)); [|apply nonneg_zero].
  exists n. split; [reflexivity | exact H].
Qed.

Lemma add_nonneg_numbers :
  forall a b,
    nonneg_number a -> nonneg_number b ->
    exists r, JS.add a b = Normal r /\ nonneg_number r.
Proof.
  intros a b (x & -> & Hx) (y & -> & Hy).
  exists (VNum (x + y)). split; [reflexivity|].
  exists (x + y)%float. split; [reflexivity|].
  apply FloatFacts.add_nonneg; assumption.
Qed.

Lemma ToString_primitive :
  forall v, primitive v = true -> JS.ToString v = Normal (JS.prim_string v).
Proof. intros [] H; try discriminate; reflexivity. Qed.

(** What an asset of the data model adds to the size of a chunk. *)
Lemma asset_step_total :
  forall (chunkId chunkName total asset : value),
    primitive chunkId = true -> primitive chunkName = true ->
    nonneg_number total -> asset_ok asset = true ->
    exists total',
      (if negb (JS.truthy asset) then ret total
       else
         asset_chunks <- JS.get asset "chunks" ;;
         byId <-
           (if JS.truthy chunkId && JS.truthy asset_chunks
            then JS.includes asset_chunks chunkId
            else ret false) ;;
         isChunkAsset <-
           (if byId then ret true
            else
              asset_name <- JS.get asset "name" ;;
              if JS.truthy chunkName && JS.truthy asset_name
              then JS.includes asset_name chunkName
              else ret false) ;;
         asset_size <- JS.get asset "size" ;;
         JS.add total
           (if isChunkAsset then JS.or asset_size (VNum 0) else VNum 0))
      = Normal total'
      /\ nonneg_number total'.
Proof.
  intros chunkId chunkName total asset Hid Hname Htotal Hok.
  unfold asset_ok in Hok.
  destruct (JS.truthy asset) eqn:Ht; simpl negb; cbv iota.
  2: { exists total. split; [reflexivity | assumption]. }
  simpl in Hok. apply andb_prop in Hok. destruct Hok as [Hok Hn].
  apply andb_prop in Hok. destruct Hok as [Hs Hc].
  pose proof (truthy_non_null _ Ht) as Hnn.
  rewrite (get_truthy _ _ Hnn). cbn [bind].
  assert (HbyId : exists b,
            (if JS.truthy chunkId && JS.truthy (JS.get_opt asset "chunks")
             then JS.includes (JS.get_opt asset "chunks") chunkId
             else ret false) = Normal b).
  { destruct (JS.get_opt asset "chunks"); try discriminate;
      simpl; rewrite ?andb_false_r; try (exists false; reflexivity).
    destruct (JS.truthy chunkId); simpl; eauto. }
  destruct HbyId as (byId & ->). cbn [bind].
  assert (Hassoc : exists b,
            (if byId then ret true
             else
               asset_name <- JS.get asset "name" ;;
               if JS.truthy chunkName && JS.truthy asset_name
               then JS.includes asset_name chunkName
               else ret false) = Normal b).
  { destruct byId; [exists true; reflexivity|].
    rewrite (get_truthy _ _ Hnn). cbn [bind].
    destruct (JS.get_opt asset "name"); try discriminate;
      simpl; rewrite ?andb_false_r; try (exists false; reflexivity).
    destruct (JS.truthy chunkName && negb (s =? "")%string); [|eauto].
    rewrite (ToString_primitive _ Hname). simpl. eauto. }
  destruct Hassoc as (isChunkAsset & ->). cbn [bind].
  rewrite (get_truthy _ _ Hnn). cbn [bind].
  apply add_nonneg_numbers; [assumption|].
  destruct isChunkAsset; [apply size_ok_or; assumption | apply nonneg_zero].
Qed.

(** C8 as stated fails: a negative [size] is returned as it is; and a
    module size that is a string makes the sum a string, not a number. *)
Lemma calculateChunkSize_negative_counterexample :
  calculateChunkSize (VObj [("id", VNum 0); ("size", VNum (-5))]) (VObj [])
  = Normal (VNum (-5))
  /\ (0 <=? -5)%float = false
  /\ calculateChunkSize
       (VObj [("id", VNum 0);
              ("modules", VArr [VObj [("size", VStr "12")]])]) (VObj [])
     = Normal (VStr "012").
Proof. repeat split; reflexivity. Qed.

(** C8, amended.  For every chunk entry and stats document that follow
    the data model with sizes that are not negative (every [size] absent,
    [null] or a number not below 0), the Chunk Size Resolver returns a
    number greater than or equal to 0. *)
Theorem calculateChunkSize_not_negative :
  forall chunk stats : value,
    chunk_ok chunk = true -> stats_ok stats = true ->
    exists n : float,
      calculateChunkSize chunk stats = Normal (VNum n)
      /\ (0 <=? n)%float = true.
Proof.
  intros chunk stats Hchunk Hstats.
  assert (Hgoal : exists r, calculateChunkSize chunk stats = Normal r
                            /\ nonneg_number r).
  { unfold calculateChunkSize.
    destruct (JS.truthy chunk) eqn:Ht; simpl negb; cbv iota.
    2: { exists (VNum 0). split; [reflexivity | apply nonneg_zero]. }
    unfold chunk_ok in Hchunk.
    apply andb_prop in Hchunk. destruct Hchunk as [Hchunk Hname].
    apply andb_prop in Hchunk. destruct Hchunk as [Hchunk Hid].
    apply andb_prop in Hchunk. destruct Hchunk as [Hsize Hmods].
    unfold stats_ok in Hstats.
    apply andb_prop in Hstats. destruct Hstats as [Hnn Hassets].
    rewrite !(get_truthy _ _ (truthy_non_null _ Ht)). cbn [bind].
    destruct (JS.typeof_number (JS.get_opt chunk "size")) eqn:Hnum.
    { destruct (JS.get_opt chunk "size") as [| | |n| | |]; try discriminate.
      exists (VNum n). split; [reflexivity|].
      exists n. split; [reflexivity | exact Hsize]. }
    destruct (JS.get_opt chunk "modules") as [| | | | |ms|] eqn:Hm.
    6: { apply foldM_total
           with (P := nonneg_number)
                (Q := fun module => size_ok (JS.get_opt module "size") = true).
         - intros acc module Hacc Hq.
           apply add_nonneg_numbers; [assumption | apply size_ok_or; assumption].
         - apply Forall_forall. intros x Hx.
           exact (proj1 (forallb_forall _ _) Hmods x Hx).
         - apply nonneg_zero. }
    all: rewrite (get_truthy _ _ Hnn); cbn [bind].
    all: unfold doc_array in Hassets.
    all: destruct (JS.get_opt stats "assets") as [| | | | |assets|];
      try (exists (VNum 0); split; [reflexivity | apply nonneg_zero]).
    all: destruct (negb (JS.is_undefined (JS.get_opt chunk "id"))
                   || negb (JS.is_undefined (JS.get_opt chunk "name")));
      try (exists (VNum 0); split; [reflexivity | apply nonneg_zero]).
    all: assert (Hcid : exists chunkId,
                   JS.toString_opt (JS.get_opt chunk "id") = Normal chunkId
                   /\ primitive chunkId = true)
           by (destruct (JS.get_opt chunk "id"); try discriminate;
               simpl; eauto).
    all: destruct Hcid as (chunkId & -> & Hcid); cbn [bind].
    all: apply foldM_total with (P := nonneg_number)
                                (Q := fun asset => asset_ok asset = true).
    all: try apply nonneg_zero.
    all: try (apply Forall_forall; intros x Hx;
              exact (proj1 (forallb_forall _ _) Hassets x Hx)).
    all: intros acc asset Hacc Hq;
         apply asset_step_total; assumption. }
  destruct Hgoal as (r & Hr & n & -> & Hn). eauto.
Qed.

Lemma calculateChunkSize_not_negative_witness :
  let chunk := VObj [("id", VNum 2); ("name", VStr "vendor")] in
  chunk_ok chunk = true /\ stats_ok sample_stats = true
  /\ calculateChunkSize chunk sample_stats = Normal (VNum 300)
  /\ exists n : float,
       calculateChunkSize chunk sample_stats = Normal (VNum n)
       /\ (0 <=? n)%float = true.
Proof.
  split; [reflexivity|]. split; [reflexivity|]. split; [reflexivity|].
  apply (calculateChunkSize_not_negative
           (VObj [("id", VNum 2); ("name", VStr "vendor")]) sample_stats);
    reflexivity.
Defined.

(** C9.  A chunk with no numeric [size], no [modules] array and neither
    [id] nor [name] resolves to 0, whatever its [names] and whatever the
    assets of the document: the assets are consulted only when [id] or
    [name] is present. *)
Theorem calculateChunkSize_needs_id_or_name :
  forall chunk stats : value,
    JS.typeof_number (JS.get_opt chunk "size") = false ->
    JS.isArray (JS.get_opt chunk "modules") = false ->
    JS.get_opt chunk "id" = VUndef ->
    JS.get_opt chunk "name" = VUndef ->
    non_null stats = true ->
    calculateChunkSize chunk stats = Normal (VNum 0).
Proof.
  intros chunk stats Hsize Hmods Hid Hname Hstats.
  unfold calculateChunkSize.
  destruct (JS.truthy chunk) eqn:Ht; simpl negb; cbv iota; [|reflexivity].
  rewrite !(get_truthy _ _ (truthy_non_null _ Ht)). cbn [bind].
  rewrite Hsize, Hid, Hname, (get_truthy _ _ Hstats). cbn [bind].
  destruct (JS.get_opt chunk "modules"); try discriminate;
    destruct (JS.get_opt stats "assets"); reflexivity.
Qed.

(** A chunk known by its [names] only, beside an asset whose name
    contains the first of them. *)
Lemma calculateChunkSize_needs_id_or_name_witness :
  let chunk := VObj [("names", VArr [VStr "main"])] in
  let stats :=
    VObj [("assets",
           VArr [VObj [("name", VStr "main.js"); ("size", VNum 100)]])] in
  JS.first (JS.get_opt chunk "names") = VStr "main"
  /\ calculateChunkSize (VObj [("id", VNum 0); ("names", VArr [VStr "main"])])
       stats = Normal (VNum 100)
  /\ calculateChunkSize chunk stats = Normal (VNum 0).
Proof.
  split; [reflexivity|]. split; [reflexivity|].
  apply (calculateChunkSize_needs_id_or_name
           (VObj [("names", VArr [VStr "main"])])); reflexivity.
Defined.

(** ** The Module Classifier *)

Lemma index_of_empty :
  forall t, t <> "" -> index 0 t "" = None.
Proof. intros [|c t] H; [congruence | reflexivity]. Qed.

(** C4.  A path that contains [node_modules] is labelled ["npm:"]
    followed by the text between the marker (and the character after it)
    and the next [/]; the three paths of the specification get the labels
    it gives.  The label ["npm"] is never returned: where no package name
    follows the marker the label is ["npm:"]. *)
Theorem getModuleType_node_modules :
  (forall path : string,
     Str.includes path "node_modules" = true ->
     exists i : nat,
       index 0 "node_modules" path = Some i
       /\ getModuleType path
          = "npm:" ++ Str.split_head "/" (Str.drop (i + 13) path))
  /\ getModuleType "" = "unknown"
  /\ getModuleType "src/app/node_modules/lodash/index.js" = "npm:lodash"
  /\ getModuleType "src/components/Button.tsx" = "typescript"
  /\ getModuleType "node_modules" = "npm:"
  /\ getModuleType "src/node_modules/" = "npm:"
  /\ forall path : string, getModuleType path <> "npm".
Proof.
  assert (Hmarker : forall path,
            Str.includes path "node_modules" = true ->
            exists i : nat,
              index 0 "node_modules" path = Some i
              /\ getModuleType path
                 = "npm:" ++ Str.split_head "/" (Str.drop (i + 13) path)).
  { intros path H. unfold getModuleType. rewrite H.
    unfold Str.includes in H. unfold Str.indexOf.
    destruct (index 0 "node_modules" path) as [i|] eqn:Hi; [|discriminate].
    exists i. split; [reflexivity|].
    destruct (String.eqb path "") eqn:He.
    { apply String.eqb_eq in He. subst path. discriminate. }
    replace (negb (Z.of_nat i =? -1)%Z) with true
      by (symmetry; apply negb_true_iff; apply Z.eqb_neq; lia).
    unfold Str.slice_from.
    replace (Z.to_nat (Z.of_nat i + Z.of_nat (String.length "node_modules/")))
      with (i + 13)%nat by (simpl String.length; lia).
    reflexivity. }
  split; [exact Hmarker|].
  do 5 (split; [reflexivity|]).
  intros path H.
  destruct (Str.includes path "node_modules") eqn:Hinc.
  - destruct (Hmarker path Hinc) as (i & _ & Heq).
    rewrite Heq in H. discriminate.
  - unfold getModuleType in H. rewrite Hinc in H.
    destruct (String.eqb path ""); [discriminate|].
    repeat match type of H with
           | (if ?c then _ else _) = _ => destruct c; try discriminate
           end.
Qed.

(** * Further properties of the metrics extraction *)

(** ** The fields each pass leaves alone *)

Lemma processAssets_keeps :
  forall stats m m',
    processAssets stats m = Normal m' ->
    buildTime m' = buildTime m /\ performance m' = performance m.
Proof.
  intros stats m m' H. unfold processAssets in H. bind_inv H.
  destruct (JS.truthy x && JS.isArray x).
  - eapply (foldM_invariant _
              (fun r => buildTime r = buildTime m
                        /\ performance r = performance m));
      [ | exact H | split; reflexivity].
    clear. intros acc asset acc' Hstep [Hb Hp]. unfold processAsset in Hstep.
    destruct (negb (JS.truthy asset)).
    + injection Hstep as <-. auto.
    + do 5 bind_inv Hstep. injection Hstep as <-. auto.
  - injection H as <-. auto.
Qed.

Lemma processEntrypoints_keeps :
  forall stats m m',
    processEntrypoints stats m = Normal m' ->
    buildTime m' = buildTime m
    /\ totalSizeByType m' = totalSizeByType m.
Proof.
  intros stats m m' H. unfold processEntrypoints in H. bind_inv H.
  destruct (JS.truthy x).
  - eapply (foldM_invariant _
              (fun r => buildTime r = buildTime m
                        /\ totalSizeByType r = totalSizeByType m));
      [ | exact H | split; reflexivity].
    clear. intros acc [name entrypoint] acc' Hstep [Hb Hp].
    unfold processEntrypoint in Hstep.
    destruct (negb (JS.truthy entrypoint)).
    + injection Hstep as <-. auto.
    + do 3 bind_inv Hstep.
      destruct (String.eqb name "main" || String.eqb name "index").
      * bind_inv Hstep. injection Hstep as <-. auto.
      * injection Hstep as <-. auto.
  - injection H as <-. auto.
Qed.

Lemma modulesPass_keeps :
  forall stats m m',
    modulesPass stats m = Normal m' ->
    buildTime m' = buildTime m
    /\ totalSize m' = totalSize m
    /\ totalSizeByType m' = totalSizeByType m
    /\ entrypoints m' = entrypoints m
    /\ performance m' = performance m
    /\ chunkCount m' = chunkCount m.
Proof.
  intros stats m m' H.
  destruct (modulesPass_cases _ _ _ H) as [[_ ->]|[_ (cl & _ & ->)]];
    repeat split.
Qed.

Lemma chunksPass_keeps :
  forall stats m m',
    chunksPass stats m = Normal m' ->
    buildTime m' = buildTime m
    /\ totalSizeByType m' = totalSizeByType m
    /\ initialLoad (performance m') = initialLoad (performance m).
Proof.
  intros stats m m' H. unfold chunksPass in H. bind_inv H.
  destruct (JS.truthy x && JS.isArray x).
  - bind_inv H. injection H as <-.
    destruct (0 <? fst x0)%nat; repeat split.
  - injection H as <-. repeat split.
Qed.

Lemma cacheEfficiencyPass_keeps :
  forall m m',
    cacheEfficiencyPass m = Normal m' ->
    buildTime m' = buildTime m
    /\ totalSizeByType m' = totalSizeByType m
    /\ initialLoad (performance m') = initialLoad (performance m)
    /\ chunkFragmentation (performance m')
       = chunkFragmentation (performance m).
Proof.
  intros m m' H. unfold cacheEfficiencyPass in H. bind_inv H.
  destruct (x && (1 <? chunkCount m)%nat).
  - do 2 bind_inv H. injection H as <-. repeat split.
  - injection H as <-. repeat split.
Qed.

(** ** A document without the four sections *)

(** X1.  A document in which [assets], [modules] and [chunks] hold no
    array and [entrypoints] is absent (or otherwise falsy) gives the report
    the function starts from: every count and size 0, every list empty,
    [buildTime] the [time] of the document or 0.  This is so for an object
    and for a number, a string, a boolean or an array given as the
    document; only [null] and [undefined] give the degenerate report. *)
Theorem extractMetrics_without_sections :
  forall stats : value,
    JS.isArray (JS.get_opt stats "assets") = false ->
    JS.truthy (JS.get_opt stats "entrypoints") = false ->
    JS.isArray (JS.get_opt stats "modules") = false ->
    JS.isArray (JS.get_opt stats "chunks") = false ->
    extractMetrics stats
    = Normal (if non_null stats
              then Report (initial_metrics (JS.get_opt stats "time"))
              else Failure "Failed to extract metrics").
Proof.
  intros stats Ha He Hm Hc. rewrite extractMetrics_report.
  destruct (non_null stats) eqn:Hn.
  - unfold report_of, processAssets, processEntrypoints, modulesPass,
      chunksPass.
    rewrite !(get_truthy _ _ Hn). cbn [bind].
    rewrite !isArray_truthy, Ha, He, Hm, Hc. cbn [bind ret].
    reflexivity.
  - destruct stats; try discriminate; reflexivity.
Qed.

Lemma extractMetrics_without_sections_witness :
  let stats := VArr [VObj [("assets", VArr [VObj [("size", VNum 5)]])]] in
  extractMetrics stats = Normal (Report (initial_metrics VUndef)).
Proof.
  intro stats.
  exact (extractMetrics_without_sections stats
           eq_refl eq_refl eq_refl eq_refl).
Defined.

(** ** The build time *)

(** X2.  [buildTime] is the [time] of the document, whatever its type,
    unless it is falsy (absent, [null], 0, [NaN], [false], the empty
    string), in which case it is 0; no pass changes it. *)
Theorem buildTime_of_the_report :
  forall (stats : value) (m : metrics),
    extractMetrics stats = Normal (Report m) ->
    buildTime m = JS.or (JS.get_opt stats "time") (VNum 0).
Proof.
  intros stats m H. apply extractMetrics_Report in H.
  destruct (report_of_passes _ _ H)
    as (time & m1 & m2 & m3 & m4 & Ht & H1 & H2 & H3 & H4 & H5).
  apply get_get_opt in Ht. subst time.
  apply processAssets_keeps in H1. apply processEntrypoints_keeps in H2.
  apply modulesPass_keeps in H3. apply chunksPass_keeps in H4.
  apply cacheEfficiencyPass_keeps in H5.
  destruct H1 as (B1 & _), H2 as (B2 & _), H3 as (B3 & _), H4 as (B4 & _),
    H5 as (B5 & _).
  rewrite B5, B4, B3, B2, B1. reflexivity.
Qed.

Lemma buildTime_of_the_report_witness :
  exists m : metrics,
    extractMetrics sample_stats = Normal (Report m)
    /\ buildTime m = VNum 812
    /\ buildTime m = JS.or (JS.get_opt sample_stats "time") (VNum 0).
Proof.
  eexists. split; [vm_compute; reflexivity|].
  split; [reflexivity|].
  apply (buildTime_of_the_report sample_stats). vm_compute. reflexivity.
Defined.

(** ** The total size *)

Lemma or_numeric :
  forall v,
    size_numeric v = true ->
    JS.or v (VNum 0) = VNum (JS.prim_number (JS.or v (VNum 0))).
Proof.
  intros [] H; try discriminate; try reflexivity.
  unfold JS.or. destruct (JS.truthy (VNum n)); reflexivity.
Qed.

Lemma add_numbers :
  forall a b, JS.add (VNum a) (VNum b) = Normal (VNum (a + b)).
Proof. reflexivity. Qed.

Lemma processAsset_total :
  forall m asset m' t,
    processAsset m asset = Normal m' ->
    totalSize m = VNum t ->
    size_numeric (JS.get_opt asset "size") = true ->
    totalSize m'
    = VNum (if JS.truthy asset then t + size_or_zero asset else t).
Proof.
  intros m asset m' t H Ht Hs. unfold processAsset in H.
  destruct (JS.truthy asset); simpl negb in H; cbv iota in H.
  - do 5 bind_inv H. injection H as <-. cbn [totalSize].
    apply get_get_opt in E. subst x.
    rewrite Ht, (or_numeric _ Hs), add_numbers in E0.
    injection E0 as <-. reflexivity.
  - injection H as <-. exact Ht.
Qed.

Lemma processAssets_total :
  forall l m m' t,
    foldM processAsset m l = Normal m' ->
    totalSize m = VNum t ->
    forallb (fun asset => size_numeric (JS.get_opt asset "size")) l = true ->
    totalSize m'
    = VNum (fold_left
              (fun total asset =>
                 if JS.truthy asset then (total + size_or_zero asset)%float
                 else total) l t).
Proof.
  induction l as [|asset l IH]; intros m m' t H Ht Hl; simpl in H.
  - injection H as <-. exact Ht.
  - bind_inv H. simpl in Hl. apply andb_true_iff in Hl. destruct Hl as [Ha Hl].
    simpl fold_left. eapply IH; [exact H | | exact Hl].
    eapply processAsset_total; eassumption.
Qed.

(** X3.  When every asset has a [size] that is a number or is absent,
    [totalSize] is the number obtained by adding the sizes ([size || 0])
    one after the other in the order of the document, starting from 0 and
    passing over the falsy entries; it is 0 when [assets] holds no
    array. *)
Theorem totalSize_of_the_report :
  forall (stats : value) (m : metrics),
    extractMetrics stats = Normal (Report m) ->
    forallb (fun asset => size_numeric (JS.get_opt asset "size"))
      (doc_array stats "assets") = true ->
    totalSize m = VNum (assets_total (doc_array stats "assets")).
Proof.
  intros stats m H Hsizes. apply extractMetrics_Report in H.
  destruct (report_of_passes _ _ H)
    as (time & m1 & m2 & m3 & m4 & Ht & H1 & H2 & H3 & H4 & H5).
  apply processEntrypoints_frame in H2. destruct H2 as (_ & T2 & _).
  apply modulesPass_keeps in H3. destruct H3 as (_ & T3 & _).
  apply cacheEfficiencyPass_frame in H5. destruct H5 as (T5 & _).
  assert (T4 : totalSize m4 = totalSize m3).
  { destruct (chunksPass_cases _ _ _ H4) as [[_ ->]|[_ (cl & _ & T & _)]];
      [reflexivity | exact T]. }
  rewrite T5, T4, T3, T2. clear - H1 Hsizes.
  unfold processAssets in H1. bind_inv H1.
  apply get_get_opt in E. subst x. unfold doc_array in *.
  rewrite isArray_truthy in H1.
  destruct (JS.isArray (JS.get_opt stats "assets")) eqn:Harr.
  - eapply processAssets_total; [exact H1 | reflexivity | exact Hsizes].
  - injection H1 as <-.
    destruct (JS.get_opt stats "assets"); try reflexivity. discriminate.
Qed.

Lemma totalSize_of_the_report_witness :
  exists m : metrics,
    extractMetrics sample_stats = Normal (Report m)
    /\ totalSize m = VNum 1000
    /\ totalSize m = VNum (assets_total (doc_array sample_stats "assets")).
Proof.
  eexists. split; [vm_compute; reflexivity|].
  split; [reflexivity|].
  apply (totalSize_of_the_report sample_stats); vm_compute; reflexivity.
Defined.

(** ** Order of binary64 numbers *)

Module FloatOrder.

Ltac compare_cases :=
  repeat match goal with
         | H : context [Z.compare ?a ?b] |- _ => destruct (Z.compare_spec a b)
         | |- context [Z.compare ?a ?b] => destruct (Z.compare_spec a b)
         | H : context [Pos.compare ?a ?b] |- _ =>
             destruct (Pos.compare_spec a b)
         | |- context [Pos.compare ?a ?b] => destruct (Pos.compare_spec a b)
         end.

Lemma SFltb_asym :
  forall x y, SFltb x y = true -> SFltb y x = false.
Proof.
  unfold SFltb, SFcompare. intros x y H.
  destruct x as [sx|sx| |sx mx ex], y as [sy|sy| |sy my ey];
    try discriminate; try reflexivity;
    repeat match goal with s : bool |- _ => destruct s end;
    try discriminate; try reflexivity;
    change (PosDef.Pos.compare_cont Eq) with Pos.compare in *;
    compare_cases; subst; simpl in *;
    try discriminate; try reflexivity; exfalso; lia.
Qed.

Lemma SFltb_false_trans :
  forall x y z,
    y <> S754_nan ->
    SFltb x y = false -> SFltb y z = false -> SFltb x z = false.
Proof.
  unfold SFltb, SFcompare. intros x y z Hy Hxy Hyz.
  destruct x as [sx|sx| |sx mx ex], y as [sy|sy| |sy my ey],
    z as [sz|sz| |sz mz ez];
    try congruence; try reflexivity;
    repeat match goal with s : bool |- _ => destruct s end;
    try discriminate; try reflexivity;
    change (PosDef.Pos.compare_cont Eq) with Pos.compare in *;
    compare_cases; subst; simpl in *;
    try discriminate; try reflexivity; exfalso; lia.
Qed.

Lemma ltb_asym :
  forall a b : float, (a <? b)%float = true -> (b <? a)%float = false.
Proof. intros a b. rewrite !ltb_spec. apply SFltb_asym. Qed.

Lemma not_nan_spec :
  forall b : float, is_nan b = false -> Prim2SF b <> S754_nan.
Proof.
  intros b H Hn. unfold is_nan in H. rewrite eqb_spec, Hn in H.
  discriminate.
Qed.

(** [c <= b] and [b <= a] give [c <= a], for a [b] that is a number. *)
Lemma ltb_false_trans :
  forall a b c : float,
    is_nan b = false ->
    (a <? b)%float = false -> (b <? c)%float = false ->
    (a <? c)%float = false.
Proof.
  intros a b c Hb. rewrite !ltb_spec.
  apply SFltb_false_trans. exact (not_nan_spec _ Hb).
Qed.

(** [Math.min(a, 100)] is not above 100. *)
Lemma min_100 : forall a : float, (100 <? Num.min a 100)%float = false.
Proof.
  intro a. unfold Num.min.
  destruct (is_nan a || is_nan 100); [reflexivity|].
  destruct (a <? 100)%float eqn:Hlt; [apply ltb_asym; exact Hlt|].
  destruct (100 <? a)%float eqn:Hgt; [reflexivity|].
  destruct (is_zero a && get_sign a); [exact Hgt | reflexivity].
Qed.

End FloatOrder.

(** ** The performance numbers *)

Lemma find_entry_add_same :
  forall {A} k (v : A) l,
    find_entry k l = None -> find_entry k (add_entry k v l) = Some v.
Proof.
  intros A k v. induction l as [|[k' v'] l IH]; simpl; intro Hnone.
  - rewrite String.eqb_refl. reflexivity.
  - destruct (String.eqb k k') eqn:Hk; [discriminate|].
    destruct (enumerated_behind k k'); simpl.
    + rewrite String.eqb_refl. reflexivity.
    + rewrite Hk. exact (IH Hnone).
Qed.

Lemma find_entry_replace_same :
  forall {A} k (v : A) l,
    find_entry k l <> None -> find_entry k (replace_entry k v l) = Some v.
Proof.
  intros A k v. induction l as [|[k' v'] l IH]; simpl; intro Hsome.
  - congruence.
  - destruct (String.eqb k k') eqn:Hk; simpl.
    + rewrite String.eqb_refl. reflexivity.
    + rewrite Hk. exact (IH Hsome).
Qed.

Lemma find_entry_add_other :
  forall {A} k k' (v : A) l,
    String.eqb k' k = false ->
    find_entry k' (add_entry k v l) = find_entry k' l.
Proof.
  intros A k k' v l Hk. induction l as [|[k0 v0] l IH]; simpl.
  - rewrite Hk. reflexivity.
  - destruct (enumerated_behind k k0); simpl.
    + rewrite Hk. reflexivity.
    + rewrite IH. reflexivity.
Qed.

Lemma find_entry_replace_other :
  forall {A} k k' (v : A) l,
    String.eqb k' k = false ->
    find_entry k' (replace_entry k v l) = find_entry k' l.
Proof.
  intros A k k' v l Hk. induction l as [|[k0 v0] l IH]; simpl.
  - reflexivity.
  - destruct (String.eqb k k0) eqn:Hk0; simpl.
    + apply String.eqb_eq in Hk0. subst k0. rewrite Hk. reflexivity.
    + rewrite IH. reflexivity.
Qed.

Lemma find_entry_set_same :
  forall {A} k (v : A) l, find_entry k (set_entry k v l) = Some v.
Proof.
  intros A k v l. unfold set_entry.
  destruct (find_entry k l) eqn:Hk.
  - apply find_entry_replace_same. congruence.
  - apply find_entry_add_same. exact Hk.
Qed.

Lemma find_entry_set_other :
  forall {A} k k' (v : A) l,
    String.eqb k' k = false ->
    find_entry k' (set_entry k v l) = find_entry k' l.
Proof.
  intros A k k' v l Hk. unfold set_entry.
  destruct (find_entry k l);
    auto using find_entry_replace_other, find_entry_add_other.
Qed.

Lemma find_entry_assign_other :
  forall {A} k k' (v : A) l,
    String.eqb k' k = false ->
    find_entry k' (assign k v l) = find_entry k' l.
Proof.
  intros A k k' v l Hk. unfold assign.
  destruct (String.eqb k "__proto__"); [reflexivity|].
  apply find_entry_set_other. exact Hk.
Qed.

Lemma div_num_of :
  forall a b c, JS.div a b = Normal c -> c = (num_of a / num_of b)%float.
Proof.
  intros a b c H. unfold JS.div in H. bind_inv H. bind_inv H.
  injection H as <-. unfold num_of. rewrite E, E0. reflexivity.
Qed.

Lemma processEntrypoint_initialLoad :
  forall m entry m',
    processEntrypoint m entry = Normal m' ->
    initialLoad_rule m -> initialLoad_rule m'.
Proof.
  intros m [name entrypoint] m' H Hm. unfold processEntrypoint in H.
  destruct (negb (JS.truthy entrypoint)).
  { injection H as <-. exact Hm. }
  do 3 bind_inv H. unfold initialLoad_rule in *.
  destruct (String.eqb name "main") eqn:Hmain.
  - apply String.eqb_eq in Hmain. subst name. cbn [orb] in H.
    bind_inv H. injection H as <-. apply div_num_of in E2. subst x2.
    cbn [entrypoints performance with_perf initialLoad].
    unfold assign. cbn [String.eqb Ascii.eqb Bool.eqb].
    rewrite find_entry_set_same, find_entry_set_other by reflexivity.
    destruct (find_entry "index" (entrypoints m)); [left|]; reflexivity.
  - destruct (String.eqb name "index") eqn:Hindex.
    + apply String.eqb_eq in Hindex. subst name. cbn [orb] in H.
      bind_inv H. injection H as <-. apply div_num_of in E2. subst x2.
      cbn [entrypoints performance with_perf initialLoad].
      unfold assign. cbn [String.eqb Ascii.eqb Bool.eqb].
      rewrite find_entry_set_same, find_entry_set_other by reflexivity.
      destruct (find_entry "main" (entrypoints m)); [right|]; reflexivity.
    + cbn [orb] in H. injection H as <-.
      cbn [entrypoints performance].
      rewrite !find_entry_assign_other
        by (rewrite String.eqb_sym; assumption).
      exact Hm.
Qed.

(** X4.  [performance.initialLoad] is 0 when the report has neither an
    entrypoint [main] nor an entrypoint [index]; otherwise it is the size
    of one of them divided by 1024 (the one that comes last in the
    document when both are there, which the report does not tell). *)
Theorem initialLoad_of_the_report :
  forall (stats : value) (m : metrics),
    extractMetrics stats = Normal (Report m) -> initialLoad_rule m.
Proof.
  intros stats m H. apply extractMetrics_Report in H.
  destruct (report_of_passes _ _ H)
    as (time & m1 & m2 & m3 & m4 & Ht & H1 & H2 & H3 & H4 & H5).
  assert (R2 : initialLoad_rule m2).
  { pose proof (processAssets_keeps _ _ _ H1) as (_ & P1).
    apply processAssets_frame in H1. destruct H1 as (_ & E1 & _).
    unfold processEntrypoints in H2. bind_inv H2.
    assert (R1 : initialLoad_rule m1).
    { unfold initialLoad_rule. rewrite E1, P1. reflexivity. }
    destruct (JS.truthy x).
    - eapply (foldM_invariant _ initialLoad_rule);
        [ | exact H2 | exact R1].
      intros acc entry acc' Hstep. eapply processEntrypoint_initialLoad.
      exact Hstep.
    - injection H2 as <-. exact R1. }
  apply modulesPass_keeps in H3. destruct H3 as (_ & _ & _ & E3 & P3 & _).
  assert (E4 : entrypoints m4 = entrypoints m3).
  { destruct (chunksPass_cases _ _ _ H4) as [[_ ->]|[_ (cl & _ & _ & E & _)]];
      [reflexivity | exact E]. }
  apply chunksPass_keeps in H4. destruct H4 as (_ & _ & I4).
  pose proof (cacheEfficiencyPass_keeps _ _ H5) as (_ & _ & I5 & _).
  apply cacheEfficiencyPass_frame in H5. destruct H5 as (_ & E5 & _).
  unfold initialLoad_rule in *.
  rewrite E5, E4, E3, I5, I4, P3. exact R2.
Qed.

Lemma initialLoad_of_the_report_witness :
  exists m : metrics,
    extractMetrics sample_stats = Normal (Report m)
    /\ initialLoad (performance m) = VNum 0.390625
    /\ initialLoad_rule m.
Proof.
  eexists. split; [vm_compute; reflexivity|].
  split; [reflexivity|].
  apply (initialLoad_of_the_report sample_stats). vm_compute. reflexivity.
Defined.

Lemma fragmentation_entrypoints :
  forall count m m',
    entrypoints m' = entrypoints m ->
    fragmentation count m' = fragmentation count m.
Proof. intros count m m' H. unfold fragmentation. rewrite H. reflexivity. Qed.

(** X5.  [performance.chunkFragmentation] is
    [min(chunkCount / max(number of entrypoints of the report, 1), 100)]
    when [chunkCount] is above 0, and 0 otherwise. *)
Theorem chunkFragmentation_of_the_report :
  forall (stats : value) (m : metrics),
    extractMetrics stats = Normal (Report m) ->
    chunkFragmentation (performance m)
    = if (0 <? chunkCount m)%nat then fragmentation (chunkCount m) m
      else 0%float.
Proof.
  intros stats m H. apply extractMetrics_Report in H.
  destruct (report_of_passes _ _ H)
    as (time & m1 & m2 & m3 & m4 & Ht & H1 & H2 & H3 & H4 & H5).
  apply processAssets_frame in H1.
  destruct H1 as ((_ & _ & _ & C1 & _ & F1) & _).
  apply processEntrypoints_frame in H2.
  destruct H2 as ((_ & _ & _ & C2 & _ & F2) & _).
  apply modulesPass_keeps in H3. destruct H3 as (_ & _ & _ & _ & P3 & C3).
  pose proof (cacheEfficiencyPass_keeps _ _ H5) as (_ & _ & _ & F5).
  apply cacheEfficiencyPass_frame in H5.
  destruct H5 as (_ & E5 & _ & _ & _ & C5 & _).
  rewrite F5, C5, (fragmentation_entrypoints _ _ _ E5).
  assert (F3 : chunkFragmentation (performance m3) = 0%float)
    by (rewrite P3, F2, F1; reflexivity).
  assert (C3' : chunkCount m3 = 0) by (rewrite C3, C2, C1; reflexivity).
  clear - H4 F3 C3'. unfold chunksPass in H4. bind_inv H4.
  destruct (JS.truthy x && JS.isArray x).
  - bind_inv H4. injection H4 as <-.
    destruct (0 <? fst x0)%nat eqn:Hpos.
    + cbn [performance with_perf chunkFragmentation chunkCount with_chunks].
      rewrite Hpos. apply fragmentation_entrypoints. reflexivity.
    + cbn [performance chunkFragmentation chunkCount with_chunks].
      rewrite Hpos. exact F3.
  - injection H4 as <-. rewrite C3'. exact F3.
Qed.

Lemma chunkFragmentation_of_the_report_witness :
  exists m : metrics,
    extractMetrics sample_stats = Normal (Report m)
    /\ (chunkCount m, List.length (entrypoints m)) = (3, 1)
    /\ chunkFragmentation (performance m) = 3%float
    /\ chunkFragmentation (performance m)
       = if (0 <? chunkCount m)%nat then fragmentation (chunkCount m) m
         else 0%float.
Proof.
  eexists. split; [vm_compute; reflexivity|].
  split; [reflexivity|]. split; [reflexivity|].
  apply (chunkFragmentation_of_the_report sample_stats).
  vm_compute. reflexivity.
Defined.

(** X6.  Neither percentage of a report is above 100: both come out of
    [Math.min(..., 100)] or keep their initial 0.  (Nothing keeps
    [cacheEfficiency] from being negative or [NaN].) *)
Theorem percentages_not_above_100 :
  forall (stats : value) (m : metrics),
    extractMetrics stats = Normal (Report m) ->
    (100 <? cacheEfficiency (performance m))%float = false
    /\ (100 <? chunkFragmentation (performance m))%float = false.
Proof.
  intros stats m H. apply extractMetrics_Report in H.
  destruct (report_of_passes _ _ H)
    as (time & m1 & m2 & m3 & m4 & Ht & H1 & H2 & H3 & H4 & H5).
  apply processAssets_frame in H1.
  destruct H1 as ((_ & _ & _ & _ & CE1 & F1) & _).
  apply processEntrypoints_frame in H2.
  destruct H2 as ((_ & _ & _ & _ & CE2 & F2) & _).
  apply modulesPass_keeps in H3. destruct H3 as (_ & _ & _ & _ & P3 & _).
  assert (P4 : (100 <? cacheEfficiency (performance m4))%float = false
               /\ (100 <? chunkFragmentation (performance m4))%float = false).
  { assert (CE3 : cacheEfficiency (performance m3) = 0%float)
      by (rewrite P3, CE2, CE1; reflexivity).
    assert (F3 : chunkFragmentation (performance m3) = 0%float)
      by (rewrite P3, F2, F1; reflexivity).
    clear - H4 CE3 F3. unfold chunksPass in H4. bind_inv H4.
    destruct (JS.truthy x && JS.isArray x).
    - bind_inv H4. injection H4 as <-. destruct (0 <? fst x0)%nat.
      + cbn [performance with_perf cacheEfficiency chunkFragmentation
               with_chunks].
        rewrite CE3. split; [reflexivity|]. apply FloatOrder.min_100.
      + cbn [performance cacheEfficiency chunkFragmentation with_chunks].
        rewrite CE3, F3. split; reflexivity.
    - injection H4 as <-. rewrite CE3, F3. split; reflexivity. }
  destruct P4 as (CE4 & F4). clear - H5 CE4 F4.
  unfold cacheEfficiencyPass in H5. bind_inv H5.
  destruct (x && (1 <? chunkCount m4)%nat).
  - do 2 bind_inv H5. injection H5 as <-.
    cbn [performance with_perf cacheEfficiency chunkFragmentation].
    split; [apply FloatOrder.min_100 | exact F4].
  - injection H5 as <-. split; assumption.
Qed.

Lemma percentages_not_above_100_witness :
  exists m : metrics,
    extractMetrics cache_scenario_stats = Normal (Report m)
    /\ (cacheEfficiency (performance m), chunkFragmentation (performance m))
       = (60, 2)%float
    /\ ((100 <? cacheEfficiency (performance m))%float = false
        /\ (100 <? chunkFragmentation (performance m))%float = false).
Proof.
  eexists. split; [vm_compute; reflexivity|].
  split; [reflexivity|].
  apply (percentages_not_above_100 cache_scenario_stats).
  vm_compute. reflexivity.
Defined.

(** ** The entries of the two lists *)

Lemma insert_Permutation :
  forall compare x l l',
    Arr.insert compare x l = Normal l' -> Permutation (x :: l) l'.
Proof.
  intros compare x. induction l as [|y r IH]; intros l' H; simpl in H.
  - injection H as <-. apply Permutation_refl.
  - bind_inv H. destruct (0 <? x0)%float.
    + bind_inv H. injection H as <-.
      eapply perm_trans; [apply perm_swap|].
      apply perm_skip. apply IH. exact E0.
    + injection H as <-. apply Permutation_refl.
Qed.

(** [sort] keeps the elements. *)
Lemma sorted_Permutation :
  forall compare l l',
    Arr.sorted compare l = Normal l' -> Permutation l l'.
Proof.
  intros compare. induction l as [|x r IH]; intros l' H; simpl in H.
  - injection H as <-. apply perm_nil.
  - bind_inv H. apply insert_Permutation in H.
    eapply perm_trans; [|exact H]. apply perm_skip. apply IH. exact E.
Qed.

Lemma mapM_Forall2 :
  forall {A B} (f : A -> exc B) l l',
    mapM f l = Normal l' -> Forall2 (fun a b => f a = Normal b) l l'.
Proof.
  intros A B f. induction l as [|a l IH]; intros l' H; simpl in H.
  - injection H as <-. constructor.
  - bind_inv H. bind_inv H. injection H as <-. constructor; auto.
Qed.

Lemma Forall2_In_r :
  forall {A B} (R : A -> B -> Prop) l l' b,
    Forall2 R l l' -> In b l' -> exists a, In a l /\ R a b.
Proof.
  intros A B R l l' b H. induction H as [|a0 b0 l l' HR _ IH]; intros Hin.
  - destruct Hin.
  - destruct Hin as [<-|Hin].
    + exists a0. split; [left; reflexivity | exact HR].
    + destruct (IH Hin) as (a & Ha & HRa). exists a. split; [right|]; auto.
Qed.

Lemma Forall2_In_l :
  forall {A B} (R : A -> B -> Prop) l l' a,
    Forall2 R l l' -> In a l -> exists b, In b l' /\ R a b.
Proof.
  intros A B R l l' a H. induction H as [|a0 b0 l l' HR _ IH]; intros Hin.
  - destruct Hin.
  - destruct Hin as [<-|Hin].
    + exists b0. split; [left; reflexivity | exact HR].
    + destruct (IH Hin) as (b & Hb & HRb). exists b. split; [right|]; auto.
Qed.

Lemma In_firstn : forall {A} n (l : list A) x, In x (firstn n l) -> In x l.
Proof.
  intros A. induction n as [|n IH]; intros [|y l] x H; simpl in H;
    try contradiction.
  destruct H as [<-|H]; [left; reflexivity | right; apply IH; exact H].
Qed.

(** The two lists of a report are the summaries of the two sections. *)
Lemma report_of_lists :
  forall stats m,
    report_of stats = Normal m ->
    (exists cl,
       modulesSummary (doc_array stats "modules") = Normal cl
       /\ moduleCount m = fst cl /\ largestModules m = snd cl)
    /\ (exists cl,
          chunksSummary stats (doc_array stats "chunks") = Normal cl
          /\ chunkCount m = fst cl /\ largestChunks m = snd cl).
Proof.
  intros stats m H.
  destruct (report_of_passes _ _ H)
    as (time & m1 & m2 & m3 & m4 & Ht & H1 & H2 & H3 & H4 & H5).
  apply processAssets_frame in H1.
  destruct H1 as ((LM1 & LC1 & MC1 & CC1 & _) & _).
  apply processEntrypoints_frame in H2.
  destruct H2 as ((LM2 & LC2 & MC2 & CC2 & _) & _).
  apply cacheEfficiencyPass_frame in H5.
  destruct H5 as (_ & _ & LM5 & LC5 & MC5 & CC5 & _).
  simpl in LM1, LC1, MC1, CC1.
  rewrite LM5, LC5, MC5, CC5. clear LM5 LC5 MC5 CC5 H m.
  assert (Hmod :
    (exists cl,
       modulesSummary (doc_array stats "modules") = Normal cl
       /\ moduleCount m3 = fst cl /\ largestModules m3 = snd cl)
    /\ largestChunks m3 = [] /\ chunkCount m3 = 0).
  { destruct (modulesPass_cases _ _ _ H3) as [[Hno ->]|[Hyes (cl & Hs & ->)]].
    - rewrite (doc_array_not_array _ _ Hno).
      split; [|split; congruence].
      exists (0, []). split; [reflexivity|]. split; simpl; congruence.
    - split; [|split; simpl; congruence].
      exists cl. split; [exact Hs|]. split; reflexivity. }
  destruct Hmod as ((clm & Hs & MC3 & LM3) & LC3 & CC3).
  destruct (chunksPass_cases _ _ _ H4)
    as [[Hno ->]|[Hyes (cl & Hc & _ & _ & LM4 & MC4 & _ & _ & CC4 & LC4)]].
  - split; [exists clm; auto|].
    rewrite (doc_array_not_array _ _ Hno).
    exists (0, []). split; [reflexivity|]. split; simpl; congruence.
  - split.
    + exists clm. split; [exact Hs|]. split; congruence.
    + exists cl. auto.
Qed.

Lemma size_positive_num_of :
  forall module,
    size_positive module = true ->
    (0 <? num_of (JS.get_opt module "size"))%float = true.
Proof.
  intros module H. unfold size_positive, JS.gt in H. unfold num_of, JS.ToNumber.
  destruct (JS.ToPrimitive (JS.get_opt module "size")) as [p|];
    [|discriminate].
  cbn [bind ret JS.ToPrimitive] in *.
  destruct p; exact H.
Qed.

Lemma positive_truthy :
  forall n : float, (0 <? n)%float = true -> is_zero n || is_nan n = false.
Proof.
  intros n H. unfold is_zero, is_nan. rewrite !eqb_spec.
  rewrite ltb_spec in H. rewrite FloatFacts.zero_spec in *.
  unfold SFeqb, SFltb, SFcompare in *.
  destruct (Prim2SF n) as [s|s| |s mn en]; try discriminate;
    destruct s; try discriminate; try reflexivity.
  rewrite Z.compare_refl.
  change (PosDef.Pos.compare_cont Eq mn mn) with (Pos.compare mn mn).
  rewrite Pos.compare_refl. reflexivity.
Qed.

(** A size above 0 is truthy. *)
Lemma size_positive_truthy :
  forall module,
    size_positive module = true ->
    JS.truthy (JS.get_opt module "size") = true.
Proof.
  intros module H. pose proof (size_positive_num_of _ H) as Hn.
  destruct (JS.get_opt module "size") as [| |b|n|s| |]; try reflexivity.
  - vm_compute in Hn. discriminate.
  - vm_compute in Hn. discriminate.
  - destruct b; [reflexivity | vm_compute in Hn; discriminate].
  - simpl. rewrite (positive_truthy n Hn). reflexivity.
  - destruct s; [vm_compute in Hn; discriminate | reflexivity].
Qed.

Lemma valid_module_key :
  forall module,
    size_positive module = true ->
    JS.or (JS.get_opt module "size") (VNum 0) = JS.get_opt module "size"
    /\ (0 <? module_key module)%float = true.
Proof.
  intros module H. unfold module_key, JS.or.
  rewrite (size_positive_truthy _ H). split; [reflexivity|].
  apply size_positive_num_of. exact H.
Qed.

Lemma moduleEntry_reports :
  forall module e,
    size_positive module = true ->
    moduleEntry module = Normal e ->
    reports_module module e /\ (0 <? num_of (mod_size e))%float = true.
Proof.
  intros module e Hpos H. unfold moduleEntry in H. do 3 bind_inv H.
  injection H as <-. apply get_get_opt in E, E0. subst x x0.
  destruct (valid_module_key _ Hpos) as (Hor & Hkey).
  unfold reports_module. cbn [mod_size mod_name mod_type]. rewrite Hor.
  split; [|exact (size_positive_num_of _ Hpos)].
  split; [reflexivity|].
  unfold JS.or in *. destruct (JS.truthy (JS.get_opt module "name")) eqn:Ht.
  - destruct (JS.get_opt module "name") as [| | | |s| |]; try discriminate.
    exists s. simpl in Ht. apply negb_true_iff in Ht. rewrite Ht.
    injection E1 as <-. auto.
  - exists "". injection E1 as <-. auto.
Qed.

Lemma modulesSummary_sorted :
  forall modules cl,
    modulesSummary modules = Normal cl ->
    let valid :=
      List.filter (fun module => non_null module && size_positive module)
        modules in
    exists ordered,
      Arr.sorted compareModules valid = Normal ordered
      /\ mapM moduleEntry (firstn 20 ordered) = Normal (snd cl)
      /\ fst cl = List.length valid.
Proof.
  intros modules cl H valid. unfold modulesSummary in H. do 3 bind_inv H.
  injection H as <-. apply filterM_filter in E.
  rewrite (filter_ext _ _ validModule_spec) in E. subst x.
  exists x0. auto.
Qed.

(** X7.  Every entry of [largestModules] reports a module of the document
    that is not null and has a size above 0: it carries that size, the
    name of the module (["unknown"] when it has none) and the type
    [getModuleType] gives the name.  When the document has at most 20 such
    modules, each of them has its entry. *)
Theorem largestModules_entries :
  forall (stats : value) (m : metrics),
    extractMetrics stats = Normal (Report m) ->
    Forall (fun e =>
              (0 <? num_of (mod_size e))%float = true
              /\ exists module,
                   In module (valid_modules stats)
                   /\ reports_module module e)
      (largestModules m)
    /\ (moduleCount m <= 20 ->
        forall module,
          In module (valid_modules stats) ->
          exists e, In e (largestModules m) /\ reports_module module e).
Proof.
  intros stats m H. apply extractMetrics_Report in H.
  destruct (report_of_lists _ _ H) as ((cl & Hs & MC & LM) & _).
  apply modulesSummary_sorted in Hs. destruct Hs as (ordered & Hso & Hmap & Hc).
  fold (valid_modules stats) in Hso, Hc. rewrite MC, LM. clear MC LM H.
  pose proof (sorted_Permutation _ _ _ Hso) as Hperm.
  apply mapM_Forall2 in Hmap.
  assert (Hvalid : forall module,
            In module (valid_modules stats) -> size_positive module = true).
  { intros module Hin. unfold valid_modules in Hin.
    apply filter_In in Hin. destruct Hin as (_ & Hv).
    apply andb_true_iff in Hv. tauto. }
  split.
  - apply Forall_forall. intros e He.
    destruct (Forall2_In_r _ _ _ _ Hmap He) as (module & Hin & Hentry).
    apply In_firstn in Hin.
    apply (Permutation_in _ (Permutation_sym Hperm)) in Hin.
    destruct (moduleEntry_reports _ _ (Hvalid _ Hin) Hentry) as (Hr & Hp).
    split; [exact Hp|]. exists module. auto.
  - intros Hle module Hin.
    rewrite firstn_all2 in Hmap
      by (rewrite <- (Permutation_length Hperm), <- Hc; exact Hle).
    destruct (Forall2_In_l _ _ _ _ Hmap (Permutation_in _ Hperm Hin))
      as (e & He & Hentry).
    exists e. split; [exact He|].
    apply (moduleEntry_reports _ _ (Hvalid _ Hin) Hentry).
Qed.

Lemma largestModules_entries_witness :
  exists m : metrics,
    extractMetrics sample_stats = Normal (Report m)
    /\ List.map mod_name (largestModules m)
       = [VStr "node_modules/react/index.js"; VStr "src/app.css";
          VStr "src/index.ts"]
    /\ List.map mod_type (largestModules m)
       = ["npm:react"; "styles"; "typescript"]
    /\ (Forall (fun e =>
                  (0 <? num_of (mod_size e))%float = true
                  /\ exists module,
                       In module (valid_modules sample_stats)
                       /\ reports_module module e)
          (largestModules m)
        /\ (moduleCount m <= 20 ->
            forall module,
              In module (valid_modules sample_stats) ->
              exists e, In e (largestModules m) /\ reports_module module e)).
Proof.
  eexists. split; [vm_compute; reflexivity|].
  split; [reflexivity|]. split; [reflexivity|].
  apply (largestModules_entries sample_stats). vm_compute. reflexivity.
Defined.

Lemma ltb_irrefl : forall a : float, (a <? a)%float = false.
Proof.
  intro a. destruct (a <? a)%float eqn:E; [|reflexivity].
  pose proof (FloatOrder.ltb_asym _ _ E). congruence.
Qed.

(** In a list of numbers ([NaN] left out) in which no number is followed
    by a larger one, no number is larger than the first. *)
Lemma non_increasing_head :
  forall l a,
    non_increasing (a :: l) = true ->
    Forall (fun k => is_nan k = false) (a :: l) ->
    Forall (fun k => (a <? k)%float = false) (a :: l).
Proof.
  induction l as [|b r IH]; intros a Hs Hp.
  - constructor; [apply ltb_irrefl | constructor].
  - apply non_increasing_cons in Hs. destruct Hs as (Hab & Hs).
    inversion Hp as [|? ? Ha Hp']; subst.
    specialize (IH b Hs Hp'). constructor; [apply ltb_irrefl|].
    inversion Hp' as [|? ? Hb _]; subst.
    eapply Forall_impl; [|exact IH]. cbv beta. intros k Hk.
    exact (FloatOrder.ltb_false_trans a b k Hb Hab Hk).
Qed.

(** X8.  The first entry of [largestModules] is a largest module: no
    module of the document that is not null and has a size above 0 has a
    size above that of the first entry. *)
Theorem largestModules_head_is_largest :
  forall (stats : value) (m : metrics) (e : module_info)
         (rest : list module_info),
    extractMetrics stats = Normal (Report m) ->
    largestModules m = e :: rest ->
    forall module,
      In module (valid_modules stats) ->
      (num_of (mod_size e) <? num_of (JS.get_opt module "size"))%float
      = false.
Proof.
  intros stats m e rest H Hl module Hin. apply extractMetrics_Report in H.
  destruct (report_of_lists _ _ H) as ((cl & Hs & _ & LM) & _).
  apply modulesSummary_sorted in Hs. destruct Hs as (ordered & Hso & Hmap & _).
  fold (valid_modules stats) in Hso. rewrite <- LM, Hl in Hmap. clear LM Hl H.
  pose proof (sorted_Permutation _ _ _ Hso) as Hperm.
  assert (Hvalid : forall x,
            In x ordered ->
            JS.or (JS.get_opt x "size") (VNum 0) = JS.get_opt x "size"
            /\ (0 <? module_key x)%float = true).
  { intros x Hx. apply (Permutation_in _ (Permutation_sym Hperm)) in Hx.
    unfold valid_modules in Hx. apply filter_In in Hx.
    destruct Hx as (_ & Hv). apply andb_true_iff in Hv.
    apply valid_module_key. tauto. }
  pose proof (sorted_non_increasing _ _ compareModules_key _ _ Hso) as Hni.
  apply mapM_Forall2 in Hmap.
  destruct ordered as [|first others]; [inversion Hmap|].
  simpl in Hmap. inversion Hmap as [|? ? ? ? Hentry _]; subst.
  apply moduleEntry_key in Hentry. rewrite Hentry.
  apply (Permutation_in _ Hperm) in Hin.
  destruct (Hvalid _ Hin) as (Hor & _).
  replace (num_of (JS.get_opt module "size")) with (module_key module)
    by (unfold module_key; rewrite Hor; reflexivity).
  simpl map in Hni. apply non_increasing_head in Hni.
  - rewrite Forall_forall in Hni.
    apply (Hni (module_key module)).
    change (In (module_key module) (map module_key (first :: others))).
    apply in_map. exact Hin.
  - change (Forall (fun k => is_nan k = false)
              (map module_key (first :: others))).
    apply Forall_forall. intros k Hk. apply in_map_iff in Hk.
    destruct Hk as (x & <- & Hx). destruct (Hvalid _ Hx) as (_ & Hpos).
    apply positive_truthy in Hpos. apply orb_false_iff in Hpos. tauto.
Qed.

Lemma largestModules_head_is_largest_witness :
  exists (m : metrics) (e : module_info) (rest : list module_info),
    extractMetrics sample_stats = Normal (Report m)
    /\ largestModules m = e :: rest
    /\ mod_size e = VNum 30
    /\ forall module,
         In module (valid_modules sample_stats) ->
         (num_of (mod_size e) <? num_of (JS.get_opt module "size"))%float
         = false.
Proof.
  eexists. eexists. eexists.
  split; [vm_compute; reflexivity|].
  split; [reflexivity|]. split; [reflexivity|].
  eapply (largestModules_head_is_largest sample_stats);
    vm_compute; reflexivity.
Defined.

Lemma or_truthy :
  forall a b, JS.truthy b = true -> JS.truthy (JS.or a b) = true.
Proof.
  intros a b H. unfold JS.or. destruct (JS.truthy a) eqn:Ha; assumption.
Qed.

Lemma chunkEntry_reports :
  forall stats chunk e,
    chunkEntry stats chunk = Normal e ->
    (exists s, chunk_id e = VStr s /\ s <> "")
    /\ JS.truthy (chunk_name e) = true
    /\ reports_chunk stats chunk e.
Proof.
  intros stats chunk e H. unfold chunkEntry in H. do 6 bind_inv H.
  injection H as <-. cbn [chunk_id chunk_name chunk_size chunk_modules].
  split; [|split].
  - assert (Hid : x0 = VUndef \/ exists s, x0 = VStr s).
    { unfold JS.toString_opt in E0.
      destruct x; try (injection E0 as <-; left; reflexivity);
        bind_inv E0; injection E0 as <-; right; eauto. }
    destruct Hid as [->|(s & ->)].
    + exists "unknown". split; [reflexivity | discriminate].
    + unfold JS.or. simpl JS.truthy.
      destruct (String.eqb s "") eqn:Hs; simpl negb; cbv iota.
      * exists "unknown". split; [reflexivity | discriminate].
      * exists s. split; [reflexivity|].
        apply String.eqb_neq. exact Hs.
  - apply or_truthy. reflexivity.
  - split; [exact E3|]. apply get_get_opt in E, E1, E2, E4. subst x x1 x2 x4.
    split; [destruct (JS.get_opt chunk "modules"); reflexivity|].
    split.
    + unfold JS.toString_opt in E0.
      destruct (JS.get_opt chunk "id") eqn:Hid;
        try (injection E0 as <-; exists ""; split; reflexivity);
        bind_inv E0; injection E0 as <-; exists x;
        (split; [|assumption]);
        unfold JS.or; simpl JS.truthy;
        destruct (String.eqb x "") eqn:Hx; simpl negb; cbv iota;
        try reflexivity;
        apply String.eqb_eq in Hx; subst x; reflexivity.
    + unfold JS.or.
      destruct (JS.truthy (JS.first (JS.get_opt chunk "names"))) eqn:Ha;
        cbv iota; [rewrite Ha; reflexivity|].
      destruct (JS.truthy (JS.get_opt chunk "name")) eqn:Hb;
        cbv iota; rewrite ?Hb; reflexivity.
Qed.

(** X9.  Every entry of [largestChunks] reports a truthy chunk entry of
    the document: its size is the Resolved Size of the chunk, its
    [modules] the length of the chunk's [modules] (0 without such a
    sequence), its [id] the chunk's id as a string, or ["unknown"] for a
    chunk without an id or with one whose string is empty, and its [name]
    the first of the chunk's [names], or else its [name], or else
    ["unnamed chunk"], passing over what is falsy.  The [id] is therefore
    a string that is not empty, and the [name] is never falsy.  When the
    document has at most 10 truthy chunk entries, each of them has its
    entry. *)
Theorem largestChunks_entries :
  forall (stats : value) (m : metrics),
    extractMetrics stats = Normal (Report m) ->
    Forall (fun e =>
              (exists s, chunk_id e = VStr s /\ s <> "")
              /\ JS.truthy (chunk_name e) = true
              /\ exists chunk,
                   In chunk (doc_array stats "chunks")
                   /\ JS.truthy chunk = true
                   /\ reports_chunk stats chunk e)
      (largestChunks m)
    /\ (chunkCount m <= 10 ->
        forall chunk,
          In chunk (doc_array stats "chunks") ->
          JS.truthy chunk = true ->
          exists e, In e (largestChunks m) /\ reports_chunk stats chunk e).
Proof.
  intros stats m H. apply extractMetrics_Report in H.
  destruct (report_of_lists _ _ H) as (_ & (cl & Hs & CC & LC)).
  unfold chunksSummary in Hs. do 2 bind_inv Hs. injection Hs as <-.
  cbn [fst snd] in CC, LC. rewrite CC, LC. clear CC LC H.
  pose proof (sorted_Permutation _ _ _ E) as Hperm.
  apply mapM_Forall2 in E0.
  split.
  - apply Forall_forall. intros e He.
    destruct (Forall2_In_r _ _ _ _ E0 He) as (chunk & Hin & Hentry).
    apply In_firstn in Hin.
    apply (Permutation_in _ (Permutation_sym Hperm)) in Hin.
    apply filter_In in Hin. destruct Hin as (Hin & Ht).
    destruct (chunkEntry_reports _ _ _ Hentry) as (Hid & Hname & Hr).
    split; [exact Hid|]. split; [exact Hname|]. exists chunk. auto.
  - intros Hle chunk Hin Ht.
    rewrite firstn_all2 in E0
      by (rewrite <- (Permutation_length Hperm); exact Hle).
    assert (Hin' : In chunk x).
    { apply (Permutation_in _ Hperm). apply filter_In. auto. }
    destruct (Forall2_In_l _ _ _ _ E0 Hin') as (e & He & Hentry).
    exists e. split; [exact He|].
    apply (chunkEntry_reports _ _ _ Hentry).
Qed.

Lemma largestChunks_entries_witness :
  exists m : metrics,
    extractMetrics sample_stats = Normal (Report m)
    /\ List.map chunk_id (largestChunks m) = [VStr "2"; VStr "1"; VStr "0"]
    /\ List.map chunk_name (largestChunks m)
       = [VStr "vendor"; VStr "unnamed chunk"; VStr "main"]
    /\ (Forall (fun e =>
                  (exists s, chunk_id e = VStr s /\ s <> "")
                  /\ JS.truthy (chunk_name e) = true
                  /\ exists chunk,
                       In chunk (doc_array sample_stats "chunks")
                       /\ JS.truthy chunk = true
                       /\ reports_chunk sample_stats chunk e)
          (largestChunks m)
        /\ (chunkCount m <= 10 ->
            forall chunk,
              In chunk (doc_array sample_stats "chunks") ->
              JS.truthy chunk = true ->
              exists e,
                In e (largestChunks m)
                /\ reports_chunk sample_stats chunk e)).
Proof.
  eexists. split; [vm_compute; reflexivity|].
  split; [reflexivity|]. split; [reflexivity|].
  apply (largestChunks_entries sample_stats). vm_compute. reflexivity.
Defined.

(** X12.  On a document in which no chunk resolves to a size that is no
    number ([NaN]), the first entry of [largestChunks] is a largest chunk:
    no truthy chunk entry of the document has a Resolved Size above that
    of the first entry. *)
Theorem largestChunks_head_is_largest :
  forall (stats : value) (m : metrics) (e : chunk_info)
         (rest : list chunk_info),
    extractMetrics stats = Normal (Report m) ->
    largestChunks m = e :: rest ->
    Forall (fun chunk => is_nan (chunk_key stats chunk) = false)
      (List.filter JS.truthy (doc_array stats "chunks")) ->
    forall chunk,
      In chunk (doc_array stats "chunks") ->
      JS.truthy chunk = true ->
      (num_of (chunk_size e) <? chunk_key stats chunk)%float = false.
Proof.
  intros stats m e rest H Hl Hnum chunk Hin Ht.
  apply extractMetrics_Report in H.
  destruct (report_of_lists _ _ H) as (_ & (cl & Hs & _ & LC)).
  unfold chunksSummary in Hs. do 2 bind_inv Hs. injection Hs as <-.
  cbn [snd] in LC. rewrite Hl in LC. subst x0. clear Hl H.
  pose proof (sorted_Permutation _ _ _ E) as Hperm.
  pose proof (sorted_non_increasing _ _ (compareChunks_key stats) _ _ E)
    as Hni.
  apply mapM_Forall2 in E0.
  destruct x as [|first others]; [inversion E0|].
  simpl in E0. inversion E0 as [|? ? ? ? Hentry _]; subst.
  apply chunkEntry_key in Hentry. rewrite Hentry.
  assert (Hin' : In chunk (first :: others)).
  { apply (Permutation_in _ Hperm). apply filter_In. auto. }
  simpl map in Hni. apply non_increasing_head in Hni.
  - rewrite Forall_forall in Hni.
    apply (Hni (chunk_key stats chunk)).
    change (In (chunk_key stats chunk)
              (map (chunk_key stats) (first :: others))).
    apply in_map. exact Hin'.
  - change (Forall (fun k => is_nan k = false)
              (map (chunk_key stats) (first :: others))).
    apply Forall_forall. intros k Hk. apply in_map_iff in Hk.
    destruct Hk as (c & <- & Hc).
    apply (Permutation_in _ (Permutation_sym Hperm)) in Hc.
    rewrite Forall_forall in Hnum. exact (Hnum _ Hc).
Qed.

Lemma largestChunks_head_is_largest_witness :
  exists (m : metrics) (e : chunk_info) (rest : list chunk_info),
    extractMetrics sample_stats = Normal (Report m)
    /\ largestChunks m = e :: rest
    /\ chunk_size e = VNum 300
    /\ forall chunk,
         In chunk (doc_array sample_stats "chunks") ->
         JS.truthy chunk = true ->
         (num_of (chunk_size e) <? chunk_key sample_stats chunk)%float
         = false.
Proof.
  eexists. eexists. eexists.
  split; [vm_compute; reflexivity|].
  split; [reflexivity|]. split; [reflexivity|].
  eapply (largestChunks_head_is_largest sample_stats);
    [vm_compute; reflexivity | vm_compute; reflexivity|].
  repeat constructor.
Defined.


(** ** The order of the two lists *)

Lemma SFltb_false_leb :
  forall x y,
    x <> S754_nan -> y <> S754_nan ->
    SFltb x y = false -> SFleb y x = true.
Proof.
  unfold SFltb, SFleb, SFcompare. intros x y Hx Hy H.
  destruct x as [sx|sx| |sx mx ex], y as [sy|sy| |sy my ey];
    try congruence; try reflexivity;
    repeat match goal with s : bool |- _ => destruct s end;
    try discriminate; try reflexivity;
    change (PosDef.Pos.compare_cont Eq) with Pos.compare in *;
    FloatOrder.compare_cases; subst; simpl in *;
    try discriminate; try reflexivity;
    rewrite ?Z.compare_refl, ?Pos.compare_refl; try reflexivity;
    FloatOrder.compare_cases; try reflexivity; exfalso; lia.
Qed.

(** Of two numbers the first of which is not below the second, the second
    is at most the first. *)
Lemma ltb_false_leb :
  forall a b : float,
    is_nan a = false -> is_nan b = false ->
    (a <? b)%float = false -> (b <=? a)%float = true.
Proof.
  intros a b Ha Hb. rewrite ltb_spec, leb_spec.
  apply SFltb_false_leb; apply FloatOrder.not_nan_spec; assumption.
Qed.

Lemma descending_cons :
  forall (a : float) (l : list float),
    Forall (fun k => (k <=? a)%float = true) l ->
    descending l -> descending (a :: l).
Proof.
  intros a l Ha Hl i j Hij. simpl in Hij.
  destruct j as [|j]; [lia|]. destruct i as [|i]; simpl.
  - rewrite Forall_forall in Ha. apply Ha. apply nth_In. lia.
  - apply Hl. lia.
Qed.

(** Numbers ([NaN] left out) none of which is followed by a larger one
    are in non-increasing order. *)
Lemma non_increasing_descending :
  forall l : list float,
    non_increasing l = true ->
    Forall (fun k => is_nan k = false) l ->
    descending l.
Proof.
  induction l as [|a l IH]; intros Hs Hn.
  - intros i j Hij. simpl in Hij. lia.
  - pose proof (non_increasing_head _ _ Hs Hn) as Hhead.
    inversion Hn as [|? ? Ha Hl]; subst.
    inversion Hhead as [|? ? _ Hrest]; subst.
    apply descending_cons.
    + rewrite Forall_forall in *. intros k Hk.
      apply ltb_false_leb; auto.
    + apply IH; [|exact Hl].
      destruct l as [|b r]; [reflexivity|].
      apply non_increasing_cons in Hs. tauto.
Qed.

Lemma Forall_firstn_of :
  forall {A} (P : A -> Prop) n (l : list A),
    Forall P l -> Forall P (firstn n l).
Proof.
  intros A P n l H. rewrite Forall_forall in *.
  intros x Hx. apply H. exact (In_firstn _ _ _ Hx).
Qed.

(** The sizes of the largest modules, largest first. *)
Lemma modulesSummary_descending :
  forall modules cl,
    modulesSummary modules = Normal cl ->
    descending (List.map (fun e => num_of (mod_size e)) (snd cl)).
Proof.
  intros modules cl H.
  apply modulesSummary_sorted in H. cbv zeta in H.
  destruct H as (ordered & Hso & Hmap & _).
  pose proof (sorted_Permutation _ _ _ Hso) as Hperm.
  pose proof (sorted_non_increasing _ _ compareModules_key _ _ Hso) as Hni.
  rewrite (mapM_map _ _ module_key moduleEntry_key _ _ Hmap).
  rewrite <- firstn_map. apply non_increasing_descending.
  - apply non_increasing_firstn. exact Hni.
  - apply Forall_firstn_of. apply Forall_forall. intros k Hk.
    apply in_map_iff in Hk. destruct Hk as (x & <- & Hx).
    apply (Permutation_in _ (Permutation_sym Hperm)) in Hx.
    apply filter_In in Hx. destruct Hx as (_ & Hv).
    apply andb_true_iff in Hv. destruct Hv as (_ & Hpos).
    destruct (valid_module_key _ Hpos) as (_ & Hkey).
    apply positive_truthy in Hkey. apply orb_false_iff in Hkey. tauto.
Qed.

(** The Resolved Sizes of the largest chunks, largest first, when each is
    a number. *)
Lemma chunksSummary_descending :
  forall stats chunks cl,
    chunksSummary stats chunks = Normal cl ->
    Forall (fun chunk => is_nan (chunk_key stats chunk) = false)
      (List.filter JS.truthy chunks) ->
    descending (List.map (fun e => num_of (chunk_size e)) (snd cl)).
Proof.
  intros stats chunks cl H Hnum.
  unfold chunksSummary in H. do 2 bind_inv H. injection H as <-.
  cbn [snd].
  pose proof (sorted_Permutation _ _ _ E) as Hperm.
  pose proof (sorted_non_increasing _ _ (compareChunks_key stats) _ _ E)
    as Hni.
  rewrite (mapM_map _ _ (chunk_key stats) (chunkEntry_key stats) _ _ E0).
  rewrite <- firstn_map. apply non_increasing_descending.
  - apply non_increasing_firstn. exact Hni.
  - apply Forall_firstn_of. apply Forall_forall. intros k Hk.
    apply in_map_iff in Hk. destruct Hk as (c & <- & Hc).
    apply (Permutation_in _ (Permutation_sym Hperm)) in Hc.
    rewrite Forall_forall in Hnum. exact (Hnum _ Hc).
Qed.

(** C6, amended.  In every report, [largestModules] has
    min(20, number of modules that are not null and have a size above 0)
    entries, in non-increasing order of size: every entry is at most
    every entry before it.  [largestChunks] has
    min(10, number of truthy chunk entries) entries; when the Resolved
    Size of every truthy chunk entry is a number, they are in
    non-increasing order of Resolved Size.  Sizes are compared as numbers,
    as the comparators of the two sorts do.  A Resolved Size that is no
    number ([NaN], as the sum over a module whose size is a text) is at
    most no number and no number is at most it: a list of two entries or
    more that holds one is in no order. *)
Theorem largest_lists_of_the_report :
  forall (stats : value) (m : metrics),
    extractMetrics stats = Normal (Report m) ->
    List.length (largestModules m)
    = Nat.min 20 (List.length (valid_modules stats))
    /\ descending
         (List.map (fun e => num_of (mod_size e)) (largestModules m))
    /\ List.length (largestChunks m)
       = Nat.min 10
           (List.length (List.filter JS.truthy (doc_array stats "chunks")))
    /\ (Forall (fun chunk => is_nan (chunk_key stats chunk) = false)
          (List.filter JS.truthy (doc_array stats "chunks")) ->
        descending
          (List.map (fun e => num_of (chunk_size e)) (largestChunks m))).
Proof.
  intros stats m H. apply extractMetrics_Report in H.
  destruct (report_of_summaries _ _ H) as (MC & CC & _ & LM & LC & _ & _).
  destruct (report_of_lists _ _ H)
    as ((clm & Hm & _ & LMs) & (clc & Hc & _ & LCs)).
  rewrite <- MC, <- CC, LMs, LCs.
  split; [rewrite <- LMs; exact LM|].
  split; [exact (modulesSummary_descending _ _ Hm)|].
  split; [rewrite <- LCs; exact LC|].
  exact (chunksSummary_descending _ _ _ Hc).
Qed.

Lemma largest_lists_of_the_report_witness :
  exists m : metrics,
    extractMetrics sample_stats = Normal (Report m)
    /\ List.map mod_size (largestModules m) = [VNum 30; VNum 20; VNum 10]
    /\ List.map chunk_size (largestChunks m) = [VNum 300; VNum 60; VNum 40]
    /\ List.length (largestModules m)
       = Nat.min 20 (List.length (valid_modules sample_stats))
    /\ descending
         (List.map (fun e => num_of (mod_size e)) (largestModules m))
    /\ List.length (largestChunks m)
       = Nat.min 10
           (List.length
              (List.filter JS.truthy (doc_array sample_stats "chunks")))
    /\ descending
         (List.map (fun e => num_of (chunk_size e)) (largestChunks m)).
Proof.
  eexists. split; [vm_compute; reflexivity|].
  split; [reflexivity|]. split; [reflexivity|].
  match goal with
  | |- List.length (largestModules ?m) = _ /\ _ =>
      destruct (largest_lists_of_the_report sample_stats m
                  ltac:(vm_compute; reflexivity))
        as (LM & DM & LC & DC)
  end.
  split; [exact LM|]. split; [exact DM|]. split; [exact LC|].
  apply DC. repeat constructor.
Defined.

(** A chunk whose module has a text for size resolves to a text that is
    no number: the two entries of [largestChunks] are then in no order,
    whichever comes first. *)
Example largest_chunks_not_a_number :
  exists m : metrics,
    extractMetrics text_size_stats = Normal (Report m)
    /\ Permutation (List.map chunk_size (largestChunks m))
         [VStr "0big"; VNum 5]
    /\ forall sizes,
         Permutation
           (List.map (fun e => num_of (chunk_size e)) (largestChunks m))
           sizes ->
         ~ descending sizes.
Proof.
  eexists. split; [vm_compute; reflexivity|].
  split; [apply Permutation_refl|].
  intros sizes Hp H. cbn [largestChunks List.map chunk_size] in Hp.
  apply Permutation_length_2_inv in Hp.
  destruct Hp as [-> | ->]; specialize (H 0 1 ltac:(simpl; lia));
    vm_compute in H; discriminate.
Qed.
(** ** Further properties of the Chunk Size Resolver *)

Lemma modules_fold :
  forall modules t,
    forallb (fun module => size_numeric (JS.get_opt module "size")) modules
    = true ->
    foldM (fun total module =>
             JS.add total (JS.or (JS.get_opt module "size") (VNum 0)))
          (VNum t) modules
    = Normal (VNum (fold_left
                      (fun total module => (total + size_or_zero module)%float)
                      modules t)).
Proof.
  induction modules as [|module l IH]; intros t H; simpl in *.
  - reflexivity.
  - apply andb_true_iff in H. destruct H as [Hm Hl].
    rewrite (or_numeric _ Hm), add_numbers. cbn [bind].
    rewrite (IH _ Hl). reflexivity.
Qed.

(** X10.  A chunk without a numeric [size] whose [modules] is a sequence
    of modules with sizes that are numbers (or absent) resolves to the
    number obtained by adding the sizes ([size || 0]) in their order,
    starting from 0.  The stats document is not looked at: the result is
    the same for every document, [null] included, and an empty [modules]
    gives 0 even where assets of the document belong to the chunk. *)
Theorem calculateChunkSize_sums_modules :
  forall (chunk stats : value) (modules : list value),
    JS.typeof_number (JS.get_opt chunk "size") = false ->
    JS.get_opt chunk "modules" = VArr modules ->
    forallb (fun module => size_numeric (JS.get_opt module "size")) modules
    = true ->
    calculateChunkSize chunk stats = Normal (VNum (modules_total modules)).
Proof.
  intros chunk stats modules Hsize Hmods Hsizes.
  destruct chunk as [| | | | | |props]; try discriminate.
  unfold calculateChunkSize. cbn [JS.truthy negb JS.get bind ret].
  cbn [JS.get_opt] in Hsize, Hmods. rewrite Hsize, Hmods.
  apply modules_fold. exact Hsizes.
Qed.

Lemma calculateChunkSize_sums_modules_witness :
  let chunk :=
    VObj [("id", VNum 1);
          ("modules", VArr [VObj [("size", VNum 25)]; VNull;
                            VObj [("size", VNum 35)]])] in
  calculateChunkSize chunk VNull = Normal (VNum 60)
  /\ calculateChunkSize chunk sample_stats = Normal (VNum 60).
Proof.
  intro chunk.
  split;
    [exact (calculateChunkSize_sums_modules chunk VNull _
              eq_refl eq_refl eq_refl)
    | exact (calculateChunkSize_sums_modules chunk sample_stats _
               eq_refl eq_refl eq_refl)].
Defined.

Lemma no_string_includes :
  forall ids s,
    forallb (fun id => negb (typeof_string id)) ids = true ->
    existsb (JS.same_value_zero (VStr s)) ids = false.
Proof.
  induction ids as [|id ids IH]; intros s H; simpl in *.
  - reflexivity.
  - apply andb_true_iff in H. destruct H as [Hid Hids].
    rewrite (IH _ Hids). destruct id; try reflexivity. discriminate.
Qed.

(** X11.  An asset belongs to a chunk by id only when its [chunks] holds
    the id as a string: the id of the chunk is compared after
    [toString()], with the equality of [includes].  A chunk known by its
    id alone (no numeric [size], no [modules] sequence, no name) therefore
    resolves to 0 on every document whose assets list their chunks by
    number, as webpack does. *)
Theorem calculateChunkSize_id_needs_strings :
  forall (chunk stats : value) (assets : list value),
    JS.truthy chunk = true ->
    JS.typeof_number (JS.get_opt chunk "size") = false ->
    JS.isArray (JS.get_opt chunk "modules") = false ->
    primitive (JS.get_opt chunk "id") = true ->
    JS.truthy (JS.or (JS.first (JS.get_opt chunk "names"))
                     (JS.get_opt chunk "name")) = false ->
    JS.get_opt stats "assets" = VArr assets ->
    forallb (fun asset => negb (JS.truthy asset) || no_string_chunks asset)
      assets = true ->
    calculateChunkSize chunk stats = Normal (VNum 0).
Proof.
  intros chunk stats assets Ht Hsize Hmods Hid Hname Hassets Hchunks.
  assert (Hstats : non_null stats = true)
    by (destruct stats; try discriminate; reflexivity).
  unfold calculateChunkSize. rewrite Ht. simpl negb. cbv iota.
  rewrite !(get_truthy _ _ (truthy_non_null _ Ht)). cbn [bind].
  rewrite Hsize.
  destruct (JS.get_opt chunk "modules") as [| | | | |ms|] eqn:Hm;
    try discriminate.
  all: rewrite (get_truthy _ _ Hstats), Hassets; cbn [bind].
  all: destruct (negb (JS.is_undefined (JS.get_opt chunk "id"))
                 || negb (JS.is_undefined (JS.get_opt chunk "name")));
    [|reflexivity].
  all: assert (Hcid : exists chunkId,
                 JS.toString_opt (JS.get_opt chunk "id") = Normal chunkId
                 /\ (chunkId = VUndef \/ exists s, chunkId = VStr s))
         by (destruct (JS.get_opt chunk "id"); try discriminate;
             simpl; eauto).
  all: destruct Hcid as (chunkId & -> & Hcid); cbn [bind].
  all: rewrite Hname.
  all: clear - Hchunks Hcid.
  all: induction assets as [|asset assets IH]; [reflexivity|].
  all: simpl in Hchunks; apply andb_true_iff in Hchunks.
  all: destruct Hchunks as [Ha Hl]; simpl foldM.
  all: destruct (JS.truthy asset) eqn:Hta; simpl negb in *; cbv iota;
    [|exact (IH Hl)].
  all: rewrite !(get_truthy _ _ (truthy_non_null _ Hta)); cbn [bind].
  all: simpl in Ha; unfold no_string_chunks in Ha.
  all: assert (Hby :
         (if JS.truthy chunkId && JS.truthy (JS.get_opt asset "chunks")
          then JS.includes (JS.get_opt asset "chunks") chunkId
          else ret false) = Normal false).
  all: try (destruct Hcid as [->|(s & ->)]; [reflexivity|];
            destruct (JS.get_opt asset "chunks") as [| |b|n|t|ids|ps];
            try discriminate; simpl in Ha |- *;
            try (apply negb_true_iff in Ha; rewrite Ha;
                 rewrite ?andb_false_r; reflexivity);
            try (rewrite andb_false_r; reflexivity);
            destruct (negb (String.eqb s "")); [|reflexivity];
            simpl andb; cbv iota; unfold JS.includes;
            rewrite (no_string_includes _ _ Ha); reflexivity).
  all: rewrite Hby; cbn [bind ret]; exact (IH Hl).
Qed.

Lemma calculateChunkSize_id_needs_strings_witness :
  let stats :=
    VObj [("assets",
           VArr [VObj [("name", VStr "0.js"); ("size", VNum 700);
                       ("chunks", VArr [VNum 0])]])] in
  calculateChunkSize (VObj [("id", VNum 0)]) stats = Normal (VNum 0)
  /\ calculateChunkSize
       (VObj [("id", VNum 0)])
       (VObj [("assets",
               VArr [VObj [("name", VStr "0.js"); ("size", VNum 700);
                           ("chunks", VArr [VStr "0"])]])])
     = Normal (VNum 700).
Proof.
  intro stats. split; [|reflexivity].
  exact (calculateChunkSize_id_needs_strings (VObj [("id", VNum 0)]) stats _
           eq_refl eq_refl eq_refl eq_refl eq_refl eq_refl eq_refl).
Defined.

(** ** Further properties of the Module Classifier *)

Lemma prefix_empty : forall s, prefix "" s = true.
Proof. intros []; reflexivity. Qed.

Lemma prefix_app : forall t s, prefix t (t ++ s) = true.
Proof.
  induction t as [|c t IH]; intro s; cbn [append prefix].
  - apply prefix_empty.
  - destruct (ascii_dec c c); [apply IH | congruence].
Qed.

Ltac ascii_cases H :=
  repeat match type of H with
         | context [ascii_dec ?a ?b] =>
             let e := fresh "e" in
             destruct (ascii_dec a b) as [e|e];
             [try discriminate e; try subst|]; cbv iota in H
         end.

(** [node_modules] does not overlap itself: an occurrence that starts
    before another one lies before it. *)
Lemma node_modules_border :
  forall p s,
    p <> "" ->
    prefix "node_modules" (p ++ "node_modules" ++ s) = true ->
    prefix "node_modules" p = true.
Proof.
  intros p s Hp H.
  destruct p as [|c1 p]; [congruence|]. clear Hp.
  do 11 (destruct p as [|? p];
         [cbn [append prefix] in H; ascii_cases H; discriminate|]).
  cbn [append prefix] in H |- *. ascii_cases H; try discriminate.
  repeat match goal with
         | |- context [ascii_dec ?a ?a] =>
             destruct (ascii_dec a a); [|congruence]
         end.
  apply prefix_empty.
Qed.

Lemma index_node_modules :
  forall pre s,
    Str.includes pre "node_modules" = false ->
    index 0 "node_modules" (pre ++ "node_modules" ++ s)
    = Some (String.length pre).
Proof.
  induction pre as [|c pre IH]; intros s H.
  - change ("" ++ "node_modules" ++ s) with ("node_modules" ++ s).
    pose proof (prefix_app "node_modules" s) as Hp.
    cbn [append] in Hp |- *. cbn [index]. rewrite Hp. reflexivity.
  - unfold Str.includes in H.
    change (String c pre ++ "node_modules" ++ s)
      with (String c (pre ++ "node_modules" ++ s)).
    cbn [index] in H |- *.
    destruct (prefix "node_modules" (String c pre)) eqn:Hp; [discriminate|].
    destruct (prefix "node_modules" (String c (pre ++ "node_modules" ++ s)))
      eqn:Hq.
    + apply (node_modules_border (String c pre) s) in Hq; [|discriminate].
      congruence.
    + rewrite IH; [reflexivity|]. unfold Str.includes.
      destruct (index 0 "node_modules" pre); [discriminate | reflexivity].
Qed.

Lemma drop_app :
  forall a n b, Str.drop (String.length a + n) (a ++ b) = Str.drop n b.
Proof. induction a as [|c a IH]; intros n b; simpl; auto. Qed.

Lemma drop_zero : forall s, Str.drop 0 s = s.
Proof. intros []; reflexivity. Qed.

(** A string without the character [c]. *)
Lemma includes_char :
  forall c x s,
    Str.includes (String x s) (String c "") = false ->
    x <> c /\ Str.includes s (String c "") = false.
Proof.
  intros c x s H. unfold Str.includes in *. cbn [index prefix] in H.
  destruct (ascii_dec c x) as [e|n].
  - rewrite prefix_empty in H. discriminate.
  - split; [congruence|].
    destruct (index 0 (String c "") s); [discriminate | reflexivity].
Qed.

Lemma includes_char_Forall :
  forall c s,
    Str.includes s (String c "") = false ->
    Forall (fun x => x <> c) (list_ascii_of_string s).
Proof.
  intros c. induction s as [|x s IH]; intro H; simpl.
  - constructor.
  - apply includes_char in H. destruct H as [Hx Hs]. constructor; auto.
Qed.

Lemma split_head_app :
  forall pkg rest,
    Str.includes pkg "/" = false ->
    Str.split_head "/" (pkg ++ String "/" rest) = pkg.
Proof.
  induction pkg as [|c pkg IH]; intros rest H.
  - reflexivity.
  - apply includes_char in H. destruct H as [Hc Hs]. simpl.
    destruct (Ascii.eqb_spec c "/"); [contradiction|].
    rewrite IH by exact Hs. reflexivity.
Qed.

Lemma split_head_no_sep :
  forall s, Str.includes (Str.split_head "/" s) "/" = false.
Proof.
  induction s as [|c s IH]; [reflexivity|]. simpl.
  destruct (Ascii.eqb_spec c "/") as [|Hc]; [reflexivity|].
  unfold Str.includes in *. cbn [index prefix].
  destruct (ascii_dec "/" c); [congruence|].
  destruct (index 0 "/" (Str.split_head "/" s)); [discriminate | reflexivity].
Qed.

(** The label of a path in which [node_modules] occurs. *)
Lemma getModuleType_marker :
  forall path i,
    index 0 "node_modules" path = Some i ->
    getModuleType path
    = "npm:" ++ Str.split_head "/" (Str.drop (i + 13) path).
Proof.
  intros path i Hi. unfold getModuleType, Str.includes, Str.indexOf.
  rewrite Hi.
  destruct (String.eqb path "") eqn:He.
  { apply String.eqb_eq in He. subst path. discriminate. }
  replace (negb (Z.of_nat i =? -1)%Z) with true
    by (symmetry; apply negb_true_iff; apply Z.eqb_neq; lia).
  unfold Str.slice_from.
  replace (Z.to_nat (Z.of_nat i + Z.of_nat (String.length "node_modules/")))
    with (i + 13)%nat by (simpl String.length; lia).
  reflexivity.
Qed.

(** X13.  A path [<before>node_modules/<package>/<rest>], where
    [node_modules] does not occur in [<before>] and [<package>] holds no
    [/], is labelled [npm:<package>]: the first [node_modules] of the path
    decides, and the package is the path segment that follows it. *)
Theorem getModuleType_package :
  forall before package rest : string,
    Str.includes before "node_modules" = false ->
    Str.includes package "/" = false ->
    getModuleType (before ++ "node_modules/" ++ package ++ "/" ++ rest)
    = "npm:" ++ package.
Proof.
  intros before package rest Hb Hp.
  change (before ++ "node_modules/" ++ package ++ "/" ++ rest)
    with (before ++ "node_modules" ++ String "/" (package ++ String "/" rest)).
  rewrite (getModuleType_marker _ _ (index_node_modules _ _ Hb)).
  rewrite drop_app.
  change (Str.drop 13
            ("node_modules" ++ String "/" (package ++ String "/" rest)))
    with (Str.drop 0 (package ++ String "/" rest)).
  rewrite drop_zero, split_head_app by exact Hp. reflexivity.
Qed.

Lemma getModuleType_package_witness :
  getModuleType
    ("src/app/" ++ "node_modules/" ++ "lodash" ++ "/"
     ++ "node_modules/inner/index.js")
  = "npm:" ++ "lodash".
Proof.
  exact (getModuleType_package "src/app/" "lodash"
           "node_modules/inner/index.js" eq_refl eq_refl).
Defined.

(** X14.  The labels of [getModuleType]: one of the seven fixed labels, or
    [npm:] followed by a name that holds no [/] (the scope alone for a
    scoped package [@scope/name]; possibly the empty name). *)
Theorem getModuleType_labels :
  forall path : string,
    In (getModuleType path)
       ["unknown"; "javascript"; "typescript"; "styles"; "image"; "json";
        "other"]
    \/ exists name : string,
         getModuleType path = "npm:" ++ name
         /\ Str.includes name "/" = false.
Proof.
  intro path.
  destruct (index 0 "node_modules" path) as [i|] eqn:Hi.
  - right. eexists. split; [apply getModuleType_marker; exact Hi|].
    apply split_head_no_sep.
  - left. unfold getModuleType, Str.includes. rewrite Hi.
    destruct (String.eqb path ""); [simpl; auto|].
    repeat match goal with
           | |- In (if ?c then _ else _) _ => destruct c; [simpl; auto 10|]
           end.
    simpl; auto 10.
Qed.

(** *** The extension of an ordinary file name *)

Lemma list_ascii_of_string_app :
  forall a b,
    list_ascii_of_string (a ++ b)
    = (list_ascii_of_string a ++ list_ascii_of_string b)%list.
Proof. induction a as [|c a IH]; intro b; simpl; [|rewrite IH]; reflexivity. Qed.

Lemma length_list_ascii :
  forall s, List.length (list_ascii_of_string s) = String.length s.
Proof. induction s as [|c s IH]; simpl; [|rewrite IH]; reflexivity. Qed.

Lemma length_append :
  forall a b, String.length (a ++ b) = String.length a + String.length b.
Proof. induction a as [|c a IH]; intro b; simpl; [|rewrite IH]; reflexivity. Qed.

Lemma append_assoc :
  forall a b c : string, a ++ (b ++ c) = (a ++ b) ++ c.
Proof. induction a as [|x a IH]; intros b c; simpl; [|rewrite IH]; reflexivity. Qed.

Lemma take_length : forall s, Str.take (String.length s) s = s.
Proof. induction s as [|c s IH]; simpl; [|rewrite IH]; reflexivity. Qed.

(** The characters of the extension, read from the end of the path: the
    first one marks the end of the last component, the others change
    nothing. *)
Lemma scan_extension_rest :
  forall l rest i sp e pd,
    Forall (fun c => c <> "/"%char /\ c <> "."%char) l ->
    e <> (-1)%Z ->
    Path.scan_loop (l ++ rest)%list i
      {| Path.startDot := -1; Path.startPart := sp; Path.end_ := e;
         Path.matchedSlash := false; Path.preDotState := pd |}
    = Path.scan_loop rest (i - Z.of_nat (List.length l))
        {| Path.startDot := -1; Path.startPart := sp; Path.end_ := e;
           Path.matchedSlash := false; Path.preDotState := pd |}.
Proof.
  induction l as [|c l IH]; intros rest i sp e pd Hl He.
  - simpl. f_equal. lia.
  - inversion Hl as [|? ? (Hs & Hd) Hl']; subst.
    cbn [app Path.scan_loop List.length].
    destruct (Ascii.eqb_spec c "/"); [contradiction|].
    destruct (Ascii.eqb_spec c "."); [contradiction|].
    cbn [Path.end_ Path.startDot].
    destruct (Z.eqb_spec e (-1)); [contradiction|].
    cbn [Path.startDot]. simpl (negb (-1 =? -1)%Z). cbv iota.
    rewrite IH by assumption. f_equal. lia.
Qed.

Lemma scan_extension :
  forall c l rest i,
    Forall (fun c => c <> "/"%char /\ c <> "."%char) (c :: l) ->
    (0 <= i)%Z ->
    Path.scan_loop ((c :: l) ++ rest)%list i Path.scan0
    = Path.scan_loop rest (i - Z.of_nat (List.length (c :: l)))
        {| Path.startDot := -1; Path.startPart := 0; Path.end_ := i + 1;
           Path.matchedSlash := false; Path.preDotState := 0 |}.
Proof.
  intros c l rest i Hl Hi. inversion Hl as [|? ? (Hs & Hd) Hl']; subst.
  cbn [app Path.scan_loop List.length].
  destruct (Ascii.eqb_spec c "/"); [contradiction|].
  destruct (Ascii.eqb_spec c "."); [contradiction|].
  unfold Path.scan0.
  cbn [Path.end_ Path.startDot Path.startPart Path.preDotState
         Path.matchedSlash Z.eqb Pos.eqb negb].
  rewrite scan_extension_rest by (assumption || lia). f_equal. lia.
Qed.

(** Once the dot of the extension is found and the character before it
    is read, the remaining characters leave the dot and the end where they
    are. *)
Lemma scan_before :
  forall l i sd sp e pd,
    sd <> (-1)%Z -> e <> (-1)%Z -> pd <> 0%Z ->
    let st :=
      Path.scan_loop l i
        {| Path.startDot := sd; Path.startPart := sp; Path.end_ := e;
           Path.matchedSlash := false; Path.preDotState := pd |} in
    Path.startDot st = sd /\ Path.end_ st = e
    /\ Path.preDotState st <> 0%Z.
Proof.
  induction l as [|c l IH]; intros i sd sp e pd Hsd He Hpd.
  - simpl. auto.
  - cbn [Path.scan_loop].
    destruct (Ascii.eqb c "/").
    + cbn [Path.matchedSlash negb Path.startDot Path.end_ Path.preDotState].
      auto.
    + cbn [Path.end_ Path.startDot].
      destruct (Z.eqb_spec e (-1)); [contradiction|].
      cbn [Path.startDot Path.preDotState Path.end_ Path.startPart
             Path.matchedSlash].
      destruct (Z.eqb_spec sd (-1)); [contradiction|].
      simpl negb. cbv iota.
      destruct (Ascii.eqb c ".").
      * destruct (pd =? 1)%Z eqn:Hpd1; simpl negb; cbv iota.
        -- apply IH; assumption.
        -- cbn [Path.startDot Path.preDotState Path.end_ Path.startPart
                  Path.matchedSlash].
           apply IH; auto. discriminate.
      * cbn [Path.startDot Path.preDotState Path.end_ Path.startPart
               Path.matchedSlash].
        apply IH; auto. discriminate.
Qed.

(** [path.extname] of a path that ends in [<c>.<ext>], where [<c>] is a
    character other than [/] and [<ext>] is not empty and holds neither
    [.] nor [/]. *)
Lemma extname_ordinary :
  forall (before : string) (c : ascii) (ext : string),
    c <> "/"%char ->
    ext <> "" ->
    Str.includes ext "/" = false ->
    Str.includes ext "." = false ->
    Path.extname (before ++ String c ("." ++ ext)) = "." ++ ext.
Proof.
  intros before c ext Hc Hne Hs Hd. unfold Path.extname.
  set (path := before ++ String c ("." ++ ext)).
  assert (Hlen : String.length path
                 = String.length before + 2 + String.length ext).
  { unfold path. rewrite length_append. simpl. lia. }
  assert (Hrev : rev (list_ascii_of_string path)
                 = (rev (list_ascii_of_string ext)
                    ++ "."%char :: c :: rev (list_ascii_of_string before))%list).
  { unfold path. rewrite list_ascii_of_string_app. simpl.
    rewrite rev_app_distr. simpl. rewrite <- !app_assoc. reflexivity. }
  rewrite Hrev.
  assert (Hext : Forall (fun x => x <> "/"%char /\ x <> "."%char)
                   (rev (list_ascii_of_string ext))).
  { apply Forall_rev.
    pose proof (includes_char_Forall _ _ Hs) as F1.
    pose proof (includes_char_Forall _ _ Hd) as F2.
    rewrite Forall_forall in *. intros x Hx. split; auto. }
  destruct (rev (list_ascii_of_string ext)) as [|x l] eqn:Hl.
  { apply (f_equal (@List.length ascii)) in Hl.
    rewrite length_rev, length_list_ascii in Hl.
    destruct ext; [congruence | discriminate]. }
  assert (Hll : List.length (x :: l) = String.length ext).
  { rewrite <- Hl, length_rev, length_list_ascii. reflexivity. }
  rewrite scan_extension by (assumption || lia).
  rewrite Hll.
  set (i := (Z.of_nat (String.length path) - 1)%Z).
  cbn [Path.scan_loop].
  destruct (Ascii.eqb_spec "." "/"); [discriminate|].
  cbn [Path.end_ Path.startDot Path.startPart Path.preDotState
         Path.matchedSlash].
  destruct (Z.eqb_spec (i + 1) (-1)); [lia|].
  simpl (Ascii.eqb "." "."). cbv iota.
  cbn [Path.end_ Path.startDot Path.startPart Path.preDotState
         Path.matchedSlash].
  simpl (-1 =? -1)%Z. cbv iota.
  destruct (Ascii.eqb_spec c "/"); [contradiction|].
  cbn [Path.end_ Path.startDot Path.startPart Path.preDotState
         Path.matchedSlash].
  destruct (Z.eqb_spec (i + 1) (-1)); [lia|].
  cbn [Path.end_ Path.startDot Path.startPart Path.preDotState
         Path.matchedSlash].
  set (dot := (i - Z.of_nat (String.length ext))%Z).
  assert (Hdot : dot = Z.of_nat (String.length before + 1))
    by (unfold dot, i; lia).
  destruct (Z.eqb_spec dot (-1)); [lia|].
  simpl (negb false). cbv iota.
  match goal with
  | |- context [Path.scan_loop ?r ?j
                  (if ?b then ?s1 else ?s2)] =>
      assert (Hst : exists pd, pd <> 0%Z
                /\ (if b then s1 else s2)
                   = {| Path.startDot := dot; Path.startPart := 0;
                        Path.end_ := i + 1; Path.matchedSlash := false;
                        Path.preDotState := pd |})
        by (destruct b;
            [exists 1%Z | exists (-1)%Z]; split;
            try discriminate; reflexivity)
  end.
  destruct Hst as (pd & Hpd & ->).
  match goal with
  | |- context [Path.scan_loop ?r ?j ?s] =>
      pose proof (scan_before r j dot 0%Z (i + 1)%Z pd
                    ltac:(lia) ltac:(lia) Hpd) as (S1 & S2 & S3);
      cbv zeta in S1, S2, S3;
      rewrite S1, S2;
      destruct (Z.eqb_spec (Path.preDotState (Path.scan_loop r j s)) 0);
        [contradiction|]
  end.
  destruct (Z.eqb_spec dot (-1)); [lia|].
  destruct (Z.eqb_spec (i + 1) (-1)); [lia|].
  destruct (Z.eqb_spec dot (i + 1 - 1)).
  { exfalso. unfold dot in *. destruct ext; [congruence | simpl in *; lia]. }
  rewrite andb_false_r. simpl orb. cbv iota.
  unfold Str.slice.
  assert (Hd1 : Z.to_nat dot = String.length (before ++ String c "") + 0)
    by (rewrite length_append; cbn [String.length]; lia).
  assert (Hd2 : Z.to_nat (i + 1) - Z.to_nat dot = String.length ("." ++ ext))
    by (cbn [append String.length]; unfold i in *; lia).
  rewrite Hd2, Hd1.
  unfold path.
  change (before ++ String c ("." ++ ext))
    with (before ++ (String c "" ++ ("." ++ ext))).
  rewrite append_assoc.
  rewrite drop_app, drop_zero. apply take_length.
Qed.

(** X15.  A path outside [node_modules] that ends in [<c>.<ext>], where
    [<c>] is a character other than [/] and [<ext>] is not empty and
    holds neither [.] nor [/], is labelled by [<ext>] alone, read without
    regard to case: [javascript] for [js] and [jsx], [typescript] for [ts]
    and [tsx], [styles] for [css], [scss] and [less], [image] for [svg],
    [png], [jpg], [jpeg] and [gif], [json] for [json], and [other] for
    every other extension.  The directories and the rest of the file name
    play no part. *)
Theorem getModuleType_by_extension :
  forall (before : string) (c : ascii) (ext : string),
    c <> "/"%char ->
    ext <> "" ->
    Str.includes ext "/" = false ->
    Str.includes ext "." = false ->
    Str.includes (before ++ String c ("." ++ ext)) "node_modules" = false ->
    getModuleType (before ++ String c ("." ++ ext))
    = label_of_extension (Str.toLowerCase ext).
Proof.
  intros before c ext Hc Hne Hs Hd Hnm. unfold getModuleType.
  rewrite Hnm, (extname_ordinary _ _ _ Hc Hne Hs Hd).
  replace (String.eqb (before ++ String c ("." ++ ext)) "") with false
    by (destruct before; reflexivity).
  cbn [append Str.toLowerCase].
  change (Str.lower_char ".") with "."%char.
  set (x := Str.toLowerCase ext).
  unfold label_of_extension, extension_labels. simpl.
  repeat match goal with
         | |- context [String.eqb x ?k] =>
             destruct (String.eqb x k); [reflexivity|]
         end.
  reflexivity.
Qed.

Lemma getModuleType_by_extension_witness :
  getModuleType ("src/components/Butto" ++ String "n" ("." ++ "TSX"))
  = label_of_extension (Str.toLowerCase "TSX")
  /\ label_of_extension (Str.toLowerCase "TSX") = "typescript".
Proof.
  split; [|reflexivity].
  apply getModuleType_by_extension;
    solve [discriminate | reflexivity].
Defined.

(** ** The entrypoints of the report *)

Lemma foldM_invariant_In :
  forall {A B} (f : B -> A -> exc B) (P : B -> Prop) (l : list A),
    (forall acc x acc', In x l -> f acc x = Normal acc' -> P acc -> P acc') ->
    forall acc r, foldM f acc l = Normal r -> P acc -> P r.
Proof.
  intros A B f P. induction l as [|x l IH]; intros Hstep acc r H HP.
  - simpl in H. injection H as <-. exact HP.
  - simpl in H. bind_inv H.
    apply (IH (fun acc x acc' Hin => Hstep acc x acc' (or_intror Hin))
              _ _ H).
    apply (Hstep acc x x0 (or_introl eq_refl) E HP).
Qed.

Lemma entrypoint_fold :
  forall assets t,
    forallb (fun asset => size_numeric (JS.get_opt asset "size")) assets
    = true ->
    foldM (fun size asset =>
             if JS.typeof_object asset then
               asset_size <- JS.get asset "size" ;;
               JS.add size (JS.or asset_size (VNum 0))
             else ret size)
          (VNum t) assets
    = Normal (VNum (fold_left
                      (fun total asset =>
                         if JS.typeof_object asset
                         then (total + size_or_zero asset)%float
                         else total)
                      assets t)).
Proof.
  induction assets as [|asset l IH]; intros t H; simpl in H |- *.
  - reflexivity.
  - apply andb_true_iff in H. destruct H as [Ha Hl].
    destruct (JS.typeof_object asset) eqn:Hobj.
    + rewrite get_truthy by (destruct asset; try discriminate; reflexivity).
      cbn [bind]. rewrite (or_numeric _ Ha), add_numbers. cbn [bind].
      apply IH. exact Hl.
    + cbn [bind ret]. apply IH. exact Hl.
Qed.

(** What one entrypoint of the document adds to the report. *)
Lemma processEntrypoint_entry :
  forall m name ep m',
    processEntrypoint m (name, ep) = Normal m' ->
    (JS.truthy ep = false /\ m' = m)
    \/ (JS.truthy ep = true
        /\ exists e,
             reports_entrypoint ep e
             /\ entrypoints m' = assign name e (entrypoints m)).
Proof.
  intros m name ep m' H. unfold processEntrypoint in H.
  destruct (JS.truthy ep) eqn:Ht; simpl negb in H; cbv iota in H.
  2: { left. injection H as <-. auto. }
  right. split; [reflexivity|]. do 3 bind_inv H.
  apply get_get_opt in E, E0. subst x x0.
  exists {| ep_size := x1;
            ep_chunks := JS.or (JS.get_opt ep "chunks") (VArr []) |}.
  split.
  - split; [reflexivity|]. cbn [ep_size]. intro Hsizes.
    rewrite isArray_truthy in E1.
    destruct (JS.isArray (JS.get_opt ep "assets")) eqn:Harr.
    + rewrite (entrypoint_fold _ _ Hsizes) in E1. injection E1 as <-.
      reflexivity.
    + injection E1 as <-.
      destruct (JS.get_opt ep "assets"); try reflexivity. discriminate.
  - destruct (String.eqb name "main" || String.eqb name "index").
    + bind_inv H. injection H as <-. reflexivity.
    + injection H as <-. reflexivity.
Qed.

Lemma find_entry_assign :
  forall {A} k k' (v : A) l,
    find_entry k' (assign k v l)
    = if String.eqb k "__proto__" then find_entry k' l
      else if String.eqb k' k then Some v
      else find_entry k' l.
Proof.
  intros A k k' v l. unfold assign.
  destruct (String.eqb k "__proto__"); [reflexivity|].
  destruct (String.eqb k' k) eqn:Hk.
  - apply String.eqb_eq in Hk. subst k'. apply find_entry_set_same.
  - apply find_entry_set_other. exact Hk.
Qed.

Lemma entries_falsy :
  forall v, JS.truthy v = false -> JS.entries v = [].
Proof.
  intros [] H; try reflexivity; try discriminate.
  destruct s; [reflexivity | discriminate].
Qed.

(** Every entrypoint already in the report stays in it, and every truthy
    entrypoint that is processed is in it afterwards. *)
Lemma processEntrypoints_present :
  forall l m m',
    foldM processEntrypoint m l = Normal m' ->
    (forall name,
       find_entry name (entrypoints m) <> None ->
       find_entry name (entrypoints m') <> None)
    /\ (forall name ep,
          In (name, ep) l -> JS.truthy ep = true -> name <> "__proto__" ->
          find_entry name (entrypoints m') <> None).
Proof.
  induction l as [|[name0 ep0] l IH]; intros m m' H; simpl in H.
  - injection H as <-. split; [auto | intros ? ? []].
  - bind_inv H. destruct (IH _ _ H) as (Hkeep & Hnew).
    assert (Hstep : forall name,
              find_entry name (entrypoints m) <> None ->
              find_entry name (entrypoints x) <> None).
    { intros name Hn.
      destruct (processEntrypoint_entry _ _ _ _ E)
        as [(_ & ->)|(_ & e & _ & ->)]; [exact Hn|].
      rewrite find_entry_assign.
      destruct (String.eqb name0 "__proto__"); [exact Hn|].
      destruct (String.eqb name name0); [discriminate | exact Hn]. }
    split; [auto|].
    intros name ep [Heq|Hin] Ht Hp; [|eauto].
    injection Heq as -> ->. apply Hkeep.
    destruct (processEntrypoint_entry _ _ _ _ E)
      as [(Hf & _)|(_ & e & _ & ->)]; [congruence|].
    rewrite find_entry_assign.
    destruct (String.eqb_spec name "__proto__"); [contradiction|].
    rewrite String.eqb_refl. discriminate.
Qed.

(** X16.  Every entrypoint of the report comes from a truthy entry of
    [entrypoints] in the document, under the same name: it has the chunks
    of that entry ([[]] when it has none) and, when the sizes of the
    assets of the entry are numbers or absent, as its size the sum of the
    sizes ([size || 0]) of the assets that are objects, taken in their
    order; an asset given by its file name counts for nothing.  Every
    truthy entry of the document has its entrypoint in the report, unless
    its name is [__proto__]. *)
Theorem entrypoints_of_the_report :
  forall (stats : value) (m : metrics),
    extractMetrics stats = Normal (Report m) ->
    (forall name e,
       find_entry name (entrypoints m) = Some e ->
       exists ep,
         In (name, ep) (JS.entries (JS.get_opt stats "entrypoints"))
         /\ JS.truthy ep = true
         /\ reports_entrypoint ep e)
    /\ (forall name ep,
          In (name, ep) (JS.entries (JS.get_opt stats "entrypoints")) ->
          JS.truthy ep = true ->
          name <> "__proto__" ->
          find_entry name (entrypoints m) <> None).
Proof.
  intros stats m H. apply extractMetrics_Report in H.
  destruct (report_of_passes _ _ H)
    as (time & m1 & m2 & m3 & m4 & Ht & H1 & H2 & H3 & H4 & H5).
  apply processAssets_frame in H1. destruct H1 as (_ & E1 & _).
  apply modulesPass_keeps in H3. destruct H3 as (_ & _ & _ & E3 & _).
  assert (E4 : entrypoints m4 = entrypoints m3).
  { destruct (chunksPass_cases _ _ _ H4) as [[_ ->]|[_ (cl & _ & _ & E & _)]];
      [reflexivity | exact E]. }
  apply cacheEfficiencyPass_frame in H5. destruct H5 as (_ & E5 & _).
  rewrite E5, E4, E3. simpl in E1. clear - H2 E1.
  unfold processEntrypoints in H2. bind_inv H2.
  apply get_get_opt in E. subst x.
  destruct (JS.truthy (JS.get_opt stats "entrypoints")) eqn:Ht.
  2: { injection H2 as <-. rewrite E1, (entries_falsy _ Ht).
       split; [discriminate | intros ? ? []]. }
  split.
  - eapply (foldM_invariant_In _
              (fun r =>
                 forall name e,
                   find_entry name (entrypoints r) = Some e ->
                   exists ep,
                     In (name, ep)
                        (JS.entries (JS.get_opt stats "entrypoints"))
                     /\ JS.truthy ep = true
                     /\ reports_entrypoint ep e));
      [ | exact H2 | rewrite E1; discriminate].
    cbv beta. intros acc [name0 ep0] acc' Hin Hstep Hacc name e Hfind.
    destruct (processEntrypoint_entry _ _ _ _ Hstep)
      as [(_ & ->)|(Ht0 & e0 & Hr & Heq)]; [eauto|].
    rewrite Heq, find_entry_assign in Hfind.
    destruct (String.eqb name0 "__proto__"); [eauto|].
    destruct (String.eqb_spec name name0) as [->|]; [|eauto].
    injection Hfind as <-. eauto.
  - intros name ep Hin Hep Hp.
    exact (proj2 (processEntrypoints_present _ _ _ H2) name ep Hin Hep Hp).
Qed.

Lemma entrypoints_of_the_report_witness :
  exists m : metrics,
    extractMetrics main_of_size_zero_stats = Normal (Report m)
    /\ List.map (fun e => (fst e, ep_size (snd e))) (entrypoints m)
       = [("main", VNum 0); ("index", VNum 400)]
    /\ ((forall name e,
           find_entry name (entrypoints m) = Some e ->
           exists ep,
             In (name, ep)
                (JS.entries
                   (JS.get_opt main_of_size_zero_stats "entrypoints"))
             /\ JS.truthy ep = true
             /\ reports_entrypoint ep e)
        /\ (forall name ep,
              In (name, ep)
                 (JS.entries
                    (JS.get_opt main_of_size_zero_stats "entrypoints")) ->
              JS.truthy ep = true ->
              name <> "__proto__" ->
              find_entry name (entrypoints m) <> None)).
Proof.
  eexists. split; [vm_compute; reflexivity|].
  split; [reflexivity|].
  apply (entrypoints_of_the_report main_of_size_zero_stats).
  vm_compute. reflexivity.
Defined.

(** ** The console *)

Lemma silent_ret : forall {A} (a : A), silent (retM a).
Proof. intros A a h. reflexivity. Qed.

Lemma silent_lift : forall {A} (e : exc A), silent (lift e).
Proof. intros A e h. reflexivity. Qed.

Lemma silent_bind :
  forall {A B} (c : M A) (f : A -> M B),
    silent c -> (forall a, silent (f a)) -> silent (bindM c f).
Proof.
  intros A B c f Hc Hf h. unfold bindM. specialize (Hc h).
  destruct (c h) as [h' [a|]]; simpl in Hc.
  - rewrite <- Hc. apply Hf.
  - exact Hc.
Qed.

Lemma silent_stats_get : forall k, silent (stats_get k).
Proof. intros k h. reflexivity. Qed.

Lemma silent_stats_value : silent stats_value.
Proof. intros h. reflexivity. Qed.

Lemma silent_filter : forall p a, silent (Arr.filter p a).
Proof.
  intros p a h. unfold Arr.filter. destruct (filterM p (Arr.read a h));
    reflexivity.
Qed.

Lemma silent_length : forall a, silent (Arr.length a).
Proof. intros a h. reflexivity. Qed.

Lemma silent_spread : forall a, silent (Arr.spread a).
Proof. intros a h. reflexivity. Qed.

Lemma silent_slice : forall start stop a, silent (Arr.slice start stop a).
Proof. intros start stop a h. reflexivity. Qed.

Lemma silent_map :
  forall {B} (f : value -> exc B) a, silent (Arr.map f a).
Proof. intros B f a h. reflexivity. Qed.

Lemma silent_sort : forall compare a, silent (Arr.sort compare a).
Proof.
  intros compare a h. unfold Arr.sort.
  destruct (Arr.sorted compare (Arr.read a h)); [|reflexivity].
  destruct a; reflexivity.
Qed.

Ltac silence :=
  repeat first
    [ apply silent_ret | apply silent_lift | apply silent_stats_get
    | apply silent_stats_value | apply silent_filter | apply silent_length
    | apply silent_spread | apply silent_slice | apply silent_map
    | apply silent_sort
    | apply silent_bind; [|intro]
    | match goal with
      | |- silent (if ?b then _ else _) => destruct b
      end ].

Lemma silent_try : silent extractMetrics_try.
Proof. unfold extractMetrics_try, processModules, processChunks. silence. Qed.

(** X17.  [extractMetrics] calls [console.error] exactly when it returns
    the degenerate report, and then once, with two arguments: the text
    [Error extracting metrics:] and the error it has caught, a
    [TypeError].  A call that returns a Metrics Report writes nothing. *)
Theorem extractMetrics_console :
  forall stats : value,
    match extractMetrics stats with
    | Normal (Report _) => console (fst (extractMetrics_run stats)) = []
    | Normal (Failure error) =>
        error = "Failed to extract metrics"
        /\ console (fst (extractMetrics_run stats))
           = [[Text "Error extracting metrics:"; TypeError]]
    | Throw => False
    end.
Proof.
  intro stats. unfold extractMetrics, extractMetrics_run, try_catch.
  pose proof (silent_try (initial_heap stats)) as Hc.
  destruct (extractMetrics_try_run (initial_heap stats)) as [_ Hout].
  destruct (extractMetrics_try (initial_heap stats)) as [h r].
  simpl in Hc, Hout. subst r.
  destruct (report_of stats); simpl; rewrite Hc; auto.
Qed.

(** ** The sizes by type *)

Lemma inherited_not_proto :
  forall k, inherited k = VUndef -> String.eqb k "__proto__" = false.
Proof.
  intros k H. destruct (String.eqb k "__proto__") eqn:Hk; [|reflexivity].
  apply String.eqb_eq in Hk. subst k. discriminate H.
Qed.

(** The asset of a report has a name that is a string, or none: its type
    is the key it is counted under. *)
Lemma extname_of_type :
  forall asset dotted,
    extname_of (JS.or (JS.get_opt asset "name") (VStr "")) = Normal dotted ->
    (let e := Str.remove_first "." dotted in
     if String.eqb e "" then "unknown" else e)
    = type_of_asset asset.
Proof.
  intros asset dotted H. unfold type_of_asset.
  destruct (JS.or (JS.get_opt asset "name") (VStr "")); try discriminate.
  injection H as <-. reflexivity.
Qed.

(** What an asset does to the sum of a type. *)
Lemma processAsset_count :
  forall m asset m' k byType,
    processAsset m asset = Normal m' ->
    size_numeric (JS.get_opt asset "size") = true ->
    inherited k = VUndef ->
    find_entry k (totalSizeByType m) = option_map VNum byType ->
    find_entry k (totalSizeByType m')
    = option_map VNum (count_asset k byType asset).
Proof.
  intros m asset m' k byType H Hs Hk Hm. unfold processAsset in H.
  unfold count_asset.
  destruct (JS.truthy asset); simpl negb in H; cbv iota in H; cbn [andb].
  2: { injection H as <-. exact Hm. }
  do 5 bind_inv H. injection H as <-. cbn [totalSizeByType].
  apply get_get_opt in E, E1. subst x x1.
  pose proof (extname_of_type _ _ E2) as Hty. cbv zeta in Hty, E3 |- *.
  rewrite Hty in E3 |- *. clear E2 Hty.
  rewrite find_entry_assign.
  destruct (String.eqb_spec (type_of_asset asset) k) as [Heq|Hne].
  - rewrite Heq in *. rewrite (inherited_not_proto _ Hk), String.eqb_refl.
    rewrite Hm, (or_numeric _ Hs) in E3.
    destruct byType as [total|]; cbn [option_map] in E3 |- *.
    + unfold JS.or in E3 at 1.
      destruct (JS.truthy (VNum total));
        rewrite add_numbers in E3; injection E3 as <-; reflexivity.
    + rewrite Hk in E3. unfold JS.or in E3 at 1. cbn [JS.truthy] in E3.
      rewrite add_numbers in E3. injection E3 as <-. reflexivity.
  - replace (String.eqb k (type_of_asset asset)) with false
      by (symmetry; apply String.eqb_neq; congruence).
    destruct (String.eqb (type_of_asset asset) "__proto__"); exact Hm.
Qed.

Lemma processAssets_count :
  forall l m m' k byType,
    foldM processAsset m l = Normal m' ->
    forallb (fun asset => size_numeric (JS.get_opt asset "size")) l = true ->
    inherited k = VUndef ->
    find_entry k (totalSizeByType m) = option_map VNum byType ->
    find_entry k (totalSizeByType m')
    = option_map VNum (fold_left (count_asset k) l byType).
Proof.
  induction l as [|asset l IH]; intros m m' k byType H Hl Hk Hm; simpl in H.
  - injection H as <-. exact Hm.
  - bind_inv H. simpl in Hl. apply andb_true_iff in Hl.
    destruct Hl as [Ha Hl]. simpl fold_left.
    eapply IH; [exact H | exact Hl | exact Hk |].
    eapply processAsset_count; eassumption.
Qed.

(** The type of an asset with an ordinary name is the extension as it is
    written. *)
Lemma type_of_asset_ordinary :
  forall asset before c ext,
    JS.get_opt asset "name" = VStr (before ++ String c ("." ++ ext)) ->
    c <> "/"%char -> ext <> "" ->
    Str.includes ext "/" = false -> Str.includes ext "." = false ->
    type_of_asset asset = ext.
Proof.
  intros asset before c ext Hname Hc Hne Hs Hd. unfold type_of_asset.
  rewrite Hname. unfold JS.or.
  replace (JS.truthy (VStr (before ++ String c ("." ++ ext)))) with true
    by (destruct before; reflexivity).
  rewrite (extname_ordinary _ _ _ Hc Hne Hs Hd).
  cbn [append Str.remove_first Ascii.eqb Bool.eqb]. cbv zeta.
  destruct ext; [congruence | reflexivity].
Qed.

(** X18.  When every asset has a [size] that is a number or is absent,
    the entry of [totalSizeByType] under a key that names no member of
    [Object.prototype] is the sum of the sizes ([size || 0]) of the truthy
    assets of that type, added in the order of the document as
    [(byType || 0) + size] does (a sum that has come to 0 or to [NaN]
    starts again from 0); there is no entry when no asset is of the type.
    The type of an asset is the extension of its [name] without the dot,
    written as in the name: unlike the module types, the asset types keep
    the case of the extension. *)
Theorem totalSizeByType_of_the_report :
  forall (stats : value) (m : metrics) (k : string),
    extractMetrics stats = Normal (Report m) ->
    forallb (fun asset => size_numeric (JS.get_opt asset "size"))
      (doc_array stats "assets") = true ->
    inherited k = VUndef ->
    find_entry k (totalSizeByType m)
    = option_map VNum (type_total k (doc_array stats "assets"))
    /\ forall (asset : value) (before : string) (c : ascii) (ext : string),
         JS.get_opt asset "name" = VStr (before ++ String c ("." ++ ext)) ->
         c <> "/"%char ->
         ext <> "" ->
         Str.includes ext "/" = false ->
         Str.includes ext "." = false ->
         type_of_asset asset = ext.
Proof.
  intros stats m k H Hsizes Hk.
  split; [|exact type_of_asset_ordinary].
  apply extractMetrics_Report in H.
  destruct (report_of_passes _ _ H)
    as (time & m1 & m2 & m3 & m4 & Ht & H1 & H2 & H3 & H4 & H5).
  apply processEntrypoints_keeps in H2. destruct H2 as (_ & T2).
  apply modulesPass_keeps in H3. destruct H3 as (_ & _ & T3 & _).
  apply chunksPass_keeps in H4. destruct H4 as (_ & T4 & _).
  apply cacheEfficiencyPass_keeps in H5. destruct H5 as (_ & T5 & _).
  rewrite T5, T4, T3, T2. clear - H1 Hsizes Hk.
  unfold processAssets in H1. bind_inv H1.
  apply get_get_opt in E. subst x. unfold doc_array in *.
  rewrite isArray_truthy in H1. unfold type_total.
  destruct (JS.isArray (JS.get_opt stats "assets")) eqn:Harr.
  - eapply (processAssets_count _ _ _ k None);
      [exact H1 | exact Hsizes | exact Hk | reflexivity].
  - injection H1 as <-.
    destruct (JS.get_opt stats "assets"); try reflexivity. discriminate.
Qed.

Lemma totalSizeByType_of_the_report_witness :
  exists m : metrics,
    extractMetrics mixed_case_stats = Normal (Report m)
    /\ totalSizeByType m = [("JS", VNum 10); ("js", VNum 20)]
    /\ type_total "JS" (doc_array mixed_case_stats "assets") = Some 10%float
    /\ find_entry "JS" (totalSizeByType m)
       = option_map VNum
           (type_total "JS" (doc_array mixed_case_stats "assets")).
Proof.
  eexists. split; [vm_compute; reflexivity|].
  split; [reflexivity|]. split; [reflexivity|].
  apply (totalSizeByType_of_the_report mixed_case_stats _ "JS");
    vm_compute; reflexivity.
Defined.

(** An asset called [x.constructor] meets the inherited [constructor]:
    what is stored is a string.  Keys that are array indices are
    enumerated first, by their numbers. *)
Example totalSizeByType_inherited_key :
  extractMetrics
    (VObj [("assets",
            VArr [VObj [("name", VStr "x.constructor"); ("size", VNum 10)];
                  VObj [("name", VStr "a.10"); ("size", VNum 1)];
                  VObj [("name", VStr "a.9"); ("size", VNum 2)]])])
  = Normal
      (Report
         {| totalSize := VNum 13;
            totalSizeByType :=
              [("9", VNum 2); ("10", VNum 1);
               ("constructor",
                VStr "function Object() { [native code] }10")];
            entrypoints := []; largestModules := []; largestChunks := [];
            moduleCount := 0; chunkCount := 0; assetCount := 3;
            buildTime := VNum 0;
            performance :=
              {| initialLoad := VNum 0; cacheEfficiency := 0;
                 chunkFragmentation := 0 |} |}).
Proof. vm_compute. reflexivity. Qed.
(** * Properties of the tool handler and of the path resolution *)

(** ** The arguments of a tool *)



(** ** Runs of the path resolution *)

Lemma run_io_bind :
  forall {A B} (t : io A) (f : A -> io B) w past,
    run w (io_bind t f) past
    = match run w t past with
      | (Fulfilled a, tr) => run w (f a) tr
      | (Rejected e, tr) => (Rejected e, tr)
      end.
Proof. induction t; intros; simpl; auto. Qed.

Lemma run_io_catch :
  forall {A} (t : io A) (handler : js_error -> io A) w past,
    run w (io_catch t handler) past
    = match run w t past with
      | (Fulfilled a, tr) => (Fulfilled a, tr)
      | (Rejected e, tr) => run w (handler e) tr
      end.
Proof. induction t; intros; simpl; auto. Qed.

Ltac answer :=
  match goal with
  | |- context [on_access ?w ?past ?p] =>
      destruct (on_access w past p) eqn:?
  | |- context [on_stat ?w ?past ?p] =>
      destruct (on_stat w past p) eqn:?
  | |- context [on_cwd ?w ?past] =>
      destruct (on_cwd w past) eqn:?
  | |- context [on_homedir ?w ?past] =>
      destruct (on_homedir w past) eqn:?
  | |- context [is_a ?type ?stats] =>
      destruct (is_a type stats) eqn:?
  | |- context [match code ?e with _ => _ end] =>
      destruct (code e) as [?c|] eqn:?
  | |- context [String.eqb ?c "ENOENT"] =>
      destruct (String.eqb c "ENOENT") eqn:?
  end; cbn -[append String.eqb].

(** A disjunct that holds by computation. *)
Ltac find_in :=
  match goal with
  | |- _ \/ _ => (left; find_in) || (right; find_in)
  | |- _ = _ => reflexivity
  end.

(** When [resolvePath] is fulfilled, the last two things it asked were
    [fs.access] and [fs.stat] of the path it gives. *)
Lemma resolvePath_checks :
  forall (w : world) (inputPath : string) (type : path_type)
         (past : list step) (found : string) (tr : list step),
    run w (resolvePath inputPath type) past = (Fulfilled found, tr) ->
    exists (before : list step) (stats : fs_kind),
      tr = (before ++ [DidAccess found None; DidStat found (inr stats)])%list
      /\ is_a type stats = true.
Proof.
  intros w inputPath type past found tr. unfold resolvePath.
  destruct (isAbsolute inputPath).
  all: cbn -[append String.eqb]; repeat (answer; try discriminate).
  all: intro H; injection H as <- <-.
  all: rewrite <- app_assoc; eexists; eexists;
    split; [reflexivity|assumption].
Qed.

(** [resolvePath] asks about paths only: it reads no file, writes
    nothing and starts nothing. *)
Lemma resolvePath_asks :
  forall (w : world) (inputPath : string) (type : path_type)
         (past : list step),
    exists asked : list step,
      snd (run w (resolvePath inputPath type) past) = (past ++ asked)%list
      /\ Forall (fun s => path_question s = true) asked.
Proof.
  intros w inputPath type past. unfold resolvePath.
  destruct (isAbsolute inputPath).
  all: cbn -[append String.eqb]; repeat answer.
  all: rewrite <- ?app_assoc; cbn [app snd]; eexists;
    (split; [reflexivity|]); repeat constructor.
Qed.

(** X20.  [validatePath] never rejects, whatever the file system
    answers.  It is fulfilled with [valid: true] and a path, without
    [error], when [resolvePath] is fulfilled with that path, and then the
    last two things asked were [fs.access] of the path, which succeeded,
    and [fs.stat] of it, which told the type asked for; it is fulfilled
    with [valid: false] and the message of the error, without
    [resolvedPath], when [resolvePath] rejects.  It asks what
    [resolvePath] asks and nothing more. *)
Theorem validatePath_never_rejects :
  forall (w : world) (path : string) (type : path_type) (past : list step),
    exists (v : validation) (tr : list step),
      run w (validatePath path type) past = (Fulfilled v, tr)
      /\ tr = snd (run w (resolvePath path type) past)
      /\ ((valid v = true
           /\ error v = None
           /\ exists (found : string) (before : list step) (stats : fs_kind),
                resolvedPath v = Some found
                /\ fst (run w (resolvePath path type) past) = Fulfilled found
                /\ tr = (before ++ [DidAccess found None;
                                    DidStat found (inr stats)])%list
                /\ is_a type stats = true)
          \/ (valid v = false
              /\ resolvedPath v = None
              /\ exists e : js_error,
                   error v = Some (message e)
                   /\ fst (run w (resolvePath path type) past)
                      = Rejected e)).
Proof.
  intros w path type past. unfold validatePath.
  rewrite run_io_catch, run_io_bind.
  destruct (run w (resolvePath path type) past) as [[found|e] tr] eqn:Hrun.
  - destruct (resolvePath_checks _ _ _ _ _ _ Hrun) as (before & stats & H1 & H2).
    eexists. eexists. split; [reflexivity|]. split; [reflexivity|].
    left. cbn. split; [reflexivity|]. split; [reflexivity|].
    exists found, before, stats. auto.
  - eexists. eexists. split; [reflexivity|]. split; [reflexivity|].
    right. cbn. split; [reflexivity|]. split; [reflexivity|].
    exists e. auto.
Qed.

(** X21.  When [resolvePath] is fulfilled with a path, the last two
    things it asked were [fs.access] of that path, which succeeded, and
    [fs.stat] of that path, which told the type asked for.  The path is
    the input itself when that is absolute, and otherwise an answer of
    [path.resolve] to segments of which the input is the last. *)
Theorem resolvePath_returns_a_checked_path :
  forall (w : world) (inputPath : string) (type : path_type)
         (past : list step) (found : string) (tr : list step),
    run w (resolvePath inputPath type) past = (Fulfilled found, tr) ->
    (exists (before : list step) (stats : fs_kind),
       tr = (before ++ [DidAccess found None; DidStat found (inr stats)])%list
       /\ is_a type stats = true)
    /\ if isAbsolute inputPath then found = inputPath
       else exists segments,
              In (DidResolve segments found) tr
              /\ List.last segments "" = inputPath.
Proof.
  intros w inputPath type past found tr Hrun.
  split; [exact (resolvePath_checks _ _ _ _ _ _ Hrun)|].
  revert Hrun. unfold resolvePath.
  destruct (isAbsolute inputPath).
  - cbn -[append String.eqb]. repeat (answer; try discriminate).
    intro H; injection H as <- <-. reflexivity.
  - cbn -[append String.eqb]. repeat (answer; try discriminate).
    all: intro H; injection H as <- <-.
    all: eexists; split;
      [rewrite !in_app_iff; cbn [In]; find_in | reflexivity].
Qed.

Lemma resolvePath_returns_a_checked_path_witness :
  run sample_world (resolvePath "build/stats.json" file) []
  = (Fulfilled "/work/build/stats.json",
     [DidCwd (inr "/work");
      DidResolve ["/work"; "build/stats.json"] "/work/build/stats.json";
      DidAccess "/work/build/stats.json" None;
      DidStat "/work/build/stats.json" (inr IsFile)])
  /\ (exists (before : list step) (stats : fs_kind),
        [DidCwd (inr "/work");
         DidResolve ["/work"; "build/stats.json"] "/work/build/stats.json";
         DidAccess "/work/build/stats.json" None;
         DidStat "/work/build/stats.json" (inr IsFile)]
        = (before ++ [DidAccess "/work/build/stats.json" None;
                      DidStat "/work/build/stats.json" (inr stats)])%list
        /\ is_a file stats = true)
  /\ exists segments,
       In (DidResolve segments "/work/build/stats.json")
          [DidCwd (inr "/work");
           DidResolve ["/work"; "build/stats.json"] "/work/build/stats.json";
           DidAccess "/work/build/stats.json" None;
           DidStat "/work/build/stats.json" (inr IsFile)]
       /\ List.last segments "" = "build/stats.json".
Proof.
  split; [reflexivity|].
  exact (resolvePath_returns_a_checked_path sample_world "build/stats.json"
           file [] _ _ eq_refl).
Defined.

(** X22.  For an absolute path [resolvePath] asks the file system about
    that path only and never falls back on another place.  It is fulfilled with the path
    itself; it rejects with [Path ... exists but is not a <type>] when
    [fs.stat] tells another type, with [Cannot access <type> at absolute
    path: ...] when [fs.access] or [fs.stat] fails with the code
    [ENOENT], and with the error of the file system itself when that has
    another code. *)
Theorem resolvePath_absolute :
  forall (w : world) (inputPath : string) (type : path_type)
         (past : list step),
    isAbsolute inputPath = true ->
    exists asked : list step,
      snd (run w (resolvePath inputPath type) past) = (past ++ asked)%list
      /\ Forall (fun s => probed s = Some inputPath
                           \/ exists trace, s = DidStack trace) asked
      /\ match fst (run w (resolvePath inputPath type) past) with
         | Fulfilled found => found = inputPath
         | Rejected e =>
             (is_Error ("Path " ++ inputPath ++ " exists but is not a "
                        ++ type_name type) e
              /\ exists stats,
                   In (DidStat inputPath (inr stats)) asked
                   /\ is_a type stats = false)
             \/ (is_Error ("Cannot access " ++ type_name type
                           ++ " at absolute path: " ++ inputPath) e
                 /\ exists e0,
                      code e0 = Some "ENOENT"
                      /\ raised_on inputPath e0 asked)
             \/ (code e <> Some "ENOENT" /\ raised_on inputPath e asked)
         end.
Proof.
  intros w inputPath type past Habs. unfold resolvePath. rewrite Habs.
  cbn -[append String.eqb]. unfold raised_on.
  repeat (answer; try discriminate).
  all: rewrite <- ?app_assoc; cbn [app]; eexists; split; [reflexivity|].
  all: split;
    [repeat (apply Forall_cons;
             [first [left; reflexivity | right; eexists; reflexivity]|]);
     apply Forall_nil|].
  all: try reflexivity.
  all: unfold is_Error; cbn [message code].
  all: try match goal with
           | Hc : String.eqb ?c "ENOENT" = true |- _ =>
               apply String.eqb_eq in Hc; subst c
           | Hc : String.eqb ?c "ENOENT" = false |- _ =>
               apply String.eqb_neq in Hc
           end.
  all: try solve [left; split; [split; reflexivity|];
                  eexists; split; [cbn [In]; find_in | assumption]].
  all: try solve [right; left; split; [split; reflexivity|];
                  eexists; split; [eassumption | cbn [In]; find_in]].
  all: right; right; split; [congruence | cbn [In]; find_in].
Qed.

Lemma resolvePath_absolute_witness :
  exists asked : list step,
    snd (run sample_world (resolvePath "/work/build" file) []) = asked
    /\ asked = [DidAccess "/work/build" None;
                DidStat "/work/build" (inr IsDirectory);
                DidStack "Error"]
    /\ fst (run sample_world (resolvePath "/work/build" file) [])
       = Rejected {| message := "Path /work/build exists but is not a file";
                     code := None; stack := "Error" |}
    /\ Forall (fun s => probed s = Some "/work/build"
                        \/ exists trace, s = DidStack trace) asked.
Proof.
  destruct (resolvePath_absolute sample_world "/work/build" file [] eq_refl)
    as (asked & Hsnd & Hall & _).
  exists asked. split; [exact Hsnd|].
  split; [symmetry; exact Hsnd|].
  split; [reflexivity | exact Hall].
Defined.

(** X23.  A relative path is looked for under the working directory
    first: when [fs.access] and [fs.stat] find the type asked for there,
    that place is the result and nothing more is asked.  Only when this
    first place fails (an error of [fs.access] or [fs.stat], which is
    dropped, or another type) is the home directory asked for, and the
    result is then the place under [Desktop/webpack-analyzer-mcp] of the
    home directory, found in the same way. *)
Theorem resolvePath_relative :
  forall (w : world) (inputPath : string) (type : path_type)
         (found : string) (tr : list step),
    isAbsolute inputPath = false ->
    run w (resolvePath inputPath type) [] = (Fulfilled found, tr) ->
    (exists cwd asked,
       tr = ([DidCwd (inr cwd); DidResolve [cwd; inputPath] found]
             ++ asked)%list
       /\ found_at type found asked)
    \/ (exists cwd workspacePath first home asked,
          tr = ([DidCwd (inr cwd);
                 DidResolve [cwd; inputPath] workspacePath]
                ++ first
                ++ [DidHomedir (inr home);
                    DidResolve
                      [home; "Desktop/webpack-analyzer-mcp"; inputPath]
                      found]
                ++ asked)%list
          /\ not_found_at type workspacePath first
          /\ found_at type found asked).
Proof.
  intros w inputPath type found tr Habs. unfold resolvePath. rewrite Habs.
  cbn -[append String.eqb]. unfold found_at, not_found_at.
  repeat (answer; try discriminate).
  all: intro H; injection H as <- <-.
  all: first
    [ left; do 2 eexists; split; [reflexivity|];
      eexists; split; [reflexivity | assumption]
    | right; do 2 eexists;
      first
        [ refine (ex_intro _ [_] _); do 2 eexists;
          split; [reflexivity|]
        | refine (ex_intro _ [_; _] _); do 2 eexists;
          split; [reflexivity|] ];
      split;
      [ first [ left; eexists; reflexivity
              | right; left; eexists; reflexivity
              | right; right; eexists; split; [reflexivity | assumption] ]
      | eexists; split; [reflexivity | assumption] ] ].
Qed.

Lemma resolvePath_relative_witness :
  (exists cwd asked,
     snd (run sample_world (resolvePath "build" directory) [])
     = ([DidCwd (inr cwd); DidResolve [cwd; "build"] "/work/build"]
        ++ asked)%list
     /\ found_at directory "/work/build" asked)
  \/ (exists cwd workspacePath first home asked,
        snd (run sample_world (resolvePath "build" directory) [])
        = ([DidCwd (inr cwd); DidResolve [cwd; "build"] workspacePath]
           ++ first
           ++ [DidHomedir (inr home);
               DidResolve [home; "Desktop/webpack-analyzer-mcp"; "build"]
                 "/work/build"]
           ++ asked)%list
        /\ not_found_at directory workspacePath first
        /\ found_at directory "/work/build" asked).
Proof.
  exact (resolvePath_relative sample_world "build" directory _ _
           eq_refl eq_refl).
Defined.

(** X24.  On a relative path [resolvePath] never rejects with an error
    of [fs.access] or [fs.stat].  It rejects with [Cannot find <type> at
    either: ...], naming both places, whenever [fs.access] or [fs.stat]
    fails on the second place, whatever the first place held; with
    [Path ... exists but is not a <type>] when the second place holds
    another type; and otherwise only with the error of [process.cwd()] or
    [os.homedir()]. *)
Theorem resolvePath_relative_rejects :
  forall (w : world) (inputPath : string) (type : path_type)
         (e : js_error) (tr : list step),
    isAbsolute inputPath = false ->
    run w (resolvePath inputPath type) [] = (Rejected e, tr) ->
    In (DidCwd (inl e)) tr
    \/ In (DidHomedir (inl e)) tr
    \/ (exists cwd workspacePath home projectPath e0,
          In (DidResolve [cwd; inputPath] workspacePath) tr
          /\ In (DidResolve
                   [home; "Desktop/webpack-analyzer-mcp"; inputPath]
                   projectPath) tr
          /\ raised_on projectPath e0 tr
          /\ is_Error ("Cannot find " ++ type_name type ++ " at either:"
                       ++ newline
                       ++ "1. Workspace: " ++ workspacePath ++ newline
                       ++ "2. Project: " ++ projectPath ++ newline
                       ++ "Please provide a valid path relative to one of these locations or an absolute path.") e)
    \/ (exists home projectPath stats,
          In (DidResolve
                [home; "Desktop/webpack-analyzer-mcp"; inputPath]
                projectPath) tr
          /\ In (DidStat projectPath (inr stats)) tr
          /\ is_a type stats = false
          /\ is_Error ("Path " ++ inputPath ++ " exists but is not a "
                       ++ type_name type) e).
Proof.
  intros w inputPath type e tr Habs. unfold resolvePath. rewrite Habs.
  cbn -[append String.eqb]. unfold raised_on.
  repeat (answer; try discriminate).
  all: intro H; injection H as <- <-; cbn [app In]; unfold is_Error.
  all: first
    [ left; find_in
    | right; left; find_in
    | right; right; left; do 5 eexists;
      split; [find_in|]; split; [find_in|];
      split; [find_in | split; reflexivity]
    | right; right; right; do 3 eexists;
      split; [find_in|]; split; [find_in|];
      split; [eassumption | split; reflexivity] ].
Qed.

Lemma resolvePath_relative_rejects_witness :
  exists e tr,
    run sample_world (resolvePath "build" file) [] = (Rejected e, tr)
    /\ message e
       = "Cannot find file at either:" ++ newline
         ++ "1. Workspace: /work/build" ++ newline
         ++ "2. Project: /home/me/Desktop/webpack-analyzer-mcp/build"
         ++ newline
         ++ "Please provide a valid path relative to one of these locations or an absolute path."
    /\ In (DidStat "/work/build" (inr IsDirectory)) tr
    /\ (In (DidCwd (inl e)) tr
        \/ In (DidHomedir (inl e)) tr
        \/ (exists cwd workspacePath home projectPath e0,
              In (DidResolve [cwd; "build"] workspacePath) tr
              /\ In (DidResolve
                       [home; "Desktop/webpack-analyzer-mcp"; "build"]
                       projectPath) tr
              /\ raised_on projectPath e0 tr
              /\ is_Error ("Cannot find " ++ type_name file
                           ++ " at either:" ++ newline
                           ++ "1. Workspace: " ++ workspacePath ++ newline
                           ++ "2. Project: " ++ projectPath ++ newline
                           ++ "Please provide a valid path relative to one of these locations or an absolute path.") e)
        \/ (exists home projectPath stats,
              In (DidResolve
                    [home; "Desktop/webpack-analyzer-mcp"; "build"]
                    projectPath) tr
              /\ In (DidStat projectPath (inr stats)) tr
              /\ is_a file stats = false
              /\ is_Error ("Path " ++ "build" ++ " exists but is not a "
                           ++ type_name file) e)).
Proof.
  eexists. eexists. split; [vm_compute; reflexivity|].
  split; [reflexivity|]. split; [cbn [In]; find_in|].
  apply (resolvePath_relative_rejects sample_world "build" file);
    [reflexivity | vm_compute; reflexivity].
Defined.

(** * Properties of [analyzeWebpackStats] *)

Lemma validatePath_run :
  forall (w : world) (path : string) (type : path_type) (past : list step),
    exists (v : validation) (asked : list step),
      run w (validatePath path type) past = (Fulfilled v, (past ++ asked)%list)
      /\ Forall (fun s => path_question s = true) asked
      /\ ((valid v = true
           /\ exists found stats,
                resolvedPath v = Some found
                /\ In (DidStat found (inr stats)) asked
                /\ is_a type stats = true)
          \/ (valid v = false
              /\ resolvedPath v = None
              /\ exists reason, error v = Some reason)).
Proof.
  intros w path type past. unfold validatePath, resolvePath.
  destruct (isAbsolute path).
  all: cbn -[append String.eqb]; repeat answer.
  all: rewrite <- ?app_assoc; cbn [app]; eexists; eexists;
    (split; [reflexivity|]); (split; [repeat constructor|]).
  all: cbn [valid resolvedPath error];
    first [ right; split; [reflexivity|]; split; [reflexivity|];
            eexists; reflexivity
          | left; split; [reflexivity|]; eexists; eexists;
            split; [reflexivity|]; split; [cbn [In]; find_in | assumption] ].
Qed.

Lemma run_console_error_calls :
  forall (w : world) (calls : list (list console_arg)) (past : list step),
    run w (console_error_calls calls) past
    = (Fulfilled tt, (past ++ List.map DidLog calls)%list).
Proof.
  intros w calls. induction calls as [|args rest IH]; intro past; cbn.
  - rewrite app_nil_r. reflexivity.
  - rewrite IH, <- app_assoc. reflexivity.
Qed.

Lemma stats_after_same : forall stats : value, stats_after stats = stats.
Proof.
  intro stats. unfold stats_after, extractMetrics_run, try_catch.
  destruct (extractMetrics_try_run (initial_heap stats)) as [Hin _].
  destruct (extractMetrics_try (initial_heap stats)) as [h [r|]];
    simpl in Hin; simpl; exact Hin.
Qed.

Lemma run_call_extractMetrics :
  forall (w : world) (stats : value) (past : list step),
    run w (call_extractMetrics stats) past
    = (Fulfilled (metrics_of stats),
       (past ++ List.map DidLog (console (fst (extractMetrics_run stats))))%list).
Proof.
  intros w stats past. unfold call_extractMetrics.
  rewrite run_io_bind, run_console_error_calls. reflexivity.
Qed.

Lemma run_depends_on_next :
  forall (w : world) (lib : library) (packageJson : value)
         (past : list step),
    run w (depends_on_next lib packageJson) past
    = match JS.get packageJson "dependencies" with
      | Throw =>
          (Rejected {| message := reading_of_null lib "dependencies";
                       code := None; stack := on_stack w past |},
           (past ++ [DidStack (on_stack w past)])%list)
      | Normal _ =>
          (Fulfilled
             (JS.truthy
                (JS.get_opt (JS.get_opt packageJson "dependencies") "next")
              || JS.truthy
                   (JS.get_opt (JS.get_opt packageJson "devDependencies")
                      "next")),
           past)
      end.
Proof.
  intros w lib packageJson past. unfold depends_on_next.
  destruct packageJson; try reflexivity.
  cbn [JS.get JS.get_opt ret].
  destruct (JS.truthy (JS.get_opt (JS.own "dependencies" props) "next"));
    reflexivity.
Qed.

Lemma run_type_is_module :
  forall (w : world) (lib : library) (packageJson : value)
         (past : list step),
    run w (type_is_module lib packageJson) past
    = match JS.get packageJson "type" with
      | Throw =>
          (Rejected {| message := reading_of_null lib "type";
                       code := None; stack := on_stack w past |},
           (past ++ [DidStack (on_stack w past)])%list)
      | Normal _ =>
          (Fulfilled (is_module (JS.get_opt packageJson "type")), past)
      end.
Proof.
  intros w lib packageJson past. unfold type_is_module.
  destruct packageJson; reflexivity.
Qed.

(** One step of a run of a handler: the questions are answered one after
    the other, each answer by cases. *)
Ltac eval_io :=
  cbn [run io_bind io_catch settle settle_unit fs_access fs_stat
       process_cwd os_homedir path_resolve throw_new_Error
       throw_invalid_path console_error_line console_error_with fs_readFile fs_mkdir
       fs_writeFile require_resolve execAsync exec runningProcesses_add
       fs_rm existsSync fs_chmod parse_JSON read_generated_stats negb
       fst snd].

Ltac walk_step :=
  match goal with
  | |- context [run ?w (io_bind (validatePath ?p ?ty) ?f) ?past] =>
      let v := fresh "v" in
      let A := fresh "A" in
      let R := fresh "R" in
      let Q := fresh "Q" in
      let V := fresh "V" in
      let found := fresh "found" in
      let kind := fresh "kind" in
      let Hres := fresh "Hres" in
      let Hstat := fresh "Hstat" in
      let Hkind := fresh "Hkind" in
      rewrite (run_io_bind (validatePath p ty) f w past);
      destruct (validatePath_run w p ty past) as (v & A & R & Q & V);
      rewrite R;
      let reason := fresh "reason" in
      let Hwhy := fresh "Hwhy" in
      destruct V as [(V & found & kind & Hres & Hstat & Hkind)
                    | (V & Hres & reason & Hwhy)];
      rewrite ?V, ?Hres, ?Hwhy
  | |- context [run ?w (io_bind (call_extractMetrics ?s) ?f) ?past] =>
      rewrite (run_io_bind (call_extractMetrics s) f w past),
        run_call_extractMetrics
  | |- context [run ?w (io_bind (depends_on_next ?lib ?v) ?f) ?past] =>
      rewrite (run_io_bind (depends_on_next lib v) f w past),
        run_depends_on_next;
      destruct (JS.get v "dependencies") eqn:?
  | |- context [run ?w (io_bind (type_is_module ?lib ?v) ?f) ?past] =>
      rewrite (run_io_bind (type_is_module lib v) f w past),
        run_type_is_module;
      destruct (JS.get v "type") eqn:?
  | |- context [settle ?r] => destruct r eqn:?
  | |- context [parse_JSON ?lib ?c] =>
      unfold parse_JSON; destruct (JSON_parse lib c) eqn:?
  | |- context [settle_unit ?r] => destruct r eqn:?
  | |- context [run _ (io_bind (if negb ?b then _ else _) _) _] =>
      destruct b eqn:?
  | |- context [run _ (io_bind (if ?b then _ else _) _) _] =>
      destruct b eqn:?
  | |- context [run _ (io_bind (match ?x with _ => _ end) _) _] =>
      destruct x eqn:?
  | |- context [run _ (io_bind (io_bind (match ?x with _ => _ end) _) _) _] =>
      destruct x eqn:?
  | |- context [run _ (io_bind (io_bind (if negb ?b then _ else _) _) _) _] =>
      destruct b eqn:?
  | |- context [run _ (io_bind (io_bind (if ?b then _ else _) _) _) _] =>
      destruct b eqn:?
  | |- context [run _ (match ?x with _ => _ end) _] =>
      destruct x eqn:?
  | |- context [run ?w (io_bind (io_bind ?t ?g) ?f) ?past] =>
      rewrite (run_io_bind (io_bind t g) f w past)
  | |- context [run ?w (io_bind (io_catch ?t ?h) ?f) ?past] =>
      rewrite (run_io_bind (io_catch t h) f w past),
        (run_io_catch t h w past)
  | |- context [io_bind (match ?x with _ => _ end) _] =>
      destruct x eqn:?
  end; eval_io.

Ltac walk :=
  unfold analyzeWebpackStats, analyzeWebpackStats_try;
  rewrite run_io_catch; eval_io;
  repeat walk_step.

(** Finding a step in the steps of a run. *)
Ltac find_step :=
  match goal with
  | |- In _ (_ ++ _) => apply in_or_app; find_step
  | |- _ \/ _ => (left; find_step) || (right; find_step)
  | |- In _ (_ :: _) => cbn [In]; find_step
  | |- _ = _ => reflexivity
  | |- In _ _ => assumption
  end.

Lemma is_a_file : forall kind, is_a file kind = true -> kind = IsFile.
Proof. intros []; simpl; congruence. Qed.

Lemma is_a_directory :
  forall kind, is_a directory kind = true -> kind = IsDirectory.
Proof. intros []; simpl; congruence. Qed.

(** X25.  [analyzeWebpackStats] never rejects; its answer is one of two.
    Either the error answer, [isError: true] with [success: false], the
    message [Error analyzing webpack stats: ] followed by the message of
    an error, and the stack of that error: then the run stopped at the
    step that raised the error, which is the last thing done, and an
    error made by the method itself has one of four messages.  The name
    of the stats file is looked at before anything else: when it does
    not end in [.json] the error is [Stats file must have .json
    extension] and nothing has been asked about any path.  Or the
    answer without [isError]: then the name ends in [.json], the stats
    file was found to be a file and read, [JSON.parse] accepted what was read, [metrics] is what
    [extractMetrics] makes of the parsed document, [rawStats] is that
    document when [includeRawStats] is [true] and [undefined] otherwise,
    and the output directory is the directory of the stats file when
    [outputDir] is absent or empty and otherwise a path that was found
    to be a directory. *)
Theorem analyzeWebpackStats_answers :
  forall (lib : library) (w : world) (args : AnalyzeWebpackBuildArgs),
    exists tr : list step,
      (exists (e : js_error) (before : list step) (s : step),
         run w (analyzeWebpackStats lib args) []
         = (Fulfilled (text_result lib (stats_not_analyzed e) (Some true)),
            tr)
         /\ tr = (before ++ [s])%list
         /\ raises s e
         /\ (forall trace, s = DidStack trace ->
             message e = "Stats file must have .json extension"
             \/ (exists reason,
                   message e
                   = invalid_stats_file (statsFile args) (Some reason))
             \/ (exists dir reason,
                   outputDir args = Some dir
                   /\ message e
                      = invalid_output_directory dir (Some reason))
             \/ (exists syntax,
                   message e
                   = "Failed to parse stats file: " ++ syntax
                     ++ ". Make sure it's a valid JSON file."))
         /\ (endsWith (statsFile args) ".json" = false ->
             before = []
             /\ message e = "Stats file must have .json extension"))
      \/ (exists (statsFilePath content : string) (stats : value)
                 (dir : string),
            run w (analyzeWebpackStats lib args) []
            = (Fulfilled
                 (text_result lib
                    (stats_analyzed lib dir (port_of (port args))
                       (not_false (generateReport args))
                       (metrics_of stats)
                       (if is_set (includeRawStats args) then stats
                        else VUndef))
                    None),
               tr)
            /\ endsWith (statsFile args) ".json" = true
            /\ In (DidStat statsFilePath (inr IsFile)) tr
            /\ In (DidReadFile statsFilePath (inr content)) tr
            /\ JSON_parse lib content = inr stats
            /\ match outputDir args with
               | None | Some EmptyString =>
                   dir = path_dirname lib statsFilePath
               | Some _ => In (DidStat dir (inr IsDirectory)) tr
               end).
Proof.
  intros lib w args. walk.
  all: repeat match goal with
         | H : is_a file _ = true |- _ => apply is_a_file in H; subst
         | H : is_a directory _ = true |- _ =>
             apply is_a_directory in H; subst
         | H : String.eqb _ "" = true |- _ => apply String.eqb_eq in H; subst
         end.
  all: eexists.
  all: first
    [ left; eexists; eexists; eexists;
      split; [reflexivity|]; split; [reflexivity|];
      split; [cbn; first [reflexivity | split; reflexivity]|];
      split; [|first [discriminate | intros _; split; reflexivity]];
      intros trace Htrace; try discriminate Htrace;
      cbn [message];
      first [ left; reflexivity
            | right; left; eexists; reflexivity
            | right; right; left; eexists; eexists; split; reflexivity
            | right; right; right; eexists; reflexivity ]
    | right; rewrite stats_after_same;
      match goal with
      | Hr : on_readFile _ _ ?p = inr ?c, Hp : JSON_parse _ ?c = inr ?st
        |- _ => exists p, c, st
      end;
      eexists;
      split; [reflexivity|]; split; [reflexivity|];
      split; [find_step|]; split; [find_step|];
      split; [assumption|];
      first [ reflexivity
            | match goal with
              | |- match ?d with _ => _ end =>
                  destruct d; [discriminate|]; find_step
              end ] ].
Qed.


Lemma path_question_changes :
  forall (asked : list step) (s : step),
    Forall (fun s => path_question s = true) asked ->
    In s asked -> changes s = true -> False.
Proof.
  intros asked s Hall Hin Hs. rewrite Forall_forall in Hall.
  specialize (Hall s Hin). destruct s; discriminate.
Qed.

Lemma log_changes :
  forall (calls : list (list console_arg)) (s : step),
    In s (List.map DidLog calls) -> changes s = true -> False.
Proof.
  intros calls s Hin Hs. apply in_map_iff in Hin.
  destruct Hin as (args & <- & _). discriminate.
Qed.

(** The cases of a step that is one of the steps of a run. *)
Ltac which_step :=
  repeat match goal with
    | H : In _ (_ ++ _) |- _ => apply in_app_or in H
    | H : _ \/ _ |- _ => destruct H
    | H : In _ (_ :: _) |- _ => cbn [In] in H
    | H : In _ [] |- _ => destruct H
    | H : False |- _ => destruct H
    end.

(** A step that changes nothing. *)
Ltac unchanged :=
  match goal with
  | Hin : In ?s ?A, Hs : changes ?s = true,
    Q : Forall (fun s => path_question s = true) ?A |- _ =>
      destruct (path_question_changes A s Q Hin Hs)
  | Hin : In ?s (List.map DidLog ?lines), Hs : changes ?s = true |- _ =>
      destruct (log_changes lines s Hin Hs)
  | Hs : changes ?s = true, E : _ = ?s |- _ =>
      subst s; discriminate Hs
  end.

(** X26.  What [analyzeWebpackStats] changes on the file system lies in
    the directory [temp-analyzer] of the output directory, and nothing is
    changed before the stats file has been read and parsed: the
    directory made and the directory removed are that directory, the one
    file written is [stats.json] in it, holding [JSON.stringify] of the
    parsed document, and the directory is removed only after it has been
    made and the command of the analyzer has succeeded.  The output
    directory is the directory of the stats file or a path that was
    found to be a directory. *)
Theorem analyzeWebpackStats_writes_in_temp_analyzer :
  forall (lib : library) (w : world) (args : AnalyzeWebpackBuildArgs)
         (s : step),
    In s (snd (run w (analyzeWebpackStats lib args) [])) ->
    changes s = true ->
    exists (statsFilePath content : string) (stats : value) (dir : string),
      In (DidReadFile statsFilePath (inr content))
         (snd (run w (analyzeWebpackStats lib args) []))
      /\ JSON_parse lib content = inr stats
      /\ (dir = path_dirname lib statsFilePath
          \/ In (DidStat dir (inr IsDirectory))
                (snd (run w (analyzeWebpackStats lib args) [])))
      /\ match s with
         | DidMkdir p _ => p = path_join lib [dir; "temp-analyzer"]
         | DidWriteFile p data _ =>
             p = path_join lib
                   [path_join lib [dir; "temp-analyzer"]; "stats.json"]
             /\ data = JSON_stringify lib stats
         | DidRm p _ =>
             p = path_join lib [dir; "temp-analyzer"]
             /\ In (DidMkdir p None)
                   (snd (run w (analyzeWebpackStats lib args) []))
             /\ exists command out,
                  In (DidExecAsync command (inr out))
                     (snd (run w (analyzeWebpackStats lib args) []))
         | _ => True
         end.
Proof.
  intros lib w args s. walk.
  all: cbn [snd]; intros Hin Hs; which_step; try unchanged.
  all: repeat match goal with
         | H : is_a directory _ = true |- _ =>
             apply is_a_directory in H; subst
         end.
  all: subst;
    match goal with
    | Hr : on_readFile _ _ ?p = inr ?c, Hp : JSON_parse _ ?c = inr ?st
      |- _ => exists p, c, st
    end;
    eexists; split; [find_step|]; split; [assumption|];
    match goal with
    | |- ?origin /\ ?place =>
        assert (Hplace : place);
        [ first [ exact I
                | reflexivity
                | split; reflexivity
                | split; [reflexivity|]; split; [find_step|];
                  eexists; eexists; find_step ]
        | split; [|exact Hplace];
          first [left; reflexivity | right; find_step] ]
    end.
Qed.

Lemma analyzeWebpackStats_writes_in_temp_analyzer_witness :
  exists (statsFilePath content : string) (stats : value) (dir : string),
    In (DidReadFile statsFilePath (inr content))
       (snd (run sample_world
               (analyzeWebpackStats sample_library sample_args) []))
    /\ JSON_parse sample_library content = inr stats
    /\ (dir = path_dirname sample_library statsFilePath
        \/ In (DidStat dir (inr IsDirectory))
              (snd (run sample_world
                      (analyzeWebpackStats sample_library sample_args) [])))
    /\ "/work/build/temp-analyzer/stats.json"
       = path_join sample_library
           [path_join sample_library [dir; "temp-analyzer"]; "stats.json"]
    /\ "{}" = JSON_stringify sample_library stats.
Proof.
  exact (analyzeWebpackStats_writes_in_temp_analyzer sample_library
           sample_world sample_args
           (DidWriteFile "/work/build/temp-analyzer/stats.json" "{}" None)
           ltac:(vm_compute; tauto) eq_refl).
Defined.

(** A step that is not among the steps of a run. *)
Ltac absent :=
  match goal with
  | Hin : In ?s ?A, Q : Forall (fun s => path_question s = true) ?A |- _ =>
      let H := fresh in
      pose proof (proj1 (Forall_forall _ _) Q _ Hin) as H; discriminate H
  | Hin : In ?s (List.map DidLog ?lines) |- _ =>
      apply in_map_iff in Hin; destruct Hin as (? & Hin & _);
      discriminate Hin
  | H : _ = _ |- _ => discriminate H
  end.

Ltac walk_on :=
  rewrite run_io_catch; eval_io; repeat walk_step.

(** X27.  With [generateReport] absent or [true], [analyzeWebpackStats]
    starts no server.  The one command it runs, and waits for, is
    [node "<analyzer>" "<stats>" -m static -r "<report>" -O], on the
    analyzer [require.resolve] found, the [stats.json] written into
    [temp-analyzer] and [report.html] in the output directory.  The
    answer is without [isError] exactly when the run came to remove
    [temp-analyzer] and [fs.rm] succeeded: whenever the making of the
    directory, the writing, [require.resolve] or the command fails, the
    answer is the error answer and what was made so far stays. *)
Theorem analyzeWebpackStats_report :
  forall (lib : library) (w : world) (args : AnalyzeWebpackBuildArgs),
    generateReport args <> Some false ->
    (forall command child,
       ~ In (DidExec command child)
            (snd (run w (analyzeWebpackStats lib args) [])))
    /\ (forall command r,
          In (DidExecAsync command r)
             (snd (run w (analyzeWebpackStats lib args) [])) ->
          exists analyzerPath dir,
            In (DidRequireResolve
                  "webpack-bundle-analyzer/lib/bin/analyzer.js"
                  (inr analyzerPath))
               (snd (run w (analyzeWebpackStats lib args) []))
            /\ (exists data,
                  In (DidWriteFile
                        (path_join lib
                           [path_join lib [dir; "temp-analyzer"];
                            "stats.json"])
                        data None)
                     (snd (run w (analyzeWebpackStats lib args) [])))
            /\ command
               = "node " ++ quote ++ analyzerPath ++ quote ++ " "
                 ++ quote
                 ++ path_join lib
                      [path_join lib [dir; "temp-analyzer"]; "stats.json"]
                 ++ quote ++ " -m static -r " ++ quote
                 ++ path_join lib [dir; "report.html"] ++ quote ++ " -O")
    /\ exists r : tool_result,
         fst (run w (analyzeWebpackStats lib args) []) = Fulfilled r
         /\ (isError r = None
             <-> exists p,
                   In (DidRm p None)
                      (snd (run w (analyzeWebpackStats lib args) []))).
Proof.
  intros lib w args Hgen.
  assert (Hreport : not_false (generateReport args) = true)
    by (destruct (generateReport args) as [[|]|] eqn:E;
        first [reflexivity | congruence]).
  unfold analyzeWebpackStats, analyzeWebpackStats_try. rewrite Hreport.
  walk_on.
  all: cbn [fst snd]; split;
    [intros command child Hin; which_step; absent|].
  all: split;
    [intros command r Hin; which_step; try absent;
     (match goal with
      | H : DidExecAsync _ _ = DidExecAsync _ _ |- _ =>
          injection H as <- <-
      end;
      eexists; eexists; split; [find_step|];
      split; [eexists; find_step | reflexivity])|].
  all: eexists; split; [reflexivity|]; cbn [isError text_result].
  all: split;
    [ first [ discriminate | intros _; eexists; find_step ]
    | first [ intros _; reflexivity
            | intros (? & Hin); which_step; absent ] ].
Qed.

Lemma analyzeWebpackStats_report_witness :
  (exists analyzerPath dir,
     In (DidRequireResolve "webpack-bundle-analyzer/lib/bin/analyzer.js"
           (inr analyzerPath))
        (snd (run sample_world
                (analyzeWebpackStats sample_library sample_args) []))
     /\ (exists data,
           In (DidWriteFile
                 (path_join sample_library
                    [path_join sample_library [dir; "temp-analyzer"];
                     "stats.json"])
                 data None)
              (snd (run sample_world
                      (analyzeWebpackStats sample_library sample_args) [])))
     /\ "node " ++ quote
        ++ "/lib/webpack-bundle-analyzer/lib/bin/analyzer.js" ++ quote
        ++ " " ++ quote ++ "/work/build/temp-analyzer/stats.json" ++ quote
        ++ " -m static -r " ++ quote ++ "/work/build/report.html" ++ quote
        ++ " -O"
        = "node " ++ quote ++ analyzerPath ++ quote ++ " "
          ++ quote
          ++ path_join sample_library
               [path_join sample_library [dir; "temp-analyzer"];
                "stats.json"]
          ++ quote ++ " -m static -r " ++ quote
          ++ path_join sample_library [dir; "report.html"] ++ quote
          ++ " -O")
  /\ exists r : tool_result,
       fst (run sample_world
              (analyzeWebpackStats sample_library sample_args) [])
       = Fulfilled r
       /\ isError r = None.
Proof.
  destruct (analyzeWebpackStats_report sample_library sample_world
              sample_args ltac:(discriminate))
    as (_ & Hcommand & r & Hrun & Hok).
  split.
  - apply (Hcommand _ (inr ("", ""))). vm_compute. tauto.
  - exists r. split; [exact Hrun|]. apply Hok.
    exists "/work/build/temp-analyzer". vm_compute. tauto.
Defined.

(** X28.  With [generateReport: false], [analyzeWebpackStats] waits for
    no command and removes nothing: [temp-analyzer] and its
    [stats.json] stay.  The process it starts runs
    [node "<analyzer>" "<stats>" -m server -p <port> ] followed by [-O]
    unless [openBrowser] is [false], with the port [8888] when [port] is
    absent, zero or no number; the process is put among the running
    processes.  The answer is without [isError] exactly when the process
    was started, whatever becomes of it. *)
Theorem analyzeWebpackStats_server :
  forall (lib : library) (w : world) (args : AnalyzeWebpackBuildArgs),
    generateReport args = Some false ->
    (forall command r,
       ~ In (DidExecAsync command r)
            (snd (run w (analyzeWebpackStats lib args) [])))
    /\ (forall p r,
          ~ In (DidRm p r) (snd (run w (analyzeWebpackStats lib args) [])))
    /\ (forall command child,
          In (DidExec command child)
             (snd (run w (analyzeWebpackStats lib args) [])) ->
          In (DidTrack child)
             (snd (run w (analyzeWebpackStats lib args) []))
          /\ exists analyzerPath dir,
               In (DidRequireResolve
                     "webpack-bundle-analyzer/lib/bin/analyzer.js"
                     (inr analyzerPath))
                  (snd (run w (analyzeWebpackStats lib args) []))
               /\ (exists data,
                     In (DidWriteFile
                           (path_join lib
                              [path_join lib [dir; "temp-analyzer"];
                               "stats.json"])
                           data None)
                        (snd (run w (analyzeWebpackStats lib args) [])))
               /\ command
                  = "node " ++ quote ++ analyzerPath ++ quote ++ " "
                    ++ quote
                    ++ path_join lib
                         [path_join lib [dir; "temp-analyzer"];
                          "stats.json"]
                    ++ quote ++ " -m server -p "
                    ++ Num.toString
                         (match port args with
                          | Some n =>
                              if is_zero n || is_nan n then 8888%float
                              else n
                          | None => 8888%float
                          end)
                    ++ " "
                    ++ (match openBrowser args with
                        | Some false => ""
                        | _ => "-O"
                        end))
    /\ exists r : tool_result,
         fst (run w (analyzeWebpackStats lib args) []) = Fulfilled r
         /\ (isError r = None
             <-> exists command child,
                   In (DidExec command child)
                      (snd (run w (analyzeWebpackStats lib args) []))).
Proof.
  intros lib w args Hgen.
  unfold analyzeWebpackStats, analyzeWebpackStats_try. rewrite Hgen.
  cbn [not_false]. walk_on.
  all: cbn [fst snd]; split;
    [intros command r Hin; which_step; absent|].
  all: split; [intros p r Hin; which_step; absent|].
  all: split;
    [intros command child Hin; which_step; try absent;
     (match goal with
      | H : DidExec _ _ = DidExec _ _ |- _ => injection H as <- <-
      end;
      split; [find_step|];
      eexists; eexists; split; [find_step|];
      split; [eexists; find_step|];
      unfold port_of, not_false, JS.truthy;
      destruct (port args) as [n|];
      [destruct (is_zero n || is_nan n)|];
      destruct (openBrowser args) as [[|]|]; reflexivity)|].
  all: eexists; split; [reflexivity|]; cbn [isError text_result].
  all: split;
    [ first [ discriminate | intros _; eexists; eexists; find_step ]
    | first [ intros _; reflexivity
            | intros (? & ? & Hin); which_step; absent ] ].
Qed.

Lemma analyzeWebpackStats_server_witness :
  (forall p r,
     ~ In (DidRm p r)
          (snd (run sample_world
                  (analyzeWebpackStats sample_library
                     {| statsFile := "build/stats.json"; outputDir := None;
                        port := Some 0%float; openBrowser := Some false;
                        generateReport := Some false;
                        includeRawStats := None |}) [])))
  /\ In (DidExec
           ("node " ++ quote
            ++ "/lib/webpack-bundle-analyzer/lib/bin/analyzer.js" ++ quote
            ++ " " ++ quote ++ "/work/build/temp-analyzer/stats.json"
            ++ quote ++ " -m server -p 8888 ")
           1)
        (snd (run sample_world
                (analyzeWebpackStats sample_library
                   {| statsFile := "build/stats.json"; outputDir := None;
                      port := Some 0%float; openBrowser := Some false;
                      generateReport := Some false;
                      includeRawStats := None |}) []))
  /\ exists r : tool_result,
       fst (run sample_world
              (analyzeWebpackStats sample_library
                 {| statsFile := "build/stats.json"; outputDir := None;
                    port := Some 0%float; openBrowser := Some false;
                    generateReport := Some false;
                    includeRawStats := None |}) [])
       = Fulfilled r
       /\ isError r = None.
Proof.
  destruct (analyzeWebpackStats_server sample_library sample_world
              {| statsFile := "build/stats.json"; outputDir := None;
                 port := Some 0%float; openBrowser := Some false;
                 generateReport := Some false;
                 includeRawStats := None |} eq_refl)
    as (_ & Hrm & _ & r & Hrun & Hok).
  split; [exact Hrm|].
  assert (Hexec :
    In (DidExec
          ("node " ++ quote
           ++ "/lib/webpack-bundle-analyzer/lib/bin/analyzer.js" ++ quote
           ++ " " ++ quote ++ "/work/build/temp-analyzer/stats.json"
           ++ quote ++ " -m server -p 8888 ")
          1)
       (snd (run sample_world
               (analyzeWebpackStats sample_library
                  {| statsFile := "build/stats.json"; outputDir := None;
                     port := Some 0%float; openBrowser := Some false;
                     generateReport := Some false;
                     includeRawStats := None |}) [])))
    by (vm_compute; tauto).
  split; [exact Hexec|].
  exists r. split; [exact Hrun|]. apply Hok. eexists. eexists. exact Hexec.
Defined.

(** * Properties of [analyzeWebpackConfig] *)


(** * Properties of [analyzeNextjsBuild] *)

(** X30.  [analyzeNextjsBuild] never rejects, and its answer is without
    [isError] exactly when the command [node
    <outputDir>/run-next-build.js] succeeded.  Then [package.json] of
    the project directory was there, was read and parsed, and names
    [next] among its [dependencies] or [devDependencies]: a directory
    without [package.json] is never taken for a Next.js project.  The
    project counts as one of ES modules when [type] of [package.json] is
    [module], or when there is no [next.config.js] but a
    [next.config.mjs].  The configuration written is
    [next.analyzer.config.mjs] with the ES module text, or
    [next.analyzer.config.js] with the CommonJS text; it takes its base
    from [next.config.mjs] whenever the project counts as one of ES
    modules and from [next.config.js] otherwise, also when the file that
    was found is the other one, and has no base when neither was found.
    The script written, made executable and run is [run-next-build.js].
    [metrics] and [rawStats] are [null] unless [stats.json] of the output
    directory is there, is read and is parsed.  An error answer comes
    from the step the run stopped at, before the command succeeded.
    Nothing is removed. *)
Theorem analyzeNextjsBuild_answers :
  forall (lib : library) (w : world)
         (args : Nextjs.AnalyzeNextjsBuildArgs),
    exists tr : list step,
      ((exists (e : js_error) (before : list step) (s : step),
          run w (analyzeNextjsBuild lib args) []
          = (Fulfilled (text_result lib (nextjs_not_analyzed e) (Some true)),
             tr)
          /\ tr = (before ++ [s])%list
          /\ raises s e
          /\ forall command out,
               ~ In (DidExecAsync command (inr out)) tr)
       \/ (exists (projectDir dir content : string) (packageJson : value)
                  (isESM : bool) (configImportPath : option string)
                  (stdout stderr : string) (metrics rawStats : value),
             run w (analyzeNextjsBuild lib args) []
             = (Fulfilled
                  (text_result lib
                     (build_analyzed lib "Next.js" dir
                        (port_of (Nextjs.port args))
                        (not_false (Nextjs.generateReport args))
                        metrics rawStats stdout stderr)
                     None),
                tr)
             /\ In (DidExistsSync (path_join lib [projectDir; "package.json"])
                      true) tr
             /\ In (DidReadFile (path_join lib [projectDir; "package.json"])
                      (inr content)) tr
             /\ JSON_parse lib content = inr packageJson
             /\ JS.truthy
                  (JS.get_opt (JS.get_opt packageJson "dependencies") "next")
                || JS.truthy
                     (JS.get_opt (JS.get_opt packageJson "devDependencies")
                        "next")
                = true
             /\ ((In (DidExistsSync
                        (path_join lib [projectDir; "next.config.js"]) true)
                     tr
                  /\ isESM = is_module (JS.get_opt packageJson "type")
                  /\ configImportPath
                     = Some (if isESM
                             then path_join lib
                                    [projectDir; "next.config.mjs"]
                             else path_join lib
                                    [projectDir; "next.config.js"]))
                 \/ (In (DidExistsSync
                           (path_join lib [projectDir; "next.config.js"])
                           false) tr
                     /\ In (DidExistsSync
                              (path_join lib [projectDir; "next.config.mjs"])
                              true) tr
                     /\ isESM = true
                     /\ configImportPath
                        = Some (path_join lib
                                  [projectDir; "next.config.mjs"]))
                 \/ (In (DidExistsSync
                           (path_join lib [projectDir; "next.config.js"])
                           false) tr
                     /\ In (DidExistsSync
                              (path_join lib [projectDir; "next.config.mjs"])
                              false) tr
                     /\ isESM = is_module (JS.get_opt packageJson "type")
                     /\ configImportPath = None))
             /\ In (DidWriteFile
                      (path_join lib
                         [dir;
                          if isESM then "next.analyzer.config.mjs"
                          else "next.analyzer.config.js"])
                      ((if isESM then esm_next_config
                        else commonjs_next_config)
                         configImportPath
                         (if not_false (Nextjs.generateReport args)
                          then "'static'" else "'server'")
                         (port_of (Nextjs.port args))
                         (not_false (Nextjs.openBrowser args))
                         (path_join lib [dir; "report.html"])
                         (path_join lib [dir; "stats.json"]))
                      None) tr
             /\ In (DidWriteFile (path_join lib [dir; "run-next-build.js"])
                      (next_build_script projectDir
                         (path_join lib
                            [dir;
                             if isESM then "next.analyzer.config.mjs"
                             else "next.analyzer.config.js"]))
                      None) tr
             /\ In (DidChmod (path_join lib [dir; "run-next-build.js"]) 493
                      None) tr
             /\ In (DidExecAsync
                      ("node " ++ path_join lib [dir; "run-next-build.js"])
                      (inr (stdout, stderr))) tr
             /\ ((metrics = VNull /\ rawStats = VNull)
                 \/ exists statsContent stats,
                      In (DidReadFile (path_join lib [dir; "stats.json"])
                            (inr statsContent)) tr
                      /\ JSON_parse lib statsContent = inr stats
                      /\ metrics = metrics_of stats
                      /\ rawStats
                         = if is_set (Nextjs.includeRawStats args)
                           then stats else VUndef)))
      /\ forall p res, ~ In (DidRm p res) tr.
Proof.
  intros lib w args. unfold analyzeNextjsBuild, analyzeNextjsBuild_try.
  walk_on.
  all: repeat match goal with
         | p : (string * string)%type |- _ => destruct p
         end.
  all: rewrite ?stats_after_same; eexists.
  all: split;
    [ first
        [ left; eexists; eexists; eexists;
          split; [reflexivity|]; split; [reflexivity|];
          split; [cbn; first [reflexivity | split; reflexivity]|];
          intros ? ? Hin; which_step; absent
        | right; do 10 eexists;
          split; [reflexivity|];
          split; [find_step|];
          split; [find_step|];
          split; [eassumption|];
          split; [assumption|];
          split;
          [ first
              [ left; split; [find_step|]; split; reflexivity
              | right; left; split; [find_step|]; split; [find_step|];
                split; reflexivity
              | right; right; split; [find_step|]; split; [find_step|];
                split; reflexivity ] |];
          split; [find_step|];
          split; [find_step|];
          split; [find_step|];
          split; [find_step|];
          first [ left; split; reflexivity
                | right; eexists; eexists; split; [find_step|];
                  split; [eassumption|]; split; reflexivity ] ]
    | intros ? ? Hin; which_step; absent ].
Qed.
